(** * teklif-backend: quotation amounts, lifecycle, tenancy and rendering

    A shallow embedding of [server.py] (a FastAPI application over a
    relational store reached through the Supabase client) and the
    properties its specification states about it.

    Layout of the development:
    - [Py]: the Python values the handlers compute with: [str] as a
      sequence of code points, [float] as IEEE 754 binary64 (the kernel's
      primitive floats), [int] as [Z], the built-ins [sum], [str], the
      format specifier [.2f], true division of integers, and the JSON
      encoder through which every payload reaches the store;
    - [Store]: the tables of the persistence gateway and its filtered
      select / insert / update / delete;
    - [Server]: the request handlers, each a function from the store to an
      outcome and a new store;
    - the theorems. *)

From Stdlib Require Import ZArith NArith QArith List Bool Lia Floats Ascii String.
From Stdlib Require Import DecimalPos.
From Stdlib Require Import Sorted.
Import ListNotations.
Close Scope Q_scope.

(** A decimal float literal stands for the nearest binary64 value. *)
Set Warnings "-inexact-float".

(* ================================================================== *)
(** * Python values *)
(* ================================================================== *)

Module Py.

(** ** [str] *)

(** A Python [str] is a sequence of Unicode code points; slicing and
    [len] count code points. *)
Definition char := N.
Definition str := list char.

(** The code points of an ASCII literal. *)
Definition lit (s : String.string) : str :=
  List.map N_of_ascii (list_ascii_of_string s).

(** Code points outside ASCII that the rendered texts use. *)
Definition TURKISH_LIRA_SIGN : char := 8378%N.      (* U+20BA *)
Definition CAPITAL_I_WITH_DOT : char := 304%N.      (* U+0130 *)
Definition SMALL_U_DIAERESIS : char := 252%N.       (* U+00FC *)
Definition CAPITAL_U_DIAERESIS : char := 220%N.     (* U+00DC *)
Definition SMALL_S_CEDILLA : char := 351%N.         (* U+015F *)

Definition str_eqb (a b : str) : bool :=
  if list_eq_dec N.eq_dec a b then true else false.

(** [s[:n]] for a non-negative literal [n]. *)
Definition slice_to (n : nat) (s : str) : str := firstn n s.

(** Truth value of an [Optional[str]] as [if d.get(k):] tests it:
    [None] and the empty string are false. *)
Definition truthy (o : option str) : bool :=
  match o with
  | Some (_ :: _) => true
  | _ => false
  end.

Definition is_digit (c : char) : bool := (48 <=? c)%N && (c <=? 57)%N.

Definition digit_char (d : N) : char := (48 + d)%N.

Fixpoint uint_chars (u : Decimal.uint) : str :=
  match u with
  | Decimal.Nil => []
  | Decimal.D0 u => digit_char 0 :: uint_chars u
  | Decimal.D1 u => digit_char 1 :: uint_chars u
  | Decimal.D2 u => digit_char 2 :: uint_chars u
  | Decimal.D3 u => digit_char 3 :: uint_chars u
  | Decimal.D4 u => digit_char 4 :: uint_chars u
  | Decimal.D5 u => digit_char 5 :: uint_chars u
  | Decimal.D6 u => digit_char 6 :: uint_chars u
  | Decimal.D7 u => digit_char 7 :: uint_chars u
  | Decimal.D8 u => digit_char 8 :: uint_chars u
  | Decimal.D9 u => digit_char 9 :: uint_chars u
  end.

(** Decimal digits of a natural number, most significant first,
    ["0"] for zero. *)
Definition nat_digits (n : N) : str := uint_chars (N.to_uint n).

Definition MINUS : char := 45%N.
Definition DOT : char := 46%N.

(** [str(i)] for an [int]. *)
Definition str_of_int (i : Z) : str :=
  match i with
  | Zneg p => MINUS :: nat_digits (Npos p)
  | _ => nat_digits (Z.to_N i)
  end.

(** Left padding with ["0"] to [width] characters, as the zero-padded
    fields of [strftime] and of the fraction of [.2f]. *)
Definition zfill (width : nat) (s : str) : str :=
  repeat (digit_char 0) (width - List.length s) ++ s.

(** ** [float] *)

Definition float := PrimFloat.float.

(** [math.isfinite]. *)
Definition isfinite (x : float) : bool :=
  match Prim2SF x with
  | S754_zero _ | S754_finite _ _ _ => true
  | _ => false
  end.

(** The exceptions the arithmetic of the handlers and the encoder of
    their payloads can raise. *)
Inductive exception : Type :=
| OverflowError
| ZeroDivisionError
| AttributeError
| IndexError
| TypeError
| ValueError.

(** [a / b] for two [int]s: the quotient correctly rounded to binary64
    (round half to even), [-0.0] for a zero dividend and a negative
    divisor, [ZeroDivisionError] for a zero divisor and [OverflowError]
    when the rounded quotient is not finite.  The quotient is scaled so
    that its integer part keeps more than 64 bits, the remainder is kept
    as a sticky bit, and the result is rounded once. *)
Definition int_truediv (a b : Z) : float + exception :=
  if (b =? 0)%Z then inr ZeroDivisionError
  else
    let negate := xorb (a <? 0)%Z (b <? 0)%Z in
    let A := Z.abs a in
    let B := Z.abs b in
    if (A =? 0)%Z then inl (if negate then (-0)%float else 0%float)
    else
      let k := (64 + Z.log2 B)%Z in
      let q := (Z.shiftl A k / B)%Z in
      let sticky := if (Z.shiftl A k mod B =? 0)%Z then 0%Z else 1%Z in
      let m := (2 * q + sticky)%Z in
      let r := binary_normalize prec emax m (- (k + 1)) false in
      match r with
      | S754_infinity _ | S754_nan => inr OverflowError
      | _ => inl (let f := SF2Prim r in if negate then (- f)%float else f)
      end.

(** [float(i)] as the mixed operations [float * int] and [int + float]
    convert their [int] operand (correctly rounded; the handlers only
    meet it at literals and at the start value of [sum]). *)
Definition float_of_int (i : Z) : float :=
  SF2Prim (binary_normalize prec emax i 0 false).

(** [sum(xs)] over floats: the start value is the [int] 0 and the items
    are added from left to right.  (An empty [xs] yields the [int] 0,
    which every later operation of the handlers converts to [0.0].
    CPython from 3.12 on carries a compensation term besides; it stays
    zero, and the two sums agree, whenever every partial sum is exact.) *)
Definition sum (xs : list float) : float :=
  fold_left PrimFloat.add xs 0%float.

(** The real number a float stands for, as the fraction [m * 2^e];
    [None] for the non-finite values. *)
Definition exact_value (x : float) : option Q :=
  match Prim2SF x with
  | S754_zero _ => Some 0%Q
  | S754_finite s m e =>
      let v := match e with
               | Zneg p => Qmake (Zpos m) (Pos.shiftl 1 (Npos p))
               | _ => inject_Z (Z.shiftl (Zpos m) e)
               end in
      Some (if s then Qopp v else v)
  | _ => None
  end.

(** Truth value of an [Optional[float]] in [x or y]: [None], [0.0] and
    [-0.0] are false, every other float (also NaN) is true. *)
Definition float_truthy (o : option float) : bool :=
  match o with
  | Some x => negb (PrimFloat.eqb x 0%float)
  | None => false
  end.

(** ** [format(x, ".2f")] *)

(** [m * 2^e * 100] rounded to the nearest integer, ties to even. *)
Definition round_hundredths (m : positive) (e : Z) : N :=
  match e with
  | Zneg p =>
      let num := (Npos m * 100)%N in
      let den := N.shiftl 1 (Npos p) in
      let q := (num / den)%N in
      let r := (num mod den)%N in
      match (2 * r ?= den)%N with
      | Lt => q
      | Gt => (q + 1)%N
      | Eq => if N.even q then q else (q + 1)%N
      end
  | _ => (N.shiftl (Npos m) (Z.to_N e) * 100)%N
  end.

(** The digits of [n] hundredths: integer part, point, two decimals. *)
Definition fixed2 (n : N) : str :=
  nat_digits (n / 100) ++ DOT :: zfill 2 (nat_digits (n mod 100)).

Definition sign_prefix (s : bool) : str := if s then [MINUS] else [].

(** [f"{x:.2f}"]: the exact binary value rounded half-even to two
    decimals; the sign is kept when the rounded value is zero; the
    non-finite values print as [inf], [-inf] and [nan]. *)
Definition format_2f (x : float) : str :=
  match Prim2SF x with
  | S754_zero s => sign_prefix s ++ fixed2 0
  | S754_finite s m e => sign_prefix s ++ fixed2 (round_hundredths m e)
  | S754_infinity s => sign_prefix s ++ lit "inf"
  | S754_nan => lit "nan"
  end.

(** ** The JSON encoder *)

(** The values of the dictionary a handler hands to the client of the
    store for an insert or an update.  A [datetime] is among them: the
    handlers pass [model.dict()] on as it is. *)
Inductive payload_value : Type :=
| json_null
| json_bool (b : bool)
| json_int (i : Z)
| json_float (x : float)
| json_str (s : str)
| datetime_object.

(** What [json.dumps(..., allow_nan=False)] raises at one value: a
    float that is not finite is refused with [ValueError], an object
    that is no JSON data with [TypeError]. *)
Definition refused (v : payload_value) : option exception :=
  match v with
  | json_float x => if isfinite x then None else Some ValueError
  | datetime_object => Some TypeError
  | _ => None
  end.

(** The client encodes the payload before it sends anything: the values
    are encoded in the order of the dictionary, and the first one that
    is refused ends the request. *)
Fixpoint json_dumps_raises (payload : list payload_value)
  : option exception :=
  match payload with
  | [] => None
  | v :: rest =>
      match refused v with
      | Some e => Some e
      | None => json_dumps_raises rest
      end
  end.
Arguments json_dumps_raises : simpl never.

(** ** Ordering of [str] and [sorted(set(...))] *)

(** [a < b], [a == b], [a > b] on [str]: code point by code point, a
    proper prefix first. *)
Fixpoint str_compare (a b : str) : comparison :=
  match a, b with
  | [], [] => Eq
  | [], _ :: _ => Lt
  | _ :: _, [] => Gt
  | x :: a', y :: b' =>
      match (x ?= y)%N with
      | Eq => str_compare a' b'
      | c => c
      end
  end.

Fixpoint insert_sorted (x : str) (l : list str) : list str :=
  match l with
  | [] => [x]
  | y :: l' =>
      match str_compare x y with
      | Lt => x :: l
      | Eq => l
      | Gt => y :: insert_sorted x l'
      end
  end.

(** [sorted(list(set(xs)))]: the distinct elements of [xs] in
    increasing order. *)
Definition sorted_set (xs : list str) : list str :=
  fold_right insert_sorted [] xs.

End Py.

(* ================================================================== *)
(** * The persistence gateway *)
(* ================================================================== *)

Module Store.

(** Row identifiers.  The store generates them; they are modelled as a
    counter, so that a generated identifier is new. *)
Definition id := N.

(** A field of a request model that the caller may leave out:
    [dict()] fills in the default, [dict(exclude_unset=True)] leaves the
    key out. *)
Inductive field (A : Type) : Type :=
| Unset
| Given (a : A).
Arguments Unset {A}.
Arguments Given {A} a.

Definition value_or {A} (default : A) (f : field A) : A :=
  match f with
  | Unset => default
  | Given a => a
  end.

(** The column after an update whose payload holds the key only when
    the field was given. *)
Definition assign {A} (f : field A) (old : A) : A :=
  match f with
  | Unset => old
  | Given a => a
  end.

Record datetime : Type := {
  year : N; month : N; day : N; hour : N; minute : N; second : N
}.

(** ** Rows *)

Record user_row : Type := {
  u_id : id;
  u_email : Py.str;
  u_password_hash : Py.str;
  u_full_name : Py.str;
  u_subscription_plan : Py.str;
  u_subscription_status : Py.str;
  u_default_tax_rate : Z;
  u_company : option Py.str;
  u_company_address : option Py.str;
  u_phone : option Py.str
}.

(** [CustomerCreate]. *)
Record CustomerCreate : Type := {
  cc_name : Py.str;
  cc_email : field (option Py.str);
  cc_phone : field (option Py.str);
  cc_company : field (option Py.str);
  cc_address : field (option Py.str);
  cc_tax_number : field (option Py.str);
  cc_tax_office : field (option Py.str);
  cc_notes : field (option Py.str)
}.

Record customer_row : Type := {
  c_id : id;
  c_user_id : id;
  c_name : Py.str;
  c_email : option Py.str;
  c_phone : option Py.str;
  c_company : option Py.str;
  c_address : option Py.str;
  c_tax_number : option Py.str;
  c_tax_office : option Py.str;
  c_notes : option Py.str
}.

(** [ProductCreate]. *)
Record ProductCreate : Type := {
  pc_name : Py.str;
  pc_description : field (option Py.str);
  pc_category : field (option Py.str);
  pc_price : Py.float;
  pc_stock : field Z;
  pc_unit : field Py.str;
  pc_sku : field (option Py.str);
  pc_specifications : field (option Py.str);
  pc_image_base64 : field (option Py.str)
}.

Record product_row : Type := {
  p_id : id;
  p_user_id : id;
  p_name : Py.str;
  p_description : option Py.str;
  p_category : option Py.str;
  p_price : Py.float;
  p_stock : Z;
  p_unit : Py.str;
  p_sku : option Py.str;
  p_specifications : option Py.str;
  p_image_base64 : option Py.str
}.

(** [QuotationItem]: the snapshot of one line. *)
Record QuotationItem : Type := {
  product_name : Py.str;
  specifications : option Py.str;
  quantity : Z;
  unit : Py.str;
  unit_price : Py.float;
  total : Py.float
}.

Record item_row : Type := {
  i_id : id;
  i_quotation_id : id;
  i_item : QuotationItem
}.

Record quotation_row : Type := {
  q_id : id;
  q_user_id : id;
  q_customer_id : id;
  q_quotation_number : Py.str;
  q_subtotal : Py.float;
  q_discount_amount : Py.float;
  q_tax_rate : Z;
  q_tax_amount : Py.float;
  q_total : Py.float;
  q_notes : option Py.str;
  q_status : Py.str;
  q_payment_status : Py.str;
  q_payment_date : option datetime;
  q_payment_amount : option Py.float;
  q_payment_notes : option Py.str;
  q_created_at : Py.str
}.

Record reminder_row : Type := {
  r_id : id;
  r_user_id : id;
  r_quotation_id : id;
  r_reminder_date : datetime;
  r_message : Py.str;
  r_sent : bool
}.

(** ** Tables *)

(** A table is the list of its rows in insertion order.  The columns
    kept are those a handler writes or reads.  An insert returns the row
    it made, so the branches [if not response.data] after an insert are
    never taken; a number read back is the float that was written. *)
Record db : Type := {
  users : list user_row;
  customers : list customer_row;
  products : list product_row;
  quotations : list quotation_row;
  quotation_items : list item_row;
  reminders : list reminder_row;
  next_id : id
}.

Definition empty : db :=
  {| users := []; customers := []; products := []; quotations := [];
     quotation_items := []; reminders := []; next_id := 1%N |}.

Definition set_users (d : db) (t : list user_row) : db :=
  {| users := t; customers := customers d; products := products d;
     quotations := quotations d; quotation_items := quotation_items d;
     reminders := reminders d; next_id := next_id d |}.

Definition set_customers (d : db) (t : list customer_row) : db :=
  {| users := users d; customers := t; products := products d;
     quotations := quotations d; quotation_items := quotation_items d;
     reminders := reminders d; next_id := next_id d |}.

Definition set_products (d : db) (t : list product_row) : db :=
  {| users := users d; customers := customers d; products := t;
     quotations := quotations d; quotation_items := quotation_items d;
     reminders := reminders d; next_id := next_id d |}.

Definition set_quotations (d : db) (t : list quotation_row) : db :=
  {| users := users d; customers := customers d; products := products d;
     quotations := t; quotation_items := quotation_items d;
     reminders := reminders d; next_id := next_id d |}.

Definition set_quotation_items (d : db) (t : list item_row) : db :=
  {| users := users d; customers := customers d; products := products d;
     quotations := quotations d; quotation_items := t;
     reminders := reminders d; next_id := next_id d |}.

Definition set_reminders (d : db) (t : list reminder_row) : db :=
  {| users := users d; customers := customers d; products := products d;
     quotations := quotations d; quotation_items := quotation_items d;
     reminders := t; next_id := next_id d |}.

(** The identifier counter moved past [n] generated identifiers. *)
Definition take_ids (d : db) (n : N) : db :=
  {| users := users d; customers := customers d; products := products d;
     quotations := quotations d; quotation_items := quotation_items d;
     reminders := reminders d; next_id := (next_id d + n)%N |}.

(** ** Filtered queries: [.eq("id", i).eq("user_id", u)] *)

Section Owned.
Variable R : Type.
Variable rid : R -> id.
Variable owner : R -> id.

Definition owned_by (i u : id) (r : R) : bool :=
  (rid r =? i)%N && (owner r =? u)%N.

(** [select("*")]. *)
Definition select_owned (i u : id) (t : list R) : list R :=
  filter (owned_by i u) t.

(** [update(data)]: the rows changed, and the table. *)
Definition update_owned (i u : id) (f : R -> R) (t : list R)
  : list R * list R :=
  (List.map f (select_owned i u t),
   List.map (fun r => if owned_by i u r then f r else r) t).

(** [delete()]: the rows deleted, and the table. *)
Definition delete_owned (i u : id) (t : list R) : list R * list R :=
  (select_owned i u t, filter (fun r => negb (owned_by i u r)) t).

(** [select("*").eq("user_id", u)]. *)
Definition select_of_user (u : id) (t : list R) : list R :=
  filter (fun r => (owner r =? u)%N) t.
End Owned.
Arguments owned_by {R} rid owner i u r.
Arguments select_owned {R} rid owner i u t.
Arguments update_owned {R} rid owner i u f t.
Arguments delete_owned {R} rid owner i u t.
Arguments select_of_user {R} owner u t.

(** Rows of [quotation_items] by [.eq("quotation_id", q)]. *)
Definition items_of (q : id) (t : list item_row) : list item_row :=
  filter (fun r => (i_quotation_id r =? q)%N) t.

Definition delete_items_of (q : id) (t : list item_row) : list item_row :=
  filter (fun r => negb (i_quotation_id r =? q)%N) t.

(** [insert(items_data)]: one new row per element, in order, with
    consecutive new identifiers. *)
Fixpoint item_rows (first : id) (q : id) (items : list QuotationItem)
  : list item_row :=
  match items with
  | [] => []
  | it :: rest =>
      {| i_id := first; i_quotation_id := q; i_item := it |}
      :: item_rows (N.succ first) q rest
  end.

Definition insert_items (q : id) (items : list QuotationItem) (d : db) : db :=
  take_ids
    (set_quotation_items d
       (quotation_items d ++ item_rows (next_id d) q items))
    (N.of_nat (List.length items)).

(** The embedded resource [customers( * )] of a quotation row: the
    customer its [customer_id] refers to, if there is one. *)
Definition customer_of (d : db) (q : quotation_row) : option customer_row :=
  find (fun c => (c_id c =? q_customer_id q)%N) (customers d).

End Store.

(* ================================================================== *)
(** * The request handlers *)
(* ================================================================== *)

Module Server.
Import Store.
Local Open Scope float_scope.

(** How a handler ends otherwise than by returning: an [HTTPException]
    it raises, or an exception nothing catches (a 500-class response). *)
Inductive failure : Type :=
| HTTPException (status_code : Z) (detail : Py.str)
| Uncaught (e : Py.exception).

Inductive outcome (A : Type) : Type :=
| Ok (a : A)
| Raise (f : failure).
Arguments Ok {A} a.
Arguments Raise {A} f.

Definition not_found (detail : String.string) : failure :=
  HTTPException 404 (Py.lit detail).

(** What the handlers take from outside the store: the server clock
    read by [datetime.now()], the entropy behind [random.randint], and
    the timestamp the store writes into [created_at]. *)
Record env : Type := {
  now : datetime;
  entropy : N;
  stamp : Py.str
}.

(** ** Payloads *)

(** The values of a payload.  An identifier is a string of the store;
    nothing of it can be refused.  The payloads of the customer
    handlers, of [register], [send_reminder] and [create_category] hold
    strings, integers, booleans and [None] only and are always encoded;
    the handlers below whose payload holds a [float] or a [datetime]
    encode it first. *)
Definition json_id (i : id) : Py.payload_value := Py.json_int (Z.of_N i).

Definition json_opt_str (o : option Py.str) : Py.payload_value :=
  match o with
  | Some s => Py.json_str s
  | None => Py.json_null
  end.

Definition json_opt_float (o : option Py.float) : Py.payload_value :=
  match o with
  | Some x => Py.json_float x
  | None => Py.json_null
  end.

Definition json_opt_datetime (o : option datetime) : Py.payload_value :=
  match o with
  | Some _ => Py.datetime_object
  | None => Py.json_null
  end.

(** The key of a field under [exclude_unset=True]: there when set. *)
Definition if_set {A : Type} (f : field A) (enc : A -> Py.payload_value)
  : list Py.payload_value :=
  match f with
  | Unset => []
  | Given a => [enc a]
  end.

(** ** Customers *)


Definition new_customer (i u : id) (customer : CustomerCreate)
  : customer_row :=
  {| c_id := i; c_user_id := u;
     c_name := cc_name customer;
     c_email := value_or None (cc_email customer);
     c_phone := value_or None (cc_phone customer);
     c_company := value_or None (cc_company customer);
     c_address := value_or None (cc_address customer);
     c_tax_number := value_or None (cc_tax_number customer);
     c_tax_office := value_or None (cc_tax_office customer);
     c_notes := value_or None (cc_notes customer) |}.

Definition create_customer (customer : CustomerCreate)
    (current_user : user_row) (d : db) : outcome customer_row * db :=
  let row := new_customer (next_id d) (u_id current_user) customer in
  (Ok row, take_ids (set_customers d (customers d ++ [row])) 1).

Definition get_customer (customer_id : id) (current_user : user_row)
    (d : db) : outcome customer_row * db :=
  match select_owned c_id c_user_id customer_id (u_id current_user)
          (customers d) with
  | [] => (Raise (not_found "Customer not found"), d)
  | r :: _ => (Ok r, d)
  end.

(** [customer.dict(exclude_unset=True)] applied to a row. *)
Definition apply_customer (customer : CustomerCreate) (r : customer_row)
  : customer_row :=
  {| c_id := c_id r; c_user_id := c_user_id r;
     c_name := cc_name customer;
     c_email := assign (cc_email customer) (c_email r);
     c_phone := assign (cc_phone customer) (c_phone r);
     c_company := assign (cc_company customer) (c_company r);
     c_address := assign (cc_address customer) (c_address r);
     c_tax_number := assign (cc_tax_number customer) (c_tax_number r);
     c_tax_office := assign (cc_tax_office customer) (c_tax_office r);
     c_notes := assign (cc_notes customer) (c_notes r) |}.

Definition update_customer (customer_id : id) (customer : CustomerCreate)
    (current_user : user_row) (d : db) : outcome customer_row * db :=
  let '(data, t) :=
    update_owned c_id c_user_id customer_id (u_id current_user)
      (apply_customer customer) (customers d) in
  match data with
  | [] => (Raise (not_found "Customer not found"), set_customers d t)
  | r :: _ => (Ok r, set_customers d t)
  end.

Definition delete_customer (customer_id : id) (current_user : user_row)
    (d : db) : outcome Py.str * db :=
  let '(data, t) :=
    delete_owned c_id c_user_id customer_id (u_id current_user)
      (customers d) in
  match data with
  | [] => (Raise (not_found "Customer not found"), set_customers d t)
  | _ :: _ => (Ok (Py.lit "Customer deleted successfully"),
               set_customers d t)
  end.

(** ** Products *)


Definition new_product (i u : id) (product : ProductCreate) : product_row :=
  {| p_id := i; p_user_id := u;
     p_name := pc_name product;
     p_description := value_or None (pc_description product);
     p_category := value_or None (pc_category product);
     p_price := pc_price product;
     p_stock := value_or 0%Z (pc_stock product);
     p_unit := value_or (Py.lit "adet") (pc_unit product);
     p_sku := value_or None (pc_sku product);
     p_specifications := value_or None (pc_specifications product);
     p_image_base64 := value_or None (pc_image_base64 product) |}.

(** [product.dict()]. *)
Definition product_dict (product : ProductCreate) : list Py.payload_value :=
  [ Py.json_str (pc_name product);
    json_opt_str (value_or None (pc_description product));
    json_opt_str (value_or None (pc_category product));
    Py.json_float (pc_price product);
    Py.json_int (value_or 0%Z (pc_stock product));
    Py.json_str (value_or (Py.lit "adet") (pc_unit product));
    json_opt_str (value_or None (pc_sku product));
    json_opt_str (value_or None (pc_specifications product));
    json_opt_str (value_or None (pc_image_base64 product)) ].

(** [product.dict(exclude_unset=True)]. *)
Definition product_dict_exclude_unset (product : ProductCreate)
  : list Py.payload_value :=
  [ Py.json_str (pc_name product) ]
  ++ if_set (pc_description product) json_opt_str
  ++ if_set (pc_category product) json_opt_str
  ++ [ Py.json_float (pc_price product) ]
  ++ if_set (pc_stock product) Py.json_int
  ++ if_set (pc_unit product) Py.json_str
  ++ if_set (pc_sku product) json_opt_str
  ++ if_set (pc_specifications product) json_opt_str
  ++ if_set (pc_image_base64 product) json_opt_str.

Definition create_product (product : ProductCreate)
    (current_user : user_row) (d : db) : outcome product_row * db :=
  match Py.json_dumps_raises
          (json_id (u_id current_user) :: product_dict product) with
  | Some exn => (Raise (Uncaught exn), d)
  | None =>
      let row := new_product (next_id d) (u_id current_user) product in
      (Ok row, take_ids (set_products d (products d ++ [row])) 1)
  end.

Definition get_product (product_id : id) (current_user : user_row)
    (d : db) : outcome product_row * db :=
  match select_owned p_id p_user_id product_id (u_id current_user)
          (products d) with
  | [] => (Raise (not_found "Product not found"), d)
  | r :: _ => (Ok r, d)
  end.

Definition apply_product (product : ProductCreate) (r : product_row)
  : product_row :=
  {| p_id := p_id r; p_user_id := p_user_id r;
     p_name := pc_name product;
     p_description := assign (pc_description product) (p_description r);
     p_category := assign (pc_category product) (p_category r);
     p_price := pc_price product;
     p_stock := assign (pc_stock product) (p_stock r);
     p_unit := assign (pc_unit product) (p_unit r);
     p_sku := assign (pc_sku product) (p_sku r);
     p_specifications :=
       assign (pc_specifications product) (p_specifications r);
     p_image_base64 := assign (pc_image_base64 product) (p_image_base64 r) |}.

Definition update_product (product_id : id) (product : ProductCreate)
    (current_user : user_row) (d : db) : outcome product_row * db :=
  match Py.json_dumps_raises (product_dict_exclude_unset product) with
  | Some exn => (Raise (Uncaught exn), d)
  | None =>
      let '(data, t) :=
        update_owned p_id p_user_id product_id (u_id current_user)
          (apply_product product) (products d) in
      match data with
      | [] => (Raise (not_found "Product not found"), set_products d t)
      | r :: _ => (Ok r, set_products d t)
      end
  end.

Definition delete_product (product_id : id) (current_user : user_row)
    (d : db) : outcome Py.str * db :=
  let '(data, t) :=
    delete_owned p_id p_user_id product_id (u_id current_user)
      (products d) in
  match data with
  | [] => (Raise (not_found "Product not found"), set_products d t)
  | _ :: _ => (Ok (Py.lit "Product deleted successfully"),
               set_products d t)
  end.

(** ** Quotations *)

(** [strftime("%Y%m%d%H%M%S")]: the year zero-padded to four digits and
    the five other fields to two.  (Below the year 1000 some platforms
    do not pad [%Y]; the clock of a request is never there.) *)
Definition strftime_YmdHMS (t : datetime) : Py.str :=
  Py.zfill 4 (Py.nat_digits (year t))
  ++ Py.zfill 2 (Py.nat_digits (month t))
  ++ Py.zfill 2 (Py.nat_digits (day t))
  ++ Py.zfill 2 (Py.nat_digits (hour t))
  ++ Py.zfill 2 (Py.nat_digits (minute t))
  ++ Py.zfill 2 (Py.nat_digits (second t)).


(** [random.randint(a, b)]: an integer of [a..b], picked by the
    entropy. *)
Definition randint (a b : Z) (e : N) : Z :=
  (a + Z.of_N e mod (b - a + 1))%Z.

Definition generate_quotation_number (e : env) : Py.str :=
  let timestamp := strftime_YmdHMS (now e) in
  let random_num := randint 1000 9999 (entropy e) in
  Py.lit "Q-" ++ timestamp ++ Py.lit "-" ++ Py.str_of_int random_num.

(** [QuotationCreate]. *)
Record QuotationCreate : Type := {
  customer_id : id;
  items : list QuotationItem;
  discount_amount : Py.float;
  tax_rate : Z;
  notes : option Py.str
}.



Record amounts : Type := {
  subtotal : Py.float;
  taxable_amount : Py.float;
  tax_amount : Py.float;
  total_amount : Py.float
}.

(** The four assignments under [# Hesaplamalar], the same in
    [create_quotation] and in [update_quotation]:
    [subtotal = sum(item.total for item in quotation.items)],
    [taxable_amount = subtotal - quotation.discount_amount],
    [tax_amount = taxable_amount * (quotation.tax_rate / 100)],
    [total = taxable_amount + tax_amount]. *)
Definition hesaplamalar (quotation : QuotationCreate)
  : amounts + Py.exception :=
  let subtotal := Py.sum (List.map total (items quotation)) in
  let taxable_amount := subtotal - discount_amount quotation in
  match Py.int_truediv (tax_rate quotation) 100 with
  | inr e => inr e
  | inl rate =>
      let tax_amount := taxable_amount * rate in
      let total := taxable_amount + tax_amount in
      inl {| subtotal := subtotal; taxable_amount := taxable_amount;
             tax_amount := tax_amount; total_amount := total |}
  end.

(** A quotation as the handlers return it: the row, its item rows and
    the embedded customer. *)
Record quotation_view : Type := {
  v_quotation : quotation_row;
  v_items : list item_row;
  v_customer : option customer_row
}.

Definition view_of (d : db) (q : quotation_row) : quotation_view :=
  {| v_quotation := q;
     v_items := items_of (q_id q) (quotation_items d);
     v_customer := customer_of d q |}.

(** [select("*, customers( * )").eq("id", quotation_id)] and
    [final_response.data[0]]. *)
Definition final_response (quotation_id : id) (d : db)
  : outcome quotation_view :=
  match filter (fun q => (q_id q =? quotation_id)%N) (quotations d) with
  | [] => Raise (Uncaught Py.IndexError)
  | result :: _ => Ok (view_of d result)
  end.

(** The row the store makes of the dictionary [new_quotation], under
    the identifier it generates and with its timestamp. *)
Definition new_quotation (e : env) (quotation : QuotationCreate)
    (a : amounts) (current_user : user_row) (quotation_id : id)
  : quotation_row :=
  {| q_id := quotation_id;
     q_user_id := u_id current_user;
     q_customer_id := customer_id quotation;
     q_quotation_number := generate_quotation_number e;
     q_subtotal := subtotal a;
     q_discount_amount := discount_amount quotation;
     q_tax_rate := tax_rate quotation;
     q_tax_amount := tax_amount a;
     q_total := total_amount a;
     q_notes := notes quotation;
     q_status := Py.lit "pending";
     q_payment_status := Py.lit "unpaid";
     q_payment_date := None;
     q_payment_amount := None;
     q_payment_notes := None;
     q_created_at := stamp e |}.

(** The dictionary [new_quotation]. *)
Definition new_quotation_dict (e : env) (quotation : QuotationCreate)
    (a : amounts) (current_user : user_row) : list Py.payload_value :=
  [ json_id (u_id current_user);
    json_id (customer_id quotation);
    Py.json_str (generate_quotation_number e);
    Py.json_float (subtotal a);
    Py.json_float (discount_amount quotation);
    Py.json_int (tax_rate quotation);
    Py.json_float (tax_amount a);
    Py.json_float (total_amount a);
    json_opt_str (notes quotation);
    Py.json_str (Py.lit "pending");
    Py.json_str (Py.lit "unpaid") ].

(** [item.dict()]. *)
Definition item_dict (item : QuotationItem) : list Py.payload_value :=
  [ Py.json_str (product_name item);
    json_opt_str (specifications item);
    Py.json_int (quantity item);
    Py.json_str (unit item);
    Py.json_float (unit_price item);
    Py.json_float (total item) ].

(** The list [items_data], one dictionary after the other. *)
Definition items_data (quotation_id : id) (items : list QuotationItem)
  : list Py.payload_value :=
  flat_map (fun item => json_id quotation_id :: item_dict item) items.

(** The header is inserted by one request and the lines by the next:
    when the encoder refuses a line, the header is already stored. *)
Definition create_quotation (e : env) (quotation : QuotationCreate)
    (current_user : user_row) (d : db) : outcome quotation_view * db :=
  match hesaplamalar quotation with
  | inr exn => (Raise (Uncaught exn), d)
  | inl a =>
      match Py.json_dumps_raises
              (new_quotation_dict e quotation a current_user) with
      | Some exn => (Raise (Uncaught exn), d)
      | None =>
          let quotation_id := next_id d in
          let row := new_quotation e quotation a current_user quotation_id in
          let d1 := take_ids (set_quotations d (quotations d ++ [row])) 1 in
          match Py.json_dumps_raises
                  (items_data quotation_id (items quotation)) with
          | Some exn => (Raise (Uncaught exn), d1)
          | None =>
              let d2 := insert_items quotation_id (items quotation) d1 in
              (final_response quotation_id d2, d2)
          end
      end
  end.

Definition get_quotation (quotation_id : id) (current_user : user_row)
    (d : db) : outcome quotation_view * db :=
  match select_owned q_id q_user_id quotation_id (u_id current_user)
          (quotations d) with
  | [] => (Raise (not_found "Quotation not found"), d)
  | quotation :: _ =>
      (Ok {| v_quotation := quotation;
             v_items := items_of quotation_id (quotation_items d);
             v_customer := customer_of d quotation |}, d)
  end.

(** The header columns [update_quotation] writes. *)
Definition apply_quotation (quotation : QuotationCreate) (a : amounts)
    (r : quotation_row) : quotation_row :=
  {| q_id := q_id r;
     q_user_id := q_user_id r;
     q_customer_id := customer_id quotation;
     q_quotation_number := q_quotation_number r;
     q_subtotal := subtotal a;
     q_discount_amount := discount_amount quotation;
     q_tax_rate := tax_rate quotation;
     q_tax_amount := tax_amount a;
     q_total := total_amount a;
     q_notes := notes quotation;
     q_status := q_status r;
     q_payment_status := q_payment_status r;
     q_payment_date := q_payment_date r;
     q_payment_amount := q_payment_amount r;
     q_payment_notes := q_payment_notes r;
     q_created_at := q_created_at r |}.

(** The dictionary [update_data]. *)
Definition update_data_dict (quotation : QuotationCreate) (a : amounts)
  : list Py.payload_value :=
  [ json_id (customer_id quotation);
    Py.json_float (subtotal a);
    Py.json_float (discount_amount quotation);
    Py.json_int (tax_rate quotation);
    Py.json_float (tax_amount a);
    Py.json_float (total_amount a);
    json_opt_str (notes quotation) ].

(** The header is updated and the old lines are deleted before the new
    lines are encoded: when the encoder refuses one of them, the
    quotation is left without lines. *)
Definition update_quotation (quotation_id : id)
    (quotation : QuotationCreate) (current_user : user_row) (d : db)
  : outcome quotation_view * db :=
  match hesaplamalar quotation with
  | inr exn => (Raise (Uncaught exn), d)
  | inl a =>
      match Py.json_dumps_raises (update_data_dict quotation a) with
      | Some exn => (Raise (Uncaught exn), d)
      | None =>
          let '(data, t) :=
            update_owned q_id q_user_id quotation_id (u_id current_user)
              (apply_quotation quotation a) (quotations d) in
          let d1 := set_quotations d t in
          match data with
          | [] => (Raise (not_found "Quotation not found"), d1)
          | _ :: _ =>
              let d2 :=
                set_quotation_items d1
                  (delete_items_of quotation_id (quotation_items d1)) in
              match Py.json_dumps_raises
                      (items_data quotation_id (items quotation)) with
              | Some exn => (Raise (Uncaught exn), d2)
              | None =>
                  let d3 := insert_items quotation_id (items quotation) d2 in
                  (final_response quotation_id d3, d3)
              end
          end
      end
  end.

Definition delete_quotation (quotation_id : id) (current_user : user_row)
    (d : db) : outcome Py.str * db :=
  let '(data, t) :=
    delete_owned q_id q_user_id quotation_id (u_id current_user)
      (quotations d) in
  match data with
  | [] => (Raise (not_found "Quotation not found"), set_quotations d t)
  | _ :: _ => (Ok (Py.lit "Quotation deleted successfully"),
               set_quotations d t)
  end.

(** [PaymentUpdate]. *)
Record PaymentUpdate : Type := {
  payment_status : Py.str;
  payment_date : field (option datetime);
  payment_amount : field (option Py.float);
  payment_notes : field (option Py.str)
}.

(** [payment.dict(exclude_unset=True)] applied to a row. *)
Definition apply_payment (payment : PaymentUpdate) (r : quotation_row)
  : quotation_row :=
  {| q_id := q_id r;
     q_user_id := q_user_id r;
     q_customer_id := q_customer_id r;
     q_quotation_number := q_quotation_number r;
     q_subtotal := q_subtotal r;
     q_discount_amount := q_discount_amount r;
     q_tax_rate := q_tax_rate r;
     q_tax_amount := q_tax_amount r;
     q_total := q_total r;
     q_notes := q_notes r;
     q_status := q_status r;
     q_payment_status := payment_status payment;
     q_payment_date := assign (payment_date payment) (q_payment_date r);
     q_payment_amount :=
       assign (payment_amount payment) (q_payment_amount r);
     q_payment_notes := assign (payment_notes payment) (q_payment_notes r);
     q_created_at := q_created_at r |}.

(** The dictionary [payment.dict(exclude_unset=True)]. *)
Definition payment_dict_exclude_unset (payment : PaymentUpdate)
  : list Py.payload_value :=
  [ Py.json_str (payment_status payment) ]
  ++ if_set (payment_date payment) json_opt_datetime
  ++ if_set (payment_amount payment) json_opt_float
  ++ if_set (payment_notes payment) json_opt_str.

Definition update_payment_status (quotation_id : id)
    (payment : PaymentUpdate) (current_user : user_row) (d : db)
  : outcome quotation_row * db :=
  match Py.json_dumps_raises (payment_dict_exclude_unset payment) with
  | Some exn => (Raise (Uncaught exn), d)
  | None =>
      let '(data, t) :=
        update_owned q_id q_user_id quotation_id (u_id current_user)
          (apply_payment payment) (quotations d) in
      match data with
      | [] => (Raise (not_found "Quotation not found"), set_quotations d t)
      | r :: _ => (Ok r, set_quotations d t)
      end
  end.

(** ** The rendered document *)

Inductive font : Type :=
| Helvetica
| Helvetica_Bold.

(** The calls on the canvas, in order.  A horizontal position is the
    distance from the left edge, for [drawRightString] and the right end
    of a line the distance [width - x] from the right edge; a vertical
    position is the distance [height - y] below the top edge. *)
Inductive pdf_op : Type :=
| setFont (name : font) (size : Z)
| drawString (x y : Z) (text : Py.str)
| drawRightString (x y : Z) (text : Py.str)
| line (x1 y1 x2 y2 : Z)
| showPage
| save.

Definition text_of (o : option Py.str) : Py.str :=
  match o with
  | Some s => s
  | None => []
  end.

(** [if d.get(k): draw(...); y -= dy]. *)
Definition draw_if (o : option Py.str) (draw : Z -> Py.str -> pdf_op)
    (dy : Z) (y : Z) : list pdf_op * Z :=
  if Py.truthy o then ([draw y (text_of o)], (y + dy)%Z) else ([], y).

Definition FIYAT_TEKLIFI : Py.str :=
  Py.lit "F" ++ [Py.CAPITAL_I_WITH_DOT] ++ Py.lit "YAT TEKL"
  ++ [Py.CAPITAL_I_WITH_DOT] ++ Py.lit "F" ++ [Py.CAPITAL_I_WITH_DOT].
Definition MUSTERI_BILGILERI : Py.str :=
  Py.lit "M" ++ [Py.SMALL_U_DIAERESIS; Py.SMALL_S_CEDILLA]
  ++ Py.lit "teri Bilgileri:".
Definition URUN_HIZMET : Py.str :=
  [Py.CAPITAL_U_DIAERESIS] ++ Py.lit "r" ++ [Py.SMALL_U_DIAERESIS]
  ++ Py.lit "n/Hizmet".
Definition INDIRIM : Py.str := [Py.CAPITAL_I_WITH_DOT] ++ Py.lit "ndirim:".
Definition ARA_TOPLAM : Py.str := Py.lit "Ara Toplam:".
Definition GENEL_TOPLAM : Py.str := Py.lit "Genel Toplam:".
Definition NOTLAR : Py.str := Py.lit "Notlar:".

(** [f"KDV ({tax_rate}%):"]. *)
Definition kdv_label (rate : Z) : Py.str :=
  Py.lit "KDV (" ++ Py.str_of_int rate ++ Py.lit "%):".

(** [f"TL{x:.2f}"], with the lira sign. *)
Definition currency (x : Py.float) : Py.str :=
  Py.TURKISH_LIRA_SIGN :: Py.format_2f x.

Definition title_ops (quotation : quotation_row) : list pdf_op :=
  [ setFont Helvetica_Bold 20;
    drawString 50 50 FIYAT_TEKLIFI;
    setFont Helvetica 10;
    drawString 50 80 (Py.lit "Teklif No: " ++ q_quotation_number quotation);
    drawString 50 95
      (Py.lit "Tarih: " ++ Py.slice_to 10 (q_created_at quotation)) ].

Definition issuer_ops (current_user : user_row) : list pdf_op :=
  let y := 130%Z in
  let head := [ setFont Helvetica_Bold 12;
                drawString 50 y (Py.lit "Firma Bilgileri:");
                setFont Helvetica 10 ] in
  let y := (y + 20)%Z in
  let '(a, y) := draw_if (u_company current_user)
                   (fun y s => drawString 50 y s) 15 y in
  let '(b, y) := draw_if (u_company_address current_user)
                   (fun y s => drawString 50 y s) 15 y in
  let '(c, _) := draw_if (u_phone current_user)
                   (fun y s => drawString 50 y (Py.lit "Tel: " ++ s)) 15 y in
  head ++ a ++ b ++ c.

Definition customer_ops (customer : customer_row) : list pdf_op :=
  let y := 130%Z in
  let head := [ setFont Helvetica_Bold 12;
                drawRightString 50 y MUSTERI_BILGILERI;
                setFont Helvetica 10 ] in
  let y := (y + 20)%Z in
  let '(a, y) := draw_if (Some (c_name customer))
                   (fun y s => drawRightString 50 y s) 15 y in
  let '(b, y) := draw_if (c_company customer)
                   (fun y s => drawRightString 50 y s) 15 y in
  let '(c, y) := draw_if (c_address customer)
                   (fun y s => drawRightString 50 y s) 15 y in
  let '(e, _) := draw_if (c_phone customer)
                   (fun y s => drawRightString 50 y (Py.lit "Tel: " ++ s))
                   0 y in
  head ++ a ++ b ++ c ++ e.

Definition table_head_ops : list pdf_op :=
  let y := 280%Z in
  [ setFont Helvetica_Bold 10;
    drawString 50 y URUN_HIZMET;
    drawString 250 y (Py.lit "Miktar");
    drawString 320 y (Py.lit "Birim");
    drawString 380 y (Py.lit "Birim Fiyat");
    drawRightString 50 y (Py.lit "Toplam");
    line 50 (y + 5) 50 (y + 5);
    setFont Helvetica 9 ].

(** The body of [for item in quotation["items"]]. *)
Definition item_ops (row : item_row) (y : Z) : list pdf_op * Z :=
  let item := i_item row in
  let cells :=
    [ drawString 50 y (Py.slice_to 40 (product_name item));
      drawString 250 y (Py.str_of_int (quantity item));
      drawString 320 y (unit item);
      drawString 380 y (currency (unit_price item));
      drawRightString 50 y (currency (total item)) ] in
  let y := (y + 15)%Z in
  if Py.truthy (specifications item) then
    (cells
     ++ [ setFont Helvetica 8;
          drawString 60 y
            (Py.lit "  "
             ++ Py.slice_to 60 (text_of (specifications item)));
          setFont Helvetica 9 ],
     (y + 12)%Z)
  else (cells, y).

Fixpoint items_ops (rows : list item_row) (y : Z) : list pdf_op * Z :=
  match rows with
  | [] => ([], y)
  | row :: rest =>
      let '(a, y) := item_ops row y in
      let '(b, y) := items_ops rest y in
      (a ++ b, y)
  end.

(** The totals block, from the rule above it to the grand total. *)
Definition totals_ops (quotation : quotation_row) (y : Z)
  : list pdf_op * Z :=
  let y := (y + 10)%Z in
  let rule := [ line 50 y 50 y ] in
  let y := (y + 20)%Z in
  let sub := [ setFont Helvetica 10;
               drawString 380 y ARA_TOPLAM;
               drawRightString 50 y (currency (q_subtotal quotation)) ] in
  let y := (y + 15)%Z in
  let '(disc, y) :=
    if 0 <? q_discount_amount quotation then
      ([ drawString 380 y INDIRIM;
         drawRightString 50 y
           (Py.MINUS :: currency (q_discount_amount quotation)) ],
       (y + 15)%Z)
    else ([], y) in
  let tax := [ drawString 380 y (kdv_label (q_tax_rate quotation));
               drawRightString 50 y (currency (q_tax_amount quotation)) ] in
  let y := (y + 15)%Z in
  let grand := [ setFont Helvetica_Bold 12;
                 drawString 380 y GENEL_TOPLAM;
                 drawRightString 50 y (currency (q_total quotation)) ] in
  (rule ++ sub ++ disc ++ tax ++ grand, y).

Definition notes_ops (quotation : quotation_row) (y : Z) : list pdf_op :=
  if Py.truthy (q_notes quotation) then
    let y := (y + 40)%Z in
    [ setFont Helvetica_Bold 10;
      drawString 50 y NOTLAR;
      setFont Helvetica 9;
      drawString 50 (y + 15)
        (Py.slice_to 100 (text_of (q_notes quotation))) ]
  else [].

Definition render (current_user : user_row) (quotation : quotation_row)
    (rows : list item_row) (customer : customer_row) : list pdf_op :=
  let '(body, y) := items_ops rows 300 in
  let '(totals, y) := totals_ops quotation y in
  title_ops quotation
  ++ issuer_ops current_user
  ++ customer_ops customer
  ++ table_head_ops
  ++ body
  ++ totals
  ++ notes_ops quotation y
  ++ [ showPage; save ].

Record pdf_response : Type := {
  content : list pdf_op;
  media_type : Py.str;
  content_disposition : Py.str
}.

Definition generate_quotation_pdf (quotation_id : id)
    (current_user : user_row) (d : db) : outcome pdf_response * db :=
  match select_owned q_id q_user_id quotation_id (u_id current_user)
          (quotations d) with
  | [] => (Raise (not_found "Quotation not found"), d)
  | quotation :: _ =>
      let rows := items_of quotation_id (quotation_items d) in
      match customer_of d quotation with
      | None => (Raise (Uncaught Py.AttributeError), d)
      | Some customer =>
          (Ok {| content := render current_user quotation rows customer;
                 media_type := Py.lit "application/pdf";
                 content_disposition :=
                   Py.lit "attachment; filename=teklif_"
                   ++ q_quotation_number quotation ++ Py.lit ".pdf" |},
           d)
      end
  end.

(** ** Reminders *)

(** [ReminderCreate]. *)
Record ReminderCreate : Type := {
  rc_quotation_id : id;
  rc_reminder_date : datetime;
  rc_message : Py.str
}.

(** [reminder.dict()]: the required [reminder_date] is a [datetime]. *)
Definition reminder_dict (reminder : ReminderCreate)
  : list Py.payload_value :=
  [ json_id (rc_quotation_id reminder);
    Py.datetime_object;
    Py.json_str (rc_message reminder) ].

Definition create_reminder (reminder : ReminderCreate)
    (current_user : user_row) (d : db) : outcome reminder_row * db :=
  match Py.json_dumps_raises
          (json_id (u_id current_user) :: reminder_dict reminder) with
  | Some exn => (Raise (Uncaught exn), d)
  | None =>
      let row := {| r_id := next_id d; r_user_id := u_id current_user;
                    r_quotation_id := rc_quotation_id reminder;
                    r_reminder_date := rc_reminder_date reminder;
                    r_message := rc_message reminder;
                    r_sent := false |} in
      (Ok row, take_ids (set_reminders d (reminders d ++ [row])) 1)
  end.

Definition mark_sent (r : reminder_row) : reminder_row :=
  {| r_id := r_id r; r_user_id := r_user_id r;
     r_quotation_id := r_quotation_id r;
     r_reminder_date := r_reminder_date r;
     r_message := r_message r; r_sent := true |}.

Definition send_reminder (reminder_id : id) (current_user : user_row)
    (d : db) : outcome Py.str * db :=
  let '(data, t) :=
    update_owned r_id r_user_id reminder_id (u_id current_user)
      mark_sent (reminders d) in
  match data with
  | [] => (Raise (not_found "Reminder not found"), set_reminders d t)
  | _ :: _ => (Ok (Py.lit "Reminder sent successfully"), set_reminders d t)
  end.

Definition delete_reminder (reminder_id : id) (current_user : user_row)
    (d : db) : outcome Py.str * db :=
  let '(data, t) :=
    delete_owned r_id r_user_id reminder_id (u_id current_user)
      (reminders d) in
  match data with
  | [] => (Raise (not_found "Reminder not found"), set_reminders d t)
  | _ :: _ => (Ok (Py.lit "Reminder deleted successfully"),
               set_reminders d t)
  end.

(** ** Payment statistics *)

Record payment_statistics : Type := {
  total_expected : Py.float;
  total_received : Py.float;
  total_pending : Py.float;
  overdue_count : Z
}.

Definition is_paid (q : quotation_row) : bool :=
  Py.str_eqb (q_payment_status q) (Py.lit "paid").

Definition is_unpaid (q : quotation_row) : bool :=
  Py.str_eqb (q_payment_status q) (Py.lit "unpaid").

(** [q.get("payment_amount", 0) or q["total"]]. *)
Definition received_amount (q : quotation_row) : Py.float :=
  match q_payment_amount q with
  | Some x => if Py.float_truthy (Some x) then x else q_total q
  | None => q_total q
  end.

Definition get_payment_statistics (current_user : user_row) (d : db)
  : payment_statistics :=
  let data := select_of_user q_user_id (u_id current_user) (quotations d) in
  {| total_expected := Py.sum (List.map q_total data);
     total_received :=
       Py.sum (List.map received_amount (filter is_paid data));
     total_pending := Py.sum (List.map q_total (filter is_unpaid data));
     overdue_count := Z.of_nat (List.length (filter is_unpaid data)) |}.

(** ** Registration *)

Section Auth.
(** [bcrypt.hashpw] with a generated salt, and the signed token of
    [create_access_token]: both belong to libraries, and nothing
    below depends on what they return. *)
Variable hash_password : Py.str -> Py.str.
Variable create_access_token : id -> Py.str.

(** [UserCreate]. *)
Record UserCreate : Type := {
  uc_email : Py.str;
  uc_password : Py.str;
  uc_full_name : Py.str
}.

Record auth_response : Type := {
  access_token : Py.str;
  token_type : Py.str;
  auth_user : id * Py.str * Py.str
}.

Definition register (user : UserCreate) (d : db)
  : outcome auth_response * db :=
  match filter (fun r => Py.str_eqb (u_email r) (uc_email user))
          (users d) with
  | _ :: _ =>
      (Raise (HTTPException 400 (Py.lit "Email already registered")), d)
  | [] =>
      let hashed_pw := hash_password (uc_password user) in
      let user_data :=
        {| u_id := next_id d;
           u_email := uc_email user;
           u_password_hash := hashed_pw;
           u_full_name := uc_full_name user;
           u_subscription_plan := Py.lit "free";
           u_subscription_status := Py.lit "active";
           u_default_tax_rate := 20;
           u_company := None;
           u_company_address := None;
           u_phone := None |} in
      (Ok {| access_token := create_access_token (u_id user_data);
             token_type := Py.lit "bearer";
             auth_user := (u_id user_data, u_email user_data,
                           u_full_name user_data) |},
       take_ids (set_users d (users d ++ [user_data])) 1)
  end.
(** [bcrypt.checkpw(plain_password, hashed_password)]. *)
Variable verify_password : Py.str -> Py.str -> bool.

(** [UserLogin]. *)
Record UserLogin : Type := {
  ul_email : Py.str;
  ul_password : Py.str
}.

Definition login (credentials : UserLogin) (d : db)
  : outcome auth_response * db :=
  match filter (fun r => Py.str_eqb (u_email r) (ul_email credentials))
          (users d) with
  | [] => (Raise (HTTPException 401 (Py.lit "Invalid email or password")), d)
  | user :: _ =>
      if verify_password (ul_password credentials) (u_password_hash user)
      then
        (Ok {| access_token := create_access_token (u_id user);
               token_type := Py.lit "bearer";
               auth_user := (u_id user, u_email user, u_full_name user) |},
         d)
      else
        (Raise (HTTPException 401 (Py.lit "Invalid email or password")), d)
  end.
End Auth.

(** ** Settings *)

Section Settings.
(** The JSON objects of [design_settings]; the handler only stores them. *)
Variable dict : Type.

(** [UserSettingsUpdate]: every field is optional, and a field left out
    and a field sent as [null] both read [None]. *)
Record UserSettingsUpdate : Type := {
  s_full_name : option Py.str;
  s_company : option Py.str;
  s_phone : option Py.str;
  s_company_logo : option Py.str;
  s_company_address : option Py.str;
  s_company_tax_number : option Py.str;
  s_company_tax_office : option Py.str;
  s_default_tax_rate : option Z;
  s_design_settings : option dict
}.

(** The columns of a [users] row that only the settings write. *)
Record further_columns : Type := {
  company_logo : option Py.str;
  company_tax_number : option Py.str;
  company_tax_office : option Py.str;
  design_settings : option dict
}.

(** The dictionary [update_data]: a key for each field that
    [is not None]. *)
Record settings_data : Type := {
  d_full_name : field Py.str;
  d_company : field Py.str;
  d_phone : field Py.str;
  d_company_logo : field Py.str;
  d_company_address : field Py.str;
  d_company_tax_number : field Py.str;
  d_company_tax_office : field Py.str;
  d_default_tax_rate : field Z;
  d_design_settings : field dict
}.

Definition not_none {A : Type} (o : option A) : field A :=
  match o with
  | Some a => Given a
  | None => Unset
  end.

Definition given {A : Type} (f : field A) : bool :=
  match f with
  | Given _ => true
  | Unset => false
  end.

Definition update_data_of (settings : UserSettingsUpdate) : settings_data :=
  {| d_full_name := not_none (s_full_name settings);
     d_company := not_none (s_company settings);
     d_phone := not_none (s_phone settings);
     d_company_logo := not_none (s_company_logo settings);
     d_company_address := not_none (s_company_address settings);
     d_company_tax_number := not_none (s_company_tax_number settings);
     d_company_tax_office := not_none (s_company_tax_office settings);
     d_default_tax_rate := not_none (s_default_tax_rate settings);
     d_design_settings := not_none (s_design_settings settings) |}.

(** [not update_data]: the dictionary has no key. *)
Definition no_data (u : settings_data) : bool :=
  negb (given (d_full_name u) || given (d_company u) || given (d_phone u)
        || given (d_company_logo u) || given (d_company_address u)
        || given (d_company_tax_number u) || given (d_company_tax_office u)
        || given (d_default_tax_rate u) || given (d_design_settings u)).

(** A nullable column after an update that holds the key only when a
    value was given. *)
Definition assign_some {A : Type} (f : field A) (old : option A)
  : option A :=
  match f with
  | Unset => old
  | Given a => Some a
  end.

Definition apply_settings (u : settings_data)
    (r : user_row * further_columns) : user_row * further_columns :=
  ({| u_id := u_id (fst r);
      u_email := u_email (fst r);
      u_password_hash := u_password_hash (fst r);
      u_full_name := assign (d_full_name u) (u_full_name (fst r));
      u_subscription_plan := u_subscription_plan (fst r);
      u_subscription_status := u_subscription_status (fst r);
      u_default_tax_rate :=
        assign (d_default_tax_rate u) (u_default_tax_rate (fst r));
      u_company := assign_some (d_company u) (u_company (fst r));
      u_company_address :=
        assign_some (d_company_address u) (u_company_address (fst r));
      u_phone := assign_some (d_phone u) (u_phone (fst r)) |},
   {| company_logo := assign_some (d_company_logo u) (company_logo (snd r));
      company_tax_number :=
        assign_some (d_company_tax_number u) (company_tax_number (snd r));
      company_tax_office :=
        assign_some (d_company_tax_office u) (company_tax_office (snd r));
      design_settings :=
        assign_some (d_design_settings u) (design_settings (snd r)) |}).

(** The handler on the [users] table with all the columns of a row;
    its result is the row [User(...)] is built from. *)
Definition update_settings (settings : UserSettingsUpdate)
    (current_user : user_row) (t : list (user_row * further_columns))
  : outcome (user_row * further_columns)
    * list (user_row * further_columns) :=
  let update_data := update_data_of settings in
  if no_data update_data then
    (Raise (HTTPException 400 (Py.lit "No data to update")), t)
  else
    let hit := fun r => (u_id (fst r) =? u_id current_user)%N in
    let data := List.map (apply_settings update_data) (filter hit t) in
    let t' :=
      List.map (fun r => if hit r then apply_settings update_data r else r)
        t in
    match data with
    | [] => (Raise (HTTPException 500 (Py.lit "Failed to update settings")),
             t')
    | updated_user :: _ => (Ok updated_user, t')
    end.
End Settings.
Arguments not_none {A} o.
Arguments given {A} f.
Arguments assign_some {A} f old.

(** ** Statistics *)

Record statistics : Type := {
  total_customers : Z;
  total_products : Z;
  total_quotations : Z;
  total_revenue : Py.float;
  pending_payments : Py.float
}.

Definition get_statistics (current_user : user_row) (d : db) : statistics :=
  let data := select_of_user q_user_id (u_id current_user) (quotations d) in
  {| total_customers :=
       Z.of_nat
         (List.length
            (select_of_user c_user_id (u_id current_user) (customers d)));
     total_products :=
       Z.of_nat
         (List.length
            (select_of_user p_user_id (u_id current_user) (products d)));
     total_quotations := Z.of_nat (List.length data);
     total_revenue := Py.sum (List.map q_total (filter is_paid data));
     pending_payments := Py.sum (List.map q_total (filter is_unpaid data)) |}.

(** ** Payment lists *)

(** A quotation with its embedded customer, as the two lists return
    it (no item rows). *)
Definition with_customer (d : db) (q : quotation_row)
  : quotation_row * option customer_row :=
  (q, customer_of d q).

Definition get_pending_payments (current_user : user_row) (d : db)
  : list (quotation_row * option customer_row) :=
  List.map (with_customer d)
    (filter is_unpaid
       (select_of_user q_user_id (u_id current_user) (quotations d))).

Definition get_paid_payments (current_user : user_row) (d : db)
  : list (quotation_row * option customer_row) :=
  List.map (with_customer d)
    (filter is_paid
       (select_of_user q_user_id (u_id current_user) (quotations d))).

(** ** Catalog categories *)

(** [p["category"] for p in response.data if p.get("category")]. *)
Definition categories_of (rows : list product_row) : list Py.str :=
  flat_map
    (fun p => if Py.truthy (p_category p) then [text_of (p_category p)]
              else [])
    rows.

Definition get_categories (current_user : user_row) (d : db)
  : list Py.str :=
  Py.sorted_set
    (categories_of
       (select_of_user p_user_id (u_id current_user) (products d))).

Record category_row : Type := {
  cat_id : id;
  cat_user_id : id;
  cat_name : Py.str
}.

(** The handler on the store and the table [catalog_categories], which
    no other handler reads or writes. *)
Definition create_category (category_name : Py.str)
    (current_user : user_row) (d : db)
    (catalog_categories : list category_row)
  : outcome category_row * (db * list category_row) :=
  let row := {| cat_id := next_id d; cat_user_id := u_id current_user;
                cat_name := category_name |} in
  (Ok row, (take_ids d 1, catalog_categories ++ [row])).

End Server.

(* ================================================================== *)
(** * Well-formed stores, routing, and the data of the examples *)
(* ================================================================== *)

Import Store Server.

(** ** The primary keys *)

(** The identifiers [ids] of a table are pairwise distinct and below the
    counter [bound]: what a primary key generated by the store gives.
    An item row moreover refers to a quotation identifier that was
    generated before it. *)
Fixpoint keys_ok (bound : id) (ids : list id) : bool :=
  match ids with
  | [] => true
  | i :: rest =>
      (i <? bound)%N && negb (existsb (N.eqb i) rest) && keys_ok bound rest
  end.

Definition wf (d : db) : bool :=
  keys_ok (next_id d) (List.map u_id (users d))
  && keys_ok (next_id d) (List.map c_id (customers d))
  && keys_ok (next_id d) (List.map p_id (products d))
  && keys_ok (next_id d) (List.map q_id (quotations d))
  && keys_ok (next_id d) (List.map i_id (quotation_items d))
  && keys_ok (next_id d) (List.map r_id (reminders d))
  && forallb (fun r => (i_quotation_id r <? next_id d)%N) (quotation_items d).

(** ** The routes that address one resource by its identifier *)

Inductive resource : Type :=
| a_customer
| a_product
| a_quotation
| a_reminder.

Inductive request : Type :=
| GET_customer (customer_id : id)
| PUT_customer (customer_id : id) (customer : CustomerCreate)
| DELETE_customer (customer_id : id)
| GET_product (product_id : id)
| PUT_product (product_id : id) (product : ProductCreate)
| DELETE_product (product_id : id)
| GET_quotation (quotation_id : id)
| PUT_quotation (quotation_id : id) (quotation : QuotationCreate)
| DELETE_quotation (quotation_id : id)
| PUT_quotation_payment (quotation_id : id) (payment : PaymentUpdate)
| GET_quotation_pdf (quotation_id : id)
| POST_reminder_send (reminder_id : id)
| DELETE_reminder (reminder_id : id).

Inductive response : Type :=
| customer_json (r : customer_row)
| product_json (r : product_row)
| quotation_json (v : quotation_view)
| quotation_row_json (r : quotation_row)
| pdf_bytes (r : pdf_response)
| message_json (m : Py.str).

Definition relabel {A} (f : A -> response) (r : outcome A * db)
  : outcome response * db :=
  match r with
  | (Ok a, d) => (Ok (f a), d)
  | (Raise e, d) => (Raise e, d)
  end.

(** The router: each route calls its handler with the path parameter,
    the body and the authenticated user. *)
Definition route (req : request) (current_user : user_row) (d : db)
  : outcome response * db :=
  match req with
  | GET_customer i => relabel customer_json (get_customer i current_user d)
  | PUT_customer i c =>
      relabel customer_json (update_customer i c current_user d)
  | DELETE_customer i =>
      relabel message_json (delete_customer i current_user d)
  | GET_product i => relabel product_json (get_product i current_user d)
  | PUT_product i p =>
      relabel product_json (update_product i p current_user d)
  | DELETE_product i =>
      relabel message_json (delete_product i current_user d)
  | GET_quotation i =>
      relabel quotation_json (get_quotation i current_user d)
  | PUT_quotation i q =>
      relabel quotation_json (update_quotation i q current_user d)
  | DELETE_quotation i =>
      relabel message_json (delete_quotation i current_user d)
  | PUT_quotation_payment i p =>
      relabel quotation_row_json (update_payment_status i p current_user d)
  | GET_quotation_pdf i =>
      relabel pdf_bytes (generate_quotation_pdf i current_user d)
  | POST_reminder_send i =>
      relabel message_json (send_reminder i current_user d)
  | DELETE_reminder i =>
      relabel message_json (delete_reminder i current_user d)
  end.


(** The resource [(k, i)] exists and belongs to the tenant [a]. *)
Definition owns (a : id) (t : resource * id) (d : db) : bool :=
  match t with
  | (a_customer, i) => existsb (owned_by c_id c_user_id i a) (customers d)
  | (a_product, i) => existsb (owned_by p_id p_user_id i a) (products d)
  | (a_quotation, i) => existsb (owned_by q_id q_user_id i a) (quotations d)
  | (a_reminder, i) => existsb (owned_by r_id r_user_id i a) (reminders d)
  end.



(** ** The amounts of a quotation *)



(** ** A small store for the examples *)

Definition alice : user_row :=
  {| u_id := 1%N; u_email := Py.lit "alice@example.com";
     u_password_hash := Py.lit "$2b$12$a"; u_full_name := Py.lit "Alice";
     u_subscription_plan := Py.lit "free";
     u_subscription_status := Py.lit "active"; u_default_tax_rate := 20;
     u_company := Some (Py.lit "Alice Ltd"); u_company_address := None;
     u_phone := Some (Py.lit "555 0101") |}.

Definition bob : user_row :=
  {| u_id := 2%N; u_email := Py.lit "bob@example.com";
     u_password_hash := Py.lit "$2b$12$b"; u_full_name := Py.lit "Bob";
     u_subscription_plan := Py.lit "free";
     u_subscription_status := Py.lit "active"; u_default_tax_rate := 20;
     u_company := None; u_company_address := None; u_phone := None |}.

Definition acme : customer_row :=
  {| c_id := 3%N; c_user_id := 1%N; c_name := Py.lit "Acme";
     c_email := None; c_phone := None; c_company := Some (Py.lit "Acme AS");
     c_address := Some (Py.lit "Istanbul"); c_tax_number := None;
     c_tax_office := None; c_notes := None |}.

(** Alice and Bob are registered; Alice has one customer. *)
Definition store0 : db :=
  {| users := [alice; bob]; customers := [acme]; products := [];
     quotations := []; quotation_items := []; reminders := [];
     next_id := 4%N |}.

Definition env0 : env :=
  {| now := {| year := 2024%N; month := 5%N; day := 7%N; hour := 9%N;
               minute := 30%N; second := 5%N |};
     entropy := 1234%N;
     stamp := Py.lit "2024-05-07T09:30:05.123456+00:00" |}.

Definition an_item (name : String.string) (spec : option Py.str)
    (n : Z) (price line_total : Py.float) : QuotationItem :=
  {| product_name := Py.lit name; specifications := spec; quantity := n;
     unit := Py.lit "adet"; unit_price := price; total := line_total |}.

(** The request of the specification's example: two lines of 100 and
    50, no discount, 20 per cent. *)
Definition quotation_150 : QuotationCreate :=
  {| customer_id := 3%N;
     items := [ an_item "Kablo" None 2 50%float 100%float;
                an_item "Priz" (Some (Py.lit "beyaz")) 5 10%float 50%float ];
     discount_amount := 0%float; tax_rate := 20; notes := None |}.

(** The store after Alice created that quotation: its header has the
    identifier 4, its two item rows 5 and 6. *)
Definition store1 : db :=
  snd (create_quotation env0 quotation_150 alice store0).

(** A replacement whose tax rate is too large for [tax_rate / 100] to
    be a float. *)
Definition quotation_huge_rate : QuotationCreate :=
  {| customer_id := 3%N; items := [ an_item "Kablo" None 1 9%float 9%float ];
     discount_amount := 0%float; tax_rate := 10 ^ 400; notes := None |}.


(** ** The stated equation for the total *)

(** The right-hand side of [total == (subtotal - d) + (subtotal - d) *
    r / 100] as Python evaluates it on floats: from left to right, the
    [int] operands converted. *)
Definition stated_total (s d : Py.float) (r : Z) : Py.float :=
  ((s - d) + (s - d) * Py.float_of_int r / Py.float_of_int 100)%float.

(** The same right-hand side in exact arithmetic. *)
Definition stated_total_exact (s d : Q) (r : Z) : Q :=
  ((s - d) + (s - d) * inject_Z r / inject_Z 100)%Q.



(** One line of 9, no discount, 18 per cent. *)
Definition quotation_9_18 : QuotationCreate :=
  {| customer_id := 3%N; items := [ an_item "Kablo" None 1 9%float 9%float ];
     discount_amount := 0%float; tax_rate := 18; notes := None |}.

(** [n] more update requests with the same replacement. *)
Fixpoint recompute (n : nat) (quotation_id : id)
    (quotation : QuotationCreate) (current_user : user_row) (d : db) : db :=
  match n with
  | O => d
  | S n =>
      recompute n quotation_id quotation current_user
        (snd (update_quotation quotation_id quotation current_user d))
  end.


(** ** The frame of a payment update *)


(** A payment of 1 recorded as received in full against a total of 180. *)
Definition payment_of_1 : PaymentUpdate :=
  {| payment_status := Py.lit "paid"; payment_date := Unset;
     payment_amount := Given (Some 1%float);
     payment_notes := Given (Some (Py.lit "havale")) |}.



(** A registration under Alice's address. *)
Definition alice_again : UserCreate :=
  {| uc_email := Py.lit "alice@example.com"; uc_password := Py.lit "hunter2";
     uc_full_name := Py.lit "Alice Again" |}.

(** ** Decimal fields *)

(** [s] is made of [width] decimal digits. *)
Definition is_field (width : nat) (s : Py.str) : bool :=
  (List.length s =? width)%nat && forallb Py.is_digit s.

(** ** Quotations for the payment statistics *)

Definition a_header (i : id) (status : String.string)
    (paid : option Py.float) (amount : Py.float) : quotation_row :=
  {| q_id := i; q_user_id := 1%N; q_customer_id := 3%N;
     q_quotation_number := Py.lit "Q-20240507093005-2234";
     q_subtotal := amount; q_discount_amount := 0%float; q_tax_rate := 0;
     q_tax_amount := 0%float; q_total := amount; q_notes := None;
     q_status := Py.lit "pending"; q_payment_status := Py.lit status;
     q_payment_date := None; q_payment_amount := paid;
     q_payment_notes := None;
     q_created_at := Py.lit "2024-05-07T09:30:05" |}.

(** Alice's quotations: one paid with a recorded amount of 0, one
    unpaid, one whose payment status is neither. *)
Definition store_payments : db :=
  set_quotations
    (take_ids store0 3%N)
    [ a_header 4%N "paid" (Some 0%float) 100%float;
      a_header 5%N "unpaid" None 50%float;
      a_header 6%N "partial" (Some 10%float) 25%float ].

(** ** Rendered amounts *)

(** [s] is an optional minus sign, at least one digit, a point and
    exactly two digits. *)
Definition two_decimals (s : Py.str) : Prop :=
  exists (sign : bool) (int_part : Py.str) (d1 d2 : Py.char),
    s = Py.sign_prefix sign ++ int_part ++ [Py.DOT; d1; d2]
    /\ int_part <> []
    /\ forallb Py.is_digit int_part = true
    /\ Py.is_digit d1 = true
    /\ Py.is_digit d2 = true.

(** A quotation with a discount, a note of 120 characters, and a line
    whose name has 50 characters and whose specifications have 70. *)
Definition quotation_long : QuotationCreate :=
  {| customer_id := 3%N;
     items :=
       [ {| product_name := repeat 65%N 50;
            specifications := Some (repeat 66%N 70);
            quantity := 3; unit := Py.lit "adet";
            unit_price := 33.335%float; total := 100.005%float |} ];
     discount_amount := 10%float; tax_rate := 18;
     notes := Some (repeat 67%N 120) |}.

Definition store_long : db :=
  snd (create_quotation env0 quotation_long alice store0).

(** ** Further data for the examples *)


(** A change of name that also clears the company and leaves the
    address out. *)
Definition acme_renamed : CustomerCreate :=
  {| cc_name := Py.lit "Acme 2"; cc_email := Unset; cc_phone := Unset;
     cc_company := Given None; cc_address := Unset;
     cc_tax_number := Unset; cc_tax_office := Unset; cc_notes := Unset |}.

Definition product_named (name : String.string) (category : option Py.str)
  : ProductCreate :=
  {| pc_name := Py.lit name; pc_description := Unset;
     pc_category := Given category; pc_price := 5%float; pc_stock := Unset;
     pc_unit := Unset; pc_sku := Unset; pc_specifications := Unset;
     pc_image_base64 := Unset |}.


(** [a < b] on [str]. *)
Definition str_lt (a b : Py.str) : Prop := Py.str_compare a b = Lt.

(** The line has specifications to draw. *)
Definition has_specifications (row : item_row) : bool :=
  Py.truthy (specifications (i_item row)).

Definition is_showPage (op : pdf_op) : bool :=
  match op with
  | showPage => true
  | _ => false
  end.

(** A password hash and its check for the examples: the hash of [p] is
    ["h:" + p]. *)
Definition toy_hash (p : Py.str) : Py.str := Py.lit "h:" ++ p.
Definition toy_verify (p h : Py.str) : bool := Py.str_eqb (toy_hash p) h.
Definition toy_token (i : id) : Py.str :=
  Py.lit "t" ++ Py.str_of_int (Z.of_N i).

Definition carol : UserCreate :=
  {| uc_email := Py.lit "carol@example.com"; uc_password := Py.lit "s3cret";
     uc_full_name := Py.lit "Carol" |}.

(** Alice's products: two of the category "kablo", one of "aksesuar",
    one without a category, one with an empty one; and one of Bob's. *)
Definition store_products : db :=
  Eval vm_compute in
  snd (create_product (product_named "f" (Some (Py.lit "priz"))) bob
    (snd (create_product (product_named "e" (Some [])) alice
      (snd (create_product (product_named "d" None) alice
        (snd (create_product (product_named "c" (Some (Py.lit "kablo"))) alice
          (snd (create_product (product_named "b" (Some (Py.lit "aksesuar")))
                  alice
            (snd (create_product (product_named "a" (Some (Py.lit "kablo")))
                    alice store0))))))))))).

(** The store after Alice's quotation 4 was marked as paid with the
    amount 1. *)
Definition store1_paid : db :=
  Eval vm_compute in
  snd (update_payment_status 4%N payment_of_1 alice store1).

(** The [users] table of [store0] with the columns that only the
    settings write, and a body that sets the phone and leaves the rest
    out. *)
Definition no_further : further_columns Datatypes.unit :=
  {| company_logo := None; company_tax_number := None;
     company_tax_office := None; design_settings := None |}.

Definition users0 : list (user_row * further_columns Datatypes.unit) :=
  [ (alice, no_further); (bob, no_further) ].

Definition settings_phone : UserSettingsUpdate Datatypes.unit :=
  {| s_full_name := None; s_company := None;
     s_phone := Some (Py.lit "555 0202");
     s_company_logo := None; s_company_address := None;
     s_company_tax_number := None; s_company_tax_office := None;
     s_default_tax_rate := None; s_design_settings := None |}.

(** A reminder as a caller sends it, and a store that holds a reminder
    row of Bob's (no request of the handlers can have put it there). *)
Definition reminder_of_99 : ReminderCreate :=
  {| rc_quotation_id := 99%N;
     rc_reminder_date := {| year := 2024%N; month := 6%N; day := 1%N;
                            hour := 9%N; minute := 0%N; second := 0%N |};
     rc_message := Py.lit "Teklif" |}.

Definition bobs_reminder : reminder_row :=
  {| r_id := 7%N; r_user_id := 2%N; r_quotation_id := 99%N;
     r_reminder_date := {| year := 2024%N; month := 6%N; day := 1%N;
                           hour := 9%N; minute := 0%N; second := 0%N |};
     r_message := Py.lit "Teklif"; r_sent := false |}.

Definition store_reminder : db :=
  Eval vm_compute in set_reminders (take_ids store1 1) [bobs_reminder].

(** The page of the canvas is an A4 page in portrait: 841.89 points
    high. *)
Definition A4_height_rounded_up : Z := 842.

(** A quotation of 40 lines, and the store after Alice created it. *)
Definition quotation_40_lines : QuotationCreate :=
  {| customer_id := 3%N;
     items := repeat (an_item "Kablo" None 1 9%float 9%float) 40;
     discount_amount := 0%float; tax_rate := 18; notes := None |}.

Definition store_40_lines : db :=
  Eval vm_compute in
  snd (create_quotation env0 quotation_40_lines alice store0).

(** ** The texts of a document *)

(** The left-aligned texts a document shows whatever its lines and its
    notes are: the title block, the issuer, the head of the table and
    the labels of the totals and of the notes. *)
Definition frame_texts (current_user : user_row) (quotation : quotation_row)
  : list Py.str :=
  [ FIYAT_TEKLIFI;
    Py.lit "Teklif No: " ++ q_quotation_number quotation;
    Py.lit "Tarih: " ++ Py.slice_to 10 (q_created_at quotation);
    Py.lit "Firma Bilgileri:";
    text_of (u_company current_user);
    text_of (u_company_address current_user);
    Py.lit "Tel: " ++ text_of (u_phone current_user);
    URUN_HIZMET; Py.lit "Miktar"; Py.lit "Birim"; Py.lit "Birim Fiyat";
    ARA_TOPLAM; INDIRIM; kdv_label (q_tax_rate quotation); GENEL_TOPLAM;
    NOTLAR ].

(** The left-aligned texts of a line. *)
Definition line_texts (item : QuotationItem) : list Py.str :=
  [ Py.slice_to 40 (product_name item);
    Py.str_of_int (quantity item);
    unit item;
    currency (unit_price item);
    Py.lit "  " ++ Py.slice_to 60 (text_of (specifications item)) ].

(** The right-aligned texts but the totals of the lines: the customer,
    the head of the last column and the amounts of the totals block. *)
Definition right_texts (quotation : quotation_row) (customer : customer_row)
  : list Py.str :=
  [ MUSTERI_BILGILERI;
    c_name customer;
    text_of (c_company customer);
    text_of (c_address customer);
    Py.lit "Tel: " ++ text_of (c_phone customer);
    Py.lit "Toplam";
    currency (q_subtotal quotation);
    Py.MINUS :: currency (q_discount_amount quotation);
    currency (q_tax_amount quotation);
    currency (q_total quotation) ].

(** ** Numbers the encoder accepts *)

(** The amounts of a header are finite. *)
Definition finite_amounts (quotation : QuotationCreate) (a : amounts)
  : bool :=
  Py.isfinite (subtotal a) && Py.isfinite (discount_amount quotation)
  && Py.isfinite (tax_amount a) && Py.isfinite (total_amount a).

(** The unit price and the total of every line are finite. *)
Definition finite_items (items : list QuotationItem) : bool :=
  forallb (fun item => Py.isfinite (unit_price item)
                       && Py.isfinite (total item)) items.


(* ================================================================== *)
(** * Facts about strings, tables and primary keys *)
(* ================================================================== *)

(** ** What the encoder refuses *)

Lemma json_dumps_raises_cons v rest :
  Py.json_dumps_raises (v :: rest)
  = match Py.refused v with
    | Some e => Some e
    | None => Py.json_dumps_raises rest
    end.
Proof. reflexivity. Qed.

Lemma json_dumps_raises_app l1 l2 :
  Py.json_dumps_raises (l1 ++ l2)
  = match Py.json_dumps_raises l1 with
    | Some e => Some e
    | None => Py.json_dumps_raises l2
    end.
Proof.
  induction l1 as [|v l1 IH]; [reflexivity|].
  rewrite <- app_comm_cons, !json_dumps_raises_cons.
  destruct (Py.refused v); [reflexivity|exact IH].
Qed.

Lemma refused_opt_str o : Py.refused (json_opt_str o) = None.
Proof. now destruct o. Qed.






Lemma new_quotation_dict_raises e quotation a u :
  Py.json_dumps_raises (new_quotation_dict e quotation a u)
  = if finite_amounts quotation a then None else Some Py.ValueError.
Proof.
  unfold new_quotation_dict, finite_amounts.
  rewrite !json_dumps_raises_cons, refused_opt_str. cbn [Py.refused json_id].
  destruct (Py.isfinite (subtotal a)),
    (Py.isfinite (discount_amount quotation)),
    (Py.isfinite (tax_amount a)), (Py.isfinite (total_amount a));
    reflexivity.
Qed.

Lemma update_data_dict_raises quotation a :
  Py.json_dumps_raises (update_data_dict quotation a)
  = if finite_amounts quotation a then None else Some Py.ValueError.
Proof.
  unfold update_data_dict, finite_amounts.
  rewrite !json_dumps_raises_cons, refused_opt_str. cbn [Py.refused json_id].
  destruct (Py.isfinite (subtotal a)),
    (Py.isfinite (discount_amount quotation)),
    (Py.isfinite (tax_amount a)), (Py.isfinite (total_amount a));
    reflexivity.
Qed.

Lemma items_data_raises quotation_id items :
  Py.json_dumps_raises (items_data quotation_id items)
  = if finite_items items then None else Some Py.ValueError.
Proof.
  unfold items_data, finite_items.
  induction items as [|item items IH]; [reflexivity|].
  cbn [flat_map forallb]. rewrite json_dumps_raises_app, IH.
  unfold item_dict.
  rewrite !json_dumps_raises_cons, refused_opt_str. cbn [Py.refused json_id].
  destruct (Py.isfinite (unit_price item)), (Py.isfinite (total item));
    reflexivity.
Qed.


Lemma str_eqb_eq (a b : Py.str) : Py.str_eqb a b = true <-> a = b.
Proof.
  unfold Py.str_eqb. destruct (list_eq_dec N.eq_dec a b); split; congruence.
Qed.

Lemma str_eqb_refl (a : Py.str) : Py.str_eqb a a = true.
Proof. now apply str_eqb_eq. Qed.

Lemma set_users_same d : set_users d (users d) = d.
Proof. now destruct d. Qed.



Lemma set_quotations_same d : set_quotations d (quotations d) = d.
Proof. now destruct d. Qed.

Lemma set_reminders_same d : set_reminders d (reminders d) = d.
Proof. now destruct d. Qed.

Section Tables.
Variable R : Type.
Variable rid : R -> id.
Variable owner : R -> id.

Lemma filter_nil_false (p : R -> bool) (t : list R) :
  filter p t = [] -> forall r, In r t -> p r = false.
Proof.
  induction t as [|x t IH]; simpl; intros H r Hr; [contradiction|].
  destruct (p x) eqn:Px; [discriminate|].
  destruct Hr as [<-|Hr]; auto.
Qed.

Lemma filter_all_false (p : R -> bool) (t : list R) :
  (forall r, In r t -> p r = false) -> filter p t = [].
Proof.
  induction t as [|x t IH]; simpl; intros H; [reflexivity|].
  rewrite (H x (or_introl eq_refl)). apply IH. intros r Hr. apply H. now right.
Qed.

Lemma filter_all_true (p : R -> bool) (t : list R) :
  (forall r, In r t -> p r = true) -> filter p t = t.
Proof.
  induction t as [|x t IH]; simpl; intros H; [reflexivity|].
  rewrite (H x (or_introl eq_refl)). f_equal. apply IH.
  intros r Hr. apply H. now right.
Qed.

Lemma map_untouched (p : R -> bool) (f : R -> R) (t : list R) :
  (forall r, In r t -> p r = false) ->
  List.map (fun r => if p r then f r else r) t = t.
Proof.
  induction t as [|x t IH]; simpl; intros H; [reflexivity|].
  rewrite (H x (or_introl eq_refl)). f_equal. apply IH.
  intros r Hr. apply H. now right.
Qed.

(** An update that matches no row changes nothing. *)
Lemma update_owned_miss i u f (t : list R) :
  select_owned rid owner i u t = [] ->
  update_owned rid owner i u f t = ([], t).
Proof.
  intros H. unfold update_owned. rewrite H. simpl. f_equal.
  apply map_untouched. now apply filter_nil_false.
Qed.


Lemma keys_ok_lt bound (ids : list id) :
  keys_ok bound ids = true -> forall i, In i ids -> (i < bound)%N.
Proof.
  induction ids as [|x ids IH]; simpl; intros H i Hi; [contradiction|].
  apply andb_prop in H as [H H3]. apply andb_prop in H as [H1 H2].
  destruct Hi as [<-|Hi]; [now apply N.ltb_lt|auto].
Qed.

Lemma keys_ok_fresh bound (ids : list id) i :
  keys_ok bound ids = true -> (bound <= i)%N -> ~ In i ids.
Proof.
  intros H Hb Hi. apply (keys_ok_lt _ _ H) in Hi. lia.
Qed.

(** Under a primary key, the row with the identifier [i] that belongs
    to [a] is the only row with that identifier: nobody else owns it. *)
Lemma foreign_select_empty bound i a u (t : list R) :
  keys_ok bound (List.map rid t) = true ->
  existsb (owned_by rid owner i a) t = true ->
  u <> a ->
  select_owned rid owner i u t = [].
Proof.
  intros K E Hu. apply filter_all_false. intros r Hr.
  unfold owned_by. destruct (rid r =? i)%N eqn:Ei; [|reflexivity]. simpl.
  apply N.eqb_eq in Ei. apply N.eqb_neq. intros Eo.
  apply existsb_exists in E as (r' & Hr' & O').
  unfold owned_by in O'. apply andb_prop in O' as [Ei' Eo'].
  apply N.eqb_eq in Ei', Eo'.
  assert (r = r'); [|subst; congruence].
  clear Hu Eo Eo'. rewrite <- Ei' in Ei. clear Ei' i.
  induction t as [|x t IH]; simpl in *; [contradiction|].
  apply andb_prop in K as [K K3]. apply andb_prop in K as [_ K2].
  apply negb_true_iff in K2.
  assert (N : forall y, In y t -> rid y <> rid x).
  { intros y Hy E'. rewrite <- not_true_iff_false in K2. apply K2.
    apply existsb_exists. exists (rid y). split; [now apply in_map|].
    now apply N.eqb_eq. }
  destruct Hr as [<-|Hr], Hr' as [<-|Hr']; auto.
  - exfalso. apply (N _ Hr'). congruence.
  - exfalso. apply (N _ Hr). congruence.
Qed.

End Tables.

(* ================================================================== *)
(** * Tenancy: requests for another tenant's resource *)
(* ================================================================== *)

Lemma wf_tables d :
  wf d = true ->
  keys_ok (next_id d) (List.map u_id (users d)) = true
  /\ keys_ok (next_id d) (List.map c_id (customers d)) = true
  /\ keys_ok (next_id d) (List.map p_id (products d)) = true
  /\ keys_ok (next_id d) (List.map q_id (quotations d)) = true
  /\ keys_ok (next_id d) (List.map i_id (quotation_items d)) = true
  /\ keys_ok (next_id d) (List.map r_id (reminders d)) = true
  /\ forallb (fun r => (i_quotation_id r <? next_id d)%N)
       (quotation_items d) = true.
Proof.
  unfold wf. intros H.
  repeat (apply andb_prop in H as [H ?]). repeat split; assumption.
Qed.










(** C4 at the failing input.  Bob's update of Alice's quotation 4, sent
    with a tax rate of [10^400], does not end with the 404 the claim asks
    for and the sibling handlers give: [tax_rate / 100] raises
    [OverflowError] before the lookup, and nothing catches it. *)
Lemma foreign_update_overflows :
  wf store1 = true
  /\ owns (u_id alice) (a_quotation, 4%N) store1 = true
  /\ u_id bob <> u_id alice
  /\ fst (route (PUT_quotation 4%N quotation_huge_rate) bob store1)
     = Raise (Uncaught Py.OverflowError)
  /\ (forall detail,
        fst (route (PUT_quotation 4%N quotation_huge_rate) bob store1)
        <> Raise (HTTPException 404 detail)).
Proof.
  assert (E : fst (route (PUT_quotation 4%N quotation_huge_rate) bob store1)
              = Raise (Uncaught Py.OverflowError)) by (vm_compute; reflexivity).
  split; [vm_compute; reflexivity|].
  split; [vm_compute; reflexivity|].
  split; [discriminate|].
  split; [exact E|].
  intros detail. rewrite E. discriminate.
Qed.

(* ================================================================== *)
(** * The quotation lifecycle *)
(* ================================================================== *)

Section Keys.
Variable R : Type.
Variable rid : R -> id.
Variable owner : R -> id.

(** Under a primary key, the rows with the identifier of [r] are [r]. *)
Lemma key_filter_unique bound (t : list R) :
  keys_ok bound (List.map rid t) = true ->
  forall r, In r t -> filter (fun x => (rid x =? rid r)%N) t = [r].
Proof.
  induction t as [|x t IH]; simpl; intros K r Hr; [contradiction|].
  apply andb_prop in K as [K K3]. apply andb_prop in K as [_ K2].
  apply negb_true_iff in K2.
  assert (Hx : forall y, In y t -> (rid y =? rid x)%N = false).
  { intros y Hy. apply N.eqb_neq. intros E.
    rewrite <- not_true_iff_false in K2. apply K2.
    apply existsb_exists. exists (rid y). split; [now apply in_map|].
    now apply N.eqb_eq. }
  destruct Hr as [<-|Hr].
  - rewrite N.eqb_refl. f_equal. now apply filter_all_false.
  - rewrite N.eqb_sym, (Hx r Hr). now apply IH.
Qed.

Lemma select_owned_as_filter i u (t : list R) :
  select_owned rid owner i u t
  = filter (fun r => (owner r =? u)%N) (filter (fun r => (rid r =? i)%N) t).
Proof.
  induction t as [|x t IH]; simpl; [reflexivity|].
  unfold owned_by. destruct (rid x =? i)%N; simpl; [|exact IH].
  destruct (owner x =? u)%N; [f_equal|]; exact IH.
Qed.

(** A row found by identifier and owner is the only row with that
    identifier. *)
Lemma select_owned_found bound i u (t : list R) r rest :
  keys_ok bound (List.map rid t) = true ->
  select_owned rid owner i u t = r :: rest ->
  rest = [] /\ In r t /\ rid r = i /\ owner r = u
  /\ filter (fun x => (rid x =? i)%N) t = [r].
Proof.
  intros K S.
  assert (Hr : In r (select_owned rid owner i u t)) by (rewrite S; now left).
  apply filter_In in Hr as [Hr O]. unfold owned_by in O.
  apply andb_prop in O as [Ei Eu]. apply N.eqb_eq in Ei, Eu.
  pose proof (key_filter_unique bound t K r Hr) as F. rewrite Ei in F.
  rewrite select_owned_as_filter, F in S. simpl in S.
  destruct (owner r =? u)%N; inversion S; auto.
Qed.

Lemma filter_map_invariant (p : R -> bool) (f : R -> R) (t : list R) :
  (forall r, p (f r) = p r) -> filter p (List.map f t) = List.map f (filter p t).
Proof.
  intros H. induction t as [|x t IH]; simpl; [reflexivity|].
  rewrite H. destruct (p x); simpl; now rewrite IH.
Qed.

(** A generated identifier matches no row of the table. *)
Lemma fresh_key_unmatched bound i (t : list R) :
  keys_ok bound (List.map rid t) = true -> (bound <= i)%N ->
  filter (fun x => (rid x =? i)%N) t = [].
Proof.
  intros K Hb. apply filter_all_false. intros r Hr. apply N.eqb_neq.
  intros E. apply (keys_ok_fresh bound (List.map rid t) i K Hb).
  rewrite <- E. now apply in_map.
Qed.
End Keys.

Lemma item_rows_items first q L : List.map i_item (item_rows first q L) = L.
Proof.
  revert first. induction L as [|x L IH]; simpl; intros; [reflexivity|].
  now rewrite IH.
Qed.

Lemma item_rows_of first q L :
  items_of q (item_rows first q L) = item_rows first q L.
Proof.
  apply filter_all_true. revert first.
  induction L as [|x L IH]; simpl; intros first r Hr; [contradiction|].
  destruct Hr as [<-|Hr]; [apply N.eqb_refl|eauto].
Qed.

Lemma item_rows_of_other first q q' L :
  q' <> q -> items_of q' (item_rows first q L) = [].
Proof.
  intros Hq. apply filter_all_false. revert first.
  induction L as [|x L IH]; simpl; intros first r Hr; [contradiction|].
  destruct Hr as [<-|Hr]; [|eauto]. simpl. apply N.eqb_neq. congruence.
Qed.

Lemma item_rows_ids first q L r :
  In r (item_rows first q L) -> (first <= i_id r)%N.
Proof.
  revert first. induction L as [|x L IH]; simpl; intros first Hr;
    [contradiction|].
  destruct Hr as [<-|Hr]; [simpl; lia|]. apply IH in Hr. lia.
Qed.

Lemma items_of_app q t1 t2 :
  items_of q (t1 ++ t2) = items_of q t1 ++ items_of q t2.
Proof. apply filter_app. Qed.

Lemma items_of_deleted q t : items_of q (delete_items_of q t) = [].
Proof.
  apply filter_all_false. intros r Hr. apply filter_In in Hr as [_ Hr].
  now apply negb_true_iff in Hr.
Qed.

Lemma items_of_kept q q' t :
  q' <> q -> items_of q' (delete_items_of q t) = items_of q' t.
Proof.
  intros Hq. unfold items_of, delete_items_of.
  induction t as [|x t IH]; simpl; [reflexivity|].
  destruct (i_quotation_id x =? q)%N eqn:E; simpl.
  - apply N.eqb_eq in E.
    assert (E' : (i_quotation_id x =? q')%N = false)
      by (apply N.eqb_neq; congruence).
    now rewrite E'.
  - destruct (i_quotation_id x =? q')%N; [f_equal|]; exact IH.
Qed.

(** No item row of a well-formed store refers to the identifier the
    store generates next. *)
Lemma no_items_of_next d :
  wf d = true -> items_of (next_id d) (quotation_items d) = [].
Proof.
  intros W. destruct (wf_tables d W) as (_ & _ & _ & _ & _ & _ & F).
  apply filter_all_false. intros r Hr.
  rewrite forallb_forall in F. apply F in Hr. apply N.ltb_lt in Hr.
  apply N.eqb_neq. lia.
Qed.

(** The three ways a create request goes on after its arithmetic. *)
Lemma create_quotation_unfold e quotation u d a :
  hesaplamalar quotation = inl a ->
  create_quotation e quotation u d
  = if finite_amounts quotation a then
      let d1 :=
        take_ids
          (set_quotations d
             (quotations d ++ [new_quotation e quotation a u (next_id d)]))
          1 in
      if finite_items (items quotation) then
        let d2 := insert_items (next_id d) (items quotation) d1 in
        (final_response (next_id d) d2, d2)
      else (Raise (Uncaught Py.ValueError), d1)
    else (Raise (Uncaught Py.ValueError), d).
Proof.
  intros Ha. unfold create_quotation.
  rewrite Ha, new_quotation_dict_raises, items_data_raises.
  destruct (finite_amounts quotation a); [|reflexivity].
  destruct (finite_items (items quotation)); reflexivity.
Qed.

(** What a create request does when its arithmetic succeeds and its
    numbers are finite. *)
Lemma create_quotation_ok e quotation u d a :
  wf d = true ->
  hesaplamalar quotation = inl a ->
  finite_amounts quotation a = true ->
  finite_items (items quotation) = true ->
  create_quotation e quotation u d
  = (Ok {| v_quotation := new_quotation e quotation a u (next_id d);
           v_items :=
             item_rows (next_id d + 1)%N (next_id d) (items quotation);
           v_customer :=
             customer_of d (new_quotation e quotation a u (next_id d)) |},
     insert_items (next_id d) (items quotation)
       (take_ids
          (set_quotations d
             (quotations d
              ++ [new_quotation e quotation a u (next_id d)])) 1)).
Proof.
  intros W Ha Fa Fi.
  rewrite (create_quotation_unfold e quotation u d a Ha), Fa, Fi.
  cbv zeta.
  destruct (wf_tables d W) as (_ & _ & _ & Kq & _).
  f_equal. unfold final_response. simpl quotations.
  rewrite filter_app,
    (fresh_key_unmatched quotation_row q_id (next_id d) (next_id d)
       (quotations d) Kq (N.le_refl _)).
  simpl. rewrite N.eqb_refl. unfold view_of. simpl.
  f_equal. f_equal.
  rewrite items_of_app, (no_items_of_next d W), item_rows_of. reflexivity.
Qed.

Lemma create_quotation_raises e quotation u d exn :
  hesaplamalar quotation = inr exn ->
  create_quotation e quotation u d = (Raise (Uncaught exn), d).
Proof. intros Ha. unfold create_quotation. now rewrite Ha. Qed.

(** The ways an update request goes on after its arithmetic. *)
Lemma update_quotation_unfold quotation_id quotation u d a :
  hesaplamalar quotation = inl a ->
  update_quotation quotation_id quotation u d
  = if finite_amounts quotation a then
      let d1 :=
        set_quotations d
          (List.map
             (fun x =>
                if owned_by q_id q_user_id quotation_id (u_id u) x
                then apply_quotation quotation a x else x)
             (quotations d)) in
      match select_owned q_id q_user_id quotation_id (u_id u)
              (quotations d) with
      | [] => (Raise (not_found "Quotation not found"), d1)
      | _ :: _ =>
          let d2 :=
            set_quotation_items d1
              (delete_items_of quotation_id (quotation_items d)) in
          if finite_items (items quotation) then
            let d3 := insert_items quotation_id (items quotation) d2 in
            (final_response quotation_id d3, d3)
          else (Raise (Uncaught Py.ValueError), d2)
      end
    else (Raise (Uncaught Py.ValueError), d).
Proof.
  intros Ha. unfold update_quotation, update_owned.
  rewrite Ha, update_data_dict_raises, items_data_raises.
  destruct (finite_amounts quotation a); [|reflexivity]. cbv zeta.
  destruct (select_owned q_id q_user_id quotation_id (u_id u)
              (quotations d)); [reflexivity|].
  cbn [List.map]. destruct (finite_items (items quotation)); reflexivity.
Qed.

(** What an update request does when its arithmetic succeeds, its
    numbers are finite and the quotation is the caller's. *)
Lemma update_quotation_found quotation_id quotation u d a r rest :
  wf d = true ->
  hesaplamalar quotation = inl a ->
  finite_amounts quotation a = true ->
  finite_items (items quotation) = true ->
  select_owned q_id q_user_id quotation_id (u_id u) (quotations d)
  = r :: rest ->
  update_quotation quotation_id quotation u d
  = (Ok {| v_quotation := apply_quotation quotation a r;
           v_items := item_rows (next_id d) quotation_id (items quotation);
           v_customer := customer_of d (apply_quotation quotation a r) |},
     insert_items quotation_id (items quotation)
       (set_quotation_items
          (set_quotations d
             (List.map
                (fun x =>
                   if owned_by q_id q_user_id quotation_id (u_id u) x
                   then apply_quotation quotation a x else x)
                (quotations d)))
          (delete_items_of quotation_id (quotation_items d)))).
Proof.
  intros W Ha Fa Fi S.
  rewrite (update_quotation_unfold quotation_id quotation u d a Ha), Fa, Fi.
  destruct (wf_tables d W) as (_ & _ & _ & Kq & _).
  destruct (select_owned_found quotation_row q_id q_user_id (next_id d)
              quotation_id (u_id u) (quotations d) r rest Kq S)
    as (-> & Hr & Ei & Eu & F).
  rewrite S. cbv zeta. f_equal.
  unfold final_response. simpl quotations.
  rewrite (filter_map_invariant quotation_row
             (fun q => (q_id q =? quotation_id)%N)
             (fun x => if owned_by q_id q_user_id quotation_id (u_id u) x
                       then apply_quotation quotation a x else x)).
  2:{ intros x. destruct (owned_by q_id q_user_id quotation_id (u_id u) x);
        reflexivity. }
  rewrite F. simpl.
  assert (O : owned_by q_id q_user_id quotation_id (u_id u) r = true).
  { unfold owned_by. now rewrite Ei, Eu, !N.eqb_refl. }
  rewrite O. unfold view_of. simpl. rewrite Ei.
  f_equal. f_equal.
  rewrite items_of_app, items_of_deleted, item_rows_of. reflexivity.
Qed.

Lemma update_quotation_missing quotation_id quotation u d a :
  hesaplamalar quotation = inl a ->
  finite_amounts quotation a = true ->
  select_owned q_id q_user_id quotation_id (u_id u) (quotations d) = [] ->
  update_quotation quotation_id quotation u d
  = (Raise (not_found "Quotation not found"), d).
Proof.
  intros Ha Fa S.
  rewrite (update_quotation_unfold quotation_id quotation u d a Ha), Fa, S.
  cbv zeta. f_equal.
  pose proof (update_owned_miss quotation_row q_id q_user_id quotation_id
                (u_id u) (apply_quotation quotation a) (quotations d) S) as M.
  unfold update_owned in M. injection M as _ M. rewrite M.
  apply set_quotations_same.
Qed.

(** An update or a create that ended without an error had finite
    numbers. *)
Lemma update_quotation_finite quotation_id quotation u d view d' a :
  hesaplamalar quotation = inl a ->
  update_quotation quotation_id quotation u d = (Ok view, d') ->
  finite_amounts quotation a = true
  /\ finite_items (items quotation) = true.
Proof.
  intros Ha E.
  rewrite (update_quotation_unfold quotation_id quotation u d a Ha) in E.
  destruct (finite_amounts quotation a); [|discriminate]. cbv zeta in E.
  destruct (select_owned q_id q_user_id quotation_id (u_id u)
              (quotations d)); [discriminate|].
  destruct (finite_items (items quotation)); [auto|discriminate].
Qed.

Lemma create_quotation_finite e quotation u d view d' a :
  hesaplamalar quotation = inl a ->
  create_quotation e quotation u d = (Ok view, d') ->
  finite_amounts quotation a = true
  /\ finite_items (items quotation) = true.
Proof.
  intros Ha E.
  rewrite (create_quotation_unfold e quotation u d a Ha) in E.
  destruct (finite_amounts quotation a); [|discriminate]. cbv zeta in E.
  destruct (finite_items (items quotation)); [auto|discriminate].
Qed.

(** The two ways an update can end without an error: case analysis on
    the arithmetic and on the lookup. *)
Lemma update_quotation_inv quotation_id quotation u d view d' :
  wf d = true ->
  update_quotation quotation_id quotation u d = (Ok view, d') ->
  exists a r,
    hesaplamalar quotation = inl a
    /\ select_owned q_id q_user_id quotation_id (u_id u) (quotations d) = [r]
    /\ In r (quotations d) /\ q_id r = quotation_id /\ q_user_id r = u_id u
    /\ update_quotation quotation_id quotation u d
       = (Ok {| v_quotation := apply_quotation quotation a r;
                v_items :=
                  item_rows (next_id d) quotation_id (items quotation);
                v_customer :=
                  customer_of d (apply_quotation quotation a r) |},
          insert_items quotation_id (items quotation)
            (set_quotation_items
               (set_quotations d
                  (List.map
                     (fun x =>
                        if owned_by q_id q_user_id quotation_id (u_id u) x
                        then apply_quotation quotation a x else x)
                     (quotations d)))
               (delete_items_of quotation_id (quotation_items d)))).
Proof.
  intros W E.
  destruct (hesaplamalar quotation) as [a|exn] eqn:Ha.
  2:{ unfold update_quotation in E. rewrite Ha in E. discriminate. }
  destruct (update_quotation_finite quotation_id quotation u d view d' a
              Ha E) as [Fa Fi].
  destruct (select_owned q_id q_user_id quotation_id (u_id u) (quotations d))
    as [|r rest] eqn:S.
  { rewrite (update_quotation_missing quotation_id quotation u d a Ha Fa S)
      in E.
    discriminate. }
  destruct (wf_tables d W) as (_ & _ & _ & Kq & _).
  destruct (select_owned_found quotation_row q_id q_user_id (next_id d)
              quotation_id (u_id u) (quotations d) r rest Kq S)
    as (-> & Hr & Ei & Eu & F).
  exists a, r. repeat split; auto.
  eapply update_quotation_found; eauto.
Qed.

Lemma create_quotation_inv e quotation u d view d' :
  wf d = true ->
  create_quotation e quotation u d = (Ok view, d') ->
  exists a,
    hesaplamalar quotation = inl a
    /\ view = {| v_quotation := new_quotation e quotation a u (next_id d);
                 v_items :=
                   item_rows (next_id d + 1)%N (next_id d) (items quotation);
                 v_customer :=
                   customer_of d
                     (new_quotation e quotation a u (next_id d)) |}
    /\ d' = insert_items (next_id d) (items quotation)
              (take_ids
                 (set_quotations d
                    (quotations d
                     ++ [new_quotation e quotation a u (next_id d)])) 1).
Proof.
  intros W E.
  destruct (hesaplamalar quotation) as [a|exn] eqn:Ha.
  - destruct (create_quotation_finite e quotation u d view d' a Ha E)
      as [Fa Fi].
    rewrite (create_quotation_ok e quotation u d a W Ha Fa Fi) in E.
    inversion E; subst. exists a. auto.
  - rewrite (create_quotation_raises e quotation u d exn Ha) in E.
    discriminate.
Qed.

(** The amounts computed for a request are those the invariant names. *)
Lemma hesaplamalar_inv quotation a :
  hesaplamalar quotation = inl a ->
  subtotal a = Py.sum (List.map total (items quotation))
  /\ exists rate : Py.float,
       Py.int_truediv (tax_rate quotation) 100 = inl rate
       /\ tax_amount a
          = ((subtotal a - discount_amount quotation) * rate)%float
       /\ total_amount a
          = ((subtotal a - discount_amount quotation) + tax_amount a)%float.
Proof.
  unfold hesaplamalar.
  destruct (Py.int_truediv (tax_rate quotation) 100) as [rate|exn];
    intros H; inversion H; subst; simpl.
  split; [reflexivity|]. exists rate. auto.
Qed.

(* ================================================================== *)
(** * The derived amounts *)
(* ================================================================== *)







(* ================================================================== *)
(** * Well-formedness is kept by the handlers *)
(* ================================================================== *)

Lemma wf_intro d :
  keys_ok (next_id d) (List.map u_id (users d)) = true ->
  keys_ok (next_id d) (List.map c_id (customers d)) = true ->
  keys_ok (next_id d) (List.map p_id (products d)) = true ->
  keys_ok (next_id d) (List.map q_id (quotations d)) = true ->
  keys_ok (next_id d) (List.map i_id (quotation_items d)) = true ->
  keys_ok (next_id d) (List.map r_id (reminders d)) = true ->
  forallb (fun r => (i_quotation_id r <? next_id d)%N) (quotation_items d)
  = true ->
  wf d = true.
Proof.
  intros. unfold wf. repeat (apply andb_true_intro; split); assumption.
Qed.

Lemma keys_ok_iff bound ids :
  keys_ok bound ids = true
  <-> NoDup ids /\ Forall (fun i => (i < bound)%N) ids.
Proof.
  induction ids as [|x ids IH]; simpl.
  - split; [intros _; split; constructor|reflexivity].
  - rewrite !andb_true_iff, IH, negb_true_iff, N.ltb_lt. split.
    + intros [[Hx Hn] [Hd Hf]]. split; constructor; auto.
      intros Hi. rewrite <- not_true_iff_false in Hn. apply Hn.
      apply existsb_exists. exists x. split; [assumption|apply N.eqb_refl].
    + intros [Hd Hf]. inversion Hd; subst. inversion Hf; subst.
      repeat split; auto. apply not_true_iff_false. intros E.
      apply existsb_exists in E as (y & Hy & E). apply N.eqb_eq in E.
      subst. contradiction.
Qed.

Lemma keys_ok_mono bound bound' ids :
  (bound <= bound')%N -> keys_ok bound ids = true ->
  keys_ok bound' ids = true.
Proof.
  rewrite !keys_ok_iff. intros Hb [Hd Hf]. split; [assumption|].
  eapply Forall_impl; [|exact Hf]. simpl. intros. lia.
Qed.

Lemma keys_ok_app bound bound' ids news :
  keys_ok bound ids = true ->
  keys_ok bound' news = true ->
  (forall i, In i news -> (bound <= i)%N) ->
  (bound <= bound')%N ->
  keys_ok bound' (ids ++ news) = true.
Proof.
  rewrite !keys_ok_iff. intros [Hd Hf] [Hd' Hf'] Hn Hb. split.
  - apply NoDup_app; auto. intros i Hi Hi'. apply Hn in Hi'.
    rewrite Forall_forall in Hf. apply Hf in Hi. lia.
  - apply Forall_app. split; [|assumption].
    eapply Forall_impl; [|exact Hf]. simpl. intros. lia.
Qed.

Lemma keys_ok_snoc bound ids :
  keys_ok bound ids = true -> keys_ok (bound + 1)%N (ids ++ [bound]) = true.
Proof.
  intros K. apply (keys_ok_app bound); auto; try lia.
  - simpl. rewrite andb_true_r. apply andb_true_intro. split; [|reflexivity].
    apply N.ltb_lt. lia.
  - simpl. intros i [<-|[]]. lia.
Qed.

Section KeptKeys.
Variable R : Type.
Variable rid : R -> id.

Lemma keys_ok_filter bound (p : R -> bool) (t : list R) :
  keys_ok bound (List.map rid t) = true ->
  keys_ok bound (List.map rid (filter p t)) = true.
Proof.
  rewrite !keys_ok_iff. intros [Hd Hf]. split.
  - induction t as [|x t IH]; simpl in *; [constructor|].
    inversion Hd; subst. inversion Hf; subst.
    destruct (p x); simpl; auto. constructor; auto.
    intros Hi. apply H1. apply in_map_iff in Hi as (y & E & Hy).
    apply filter_In in Hy as [Hy _]. rewrite <- E. now apply in_map.
  - rewrite Forall_forall in *. intros i Hi. apply Hf.
    apply in_map_iff in Hi as (y & E & Hy).
    apply filter_In in Hy as [Hy _]. rewrite <- E. now apply in_map.
Qed.

Lemma map_key_updated (p : R -> bool) (f : R -> R) (t : list R) :
  (forall r, rid (f r) = rid r) ->
  List.map rid (List.map (fun r => if p r then f r else r) t)
  = List.map rid t.
Proof.
  intros H. rewrite map_map. apply map_ext. intros r.
  destruct (p r); auto.
Qed.
End KeptKeys.

Lemma item_rows_keys first q L :
  keys_ok (first + N.of_nat (List.length L))%N
    (List.map i_id (item_rows first q L)) = true.
Proof.
  revert first. induction L as [|x L IH]; intros first; [reflexivity|].
  cbn [item_rows List.map keys_ok i_id List.length].
  replace (first + N.of_nat (S (List.length L)))%N
    with (N.succ first + N.of_nat (List.length L))%N by lia.
  rewrite IH, andb_true_r. apply andb_true_intro. split.
  - apply N.ltb_lt. lia.
  - apply negb_true_iff, not_true_iff_false. intros E.
    apply existsb_exists in E as (y & Hy & E). apply N.eqb_eq in E. subst y.
    apply in_map_iff in Hy as (r & E & Hr).
    apply item_rows_ids in Hr. lia.
Qed.

Lemma forallb_mono_bound (bound bound' : id) (t : list item_row) :
  (bound <= bound')%N ->
  forallb (fun r => (i_quotation_id r <? bound)%N) t = true ->
  forallb (fun r => (i_quotation_id r <? bound')%N) t = true.
Proof.
  intros Hb. rewrite !forallb_forall. intros H r Hr.
  specialize (H r Hr). apply N.ltb_lt in H. apply N.ltb_lt. lia.
Qed.

(** The store after the item rows of [L] were inserted for the
    quotation [q], an identifier generated earlier. *)
Lemma wf_insert_items q L d :
  wf d = true -> (q < next_id d)%N -> wf (insert_items q L d) = true.
Proof.
  intros W Hq.
  destruct (wf_tables d W) as (Ku & Kc & Kp & Kq & Ki & Kr & F).
  assert (Hb : (next_id d <= next_id d + N.of_nat (List.length L))%N) by lia.
  apply wf_intro; simpl; eauto using keys_ok_mono.
  - rewrite map_app. apply (keys_ok_app (next_id d)); auto.
    + apply item_rows_keys.
    + intros i Hi. apply in_map_iff in Hi as (r & <- & Hr).
      now apply item_rows_ids in Hr.
  - rewrite forallb_app. apply andb_true_intro. split.
    + eapply forallb_mono_bound; eauto.
    + apply forallb_forall. intros r Hr.
      assert (E : i_quotation_id r = q).
      { clear -Hr. revert Hr. generalize (next_id d).
        induction L as [|x L IH]; simpl; intros n Hr; [contradiction|].
        destruct Hr as [<-|Hr]; eauto. }
      rewrite E. apply N.ltb_lt. lia.
Qed.


Lemma wf_update_quotation quotation_id quotation u d :
  wf d = true ->
  wf (snd (update_quotation quotation_id quotation u d)) = true.
Proof.
  intros W.
  destruct (hesaplamalar quotation) as [a|exn] eqn:Ha.
  2:{ unfold update_quotation. rewrite Ha. exact W. }
  destruct (finite_amounts quotation a) eqn:Fa.
  2:{ now rewrite (update_quotation_unfold quotation_id quotation u d a Ha),
        Fa. }
  destruct (select_owned q_id q_user_id quotation_id (u_id u) (quotations d))
    as [|r rest] eqn:S.
  { now rewrite (update_quotation_missing quotation_id quotation u d a Ha
                   Fa S). }
  rewrite (update_quotation_unfold quotation_id quotation u d a Ha), Fa, S.
  cbv zeta.
  destruct (wf_tables d W) as (Ku & Kc & Kp & Kq & Ki & Kr & F).
  destruct (select_owned_found quotation_row q_id q_user_id (next_id d)
              quotation_id (u_id u) (quotations d) r rest Kq S)
    as (_ & Hr & Ei & _ & _).
  assert (W2 : wf (set_quotation_items
                     (set_quotations d
                        (List.map
                           (fun x =>
                              if owned_by q_id q_user_id quotation_id
                                   (u_id u) x
                              then apply_quotation quotation a x else x)
                           (quotations d)))
                     (delete_items_of quotation_id (quotation_items d)))
               = true).
  { apply wf_intro; simpl; auto.
    + rewrite map_key_updated; auto.
    + now apply keys_ok_filter.
    + apply forallb_forall. intros x Hx. apply filter_In in Hx as [Hx _].
      rewrite forallb_forall in F. auto. }
  destruct (finite_items (items quotation)); cbn [snd]; [|exact W2].
  apply wf_insert_items; [exact W2|].
  simpl. rewrite <- Ei.
  apply (keys_ok_lt (next_id d) (List.map q_id (quotations d)) Kq).
  now apply in_map.
Qed.

(* ================================================================== *)
(** * The total as a binary64 value *)
(* ================================================================== *)

Lemma apply_quotation_idempotent quotation a r :
  apply_quotation quotation a (apply_quotation quotation a r)
  = apply_quotation quotation a r.
Proof. reflexivity. Qed.

(** The header an update leaves is the only row of its identifier. *)
Lemma updated_header quotation_id quotation u d view d' :
  wf d = true ->
  update_quotation quotation_id quotation u d = (Ok view, d') ->
  exists a r,
    hesaplamalar quotation = inl a
    /\ v_quotation view = apply_quotation quotation a r
    /\ q_id r = quotation_id /\ q_user_id r = u_id u
    /\ filter (fun q => (q_id q =? quotation_id)%N) (quotations d')
       = [v_quotation view].
Proof.
  intros W E.
  destruct (update_quotation_inv quotation_id quotation u d view d' W E)
    as (a & r & Ha & S & Hr & Ei & Eu & E').
  rewrite E' in E. inversion E; subst view d'. clear E.
  destruct (wf_tables d W) as (_ & _ & _ & Kq & _).
  exists a, r. repeat split; auto.
  simpl quotations.
  rewrite (filter_map_invariant quotation_row
             (fun q => (q_id q =? quotation_id)%N)
             (fun x => if owned_by q_id q_user_id quotation_id (u_id u) x
                       then apply_quotation quotation a x else x)).
  2:{ intros x.
      destruct (owned_by q_id q_user_id quotation_id (u_id u) x);
        reflexivity. }
  pose proof (key_filter_unique quotation_row q_id (next_id d)
                (quotations d) Kq r Hr) as F.
  rewrite Ei in F. rewrite F. simpl.
  unfold owned_by. now rewrite Ei, Eu, !N.eqb_refl.
Qed.

(** Further updates with the same replacement leave the header as the
    first one made it. *)
Lemma recompute_stable quotation_id quotation u a row :
  hesaplamalar quotation = inl a ->
  finite_amounts quotation a = true ->
  finite_items (items quotation) = true ->
  apply_quotation quotation a row = row ->
  q_id row = quotation_id ->
  q_user_id row = u_id u ->
  forall n d,
    wf d = true ->
    filter (fun q => (q_id q =? quotation_id)%N) (quotations d) = [row] ->
    filter (fun q => (q_id q =? quotation_id)%N)
      (quotations (recompute n quotation_id quotation u d)) = [row].
Proof.
  intros Ha Fa Fi Hrow Ei Eu.
  induction n as [|n IH]; intros d W F; [exact F|].
  simpl. apply IH; [now apply wf_update_quotation|].
  assert (S : select_owned q_id q_user_id quotation_id (u_id u) (quotations d)
              = [row]).
  { rewrite select_owned_as_filter, F. simpl. now rewrite Eu, N.eqb_refl. }
  rewrite (update_quotation_found quotation_id quotation u d a row []
             W Ha Fa Fi S).
  cbn [snd]. simpl quotations.
  rewrite (filter_map_invariant quotation_row
             (fun q => (q_id q =? quotation_id)%N)
             (fun x => if owned_by q_id q_user_id quotation_id (u_id u) x
                       then apply_quotation quotation a x else x)).
  2:{ intros x.
      destruct (owned_by q_id q_user_id quotation_id (u_id u) x);
        reflexivity. }
  rewrite F. simpl. unfold owned_by.
  now rewrite Ei, Eu, !N.eqb_refl, Hrow.
Qed.

(** C2, as the code has it.  The total the calculator returns is
    [(subtotal - d) + (subtotal - d) * (r / 100)] with every operation
    a binary64 operation and [r / 100] rounded first; the equation does
    not hold in exact arithmetic.  Recomputing from the same inputs gives
    the same values: after any number of further updates with the same
    replacement the stored header is the one the first update left. *)
Theorem total_is_binary64_and_stable :
  forall (quotation : QuotationCreate) (a : amounts),
    hesaplamalar quotation = inl a ->
    (exists rate : Py.float,
        Py.int_truediv (tax_rate quotation) 100 = inl rate
        /\ subtotal a = Py.sum (List.map total (items quotation))
        /\ total_amount a
           = ((subtotal a - discount_amount quotation)
              + (subtotal a - discount_amount quotation) * rate)%float)
    /\ forall quotation_id current_user d view d',
         wf d = true ->
         update_quotation quotation_id quotation current_user d
         = (Ok view, d') ->
         q_subtotal (v_quotation view) = subtotal a
         /\ q_tax_amount (v_quotation view) = tax_amount a
         /\ q_total (v_quotation view) = total_amount a
         /\ forall n,
              filter (fun q => (q_id q =? quotation_id)%N)
                (quotations
                   (recompute n quotation_id quotation current_user d'))
              = [v_quotation view].
Proof.
  intros quotation a Ha. split.
  - destruct (hesaplamalar_inv quotation a Ha) as (Hs & rate & Hr & Ht & Hg).
    exists rate. repeat split; auto. now rewrite Hg, Ht.
  - intros quotation_id u d view d' W E.
    destruct (updated_header quotation_id quotation u d view d' W E)
      as (a' & r & Ha' & Hv & Ei & Eu & F).
    rewrite Ha in Ha'. inversion Ha'; subst a'.
    destruct (update_quotation_finite quotation_id quotation u d view d' a
                Ha E) as [Fa Fi].
    rewrite Hv. repeat split.
    intros n. rewrite <- Hv.
    apply (recompute_stable quotation_id quotation u a); auto.
    + rewrite Hv. apply apply_quotation_idempotent.
    + now rewrite Hv.
    + now rewrite Hv.
    + replace d' with (snd (update_quotation quotation_id quotation u d))
        by now rewrite E.
      now apply wf_update_quotation.
Qed.

(** Alice replaces her quotation 4 by one line of 9 at 18 per cent, and
    sends the same replacement a thousand times more. *)
Lemma total_is_binary64_witness :
  exists view d',
    update_quotation 4%N quotation_9_18 alice store1 = (Ok view, d')
    /\ q_total (v_quotation view) = 10.619999999999999%float
    /\ filter (fun q => (q_id q =? 4)%N)
         (quotations (recompute 1000 4%N quotation_9_18 alice d'))
       = [v_quotation view].
Proof.
  assert (Ha : hesaplamalar quotation_9_18
               = inl {| subtotal := 9%float; taxable_amount := 9%float;
                        tax_amount := 1.6199999999999999%float;
                        total_amount := 10.619999999999999%float |})
    by (vm_compute; reflexivity).
  destruct (total_is_binary64_and_stable quotation_9_18 _ Ha) as [_ H].
  destruct (update_quotation 4%N quotation_9_18 alice store1)
    as [[view|f] d'] eqn:E.
  - exists view, d'. split; [reflexivity|].
    destruct (H 4%N alice store1 view d' eq_refl E) as (_ & _ & Hg & Hn).
    split; [exact Hg|apply Hn].
  - vm_compute in E. discriminate E.
Defined.

(** C2 as stated fails: for one line of 9 at 18 per cent the calculator
    returns 10.619999999999999, the stated right-hand side evaluates to
    10.620000000000001, and neither is the exact 10.62. *)
Lemma total_not_exact :
  hesaplamalar quotation_9_18
  = inl {| subtotal := 9%float; taxable_amount := 9%float;
           tax_amount := 1.6199999999999999%float;
           total_amount := 10.619999999999999%float |}
  /\ stated_total 9%float 0%float 18 = 10.620000000000001%float
  /\ 10.619999999999999%float <> stated_total 9%float 0%float 18
  /\ (forall v, Py.exact_value 10.619999999999999%float = Some v ->
        ~ (v == stated_total_exact (9 # 1) (0 # 1) 18)%Q).
Proof.
  split; [vm_compute; reflexivity|].
  split; [vm_compute; reflexivity|].
  split.
  - intros H.
    pose proof (f_equal (fun x => PrimFloat.eqb x (stated_total 9%float 0%float 18)) H)
      as F.
    vm_compute in F. discriminate F.
  - intros v Hv. vm_compute in Hv. inversion Hv; subst v. clear Hv.
    unfold stated_total_exact, Qeq. vm_compute. discriminate.
Qed.

(* ================================================================== *)
(** * Update replaces the item rows *)
(* ================================================================== *)

(** C3.  After an update with the replacement list [items quotation]
    the item rows of the quotation are the snapshots of that list, in
    its order, all of them new rows; no row the quotation had before is
    left; the rows of the other quotations are as they were; and reading
    the quotation afterwards returns what the update returned. *)
Theorem update_replaces_items :
  forall (quotation_id : id) (quotation : QuotationCreate)
         (current_user : user_row) (d : db) view d',
    wf d = true ->
    update_quotation quotation_id quotation current_user d = (Ok view, d') ->
    List.map i_item (items_of quotation_id (quotation_items d'))
    = items quotation
    /\ (forall r, In r (quotation_items d) ->
                  i_quotation_id r = quotation_id ->
                  ~ In r (quotation_items d'))
    /\ (forall r, In r (items_of quotation_id (quotation_items d')) ->
                  (next_id d <= i_id r)%N)
    /\ v_items view = items_of quotation_id (quotation_items d')
    /\ get_quotation quotation_id current_user d' = (Ok view, d')
    /\ (forall q, q <> quotation_id ->
                  items_of q (quotation_items d')
                  = items_of q (quotation_items d)).
Proof.
  intros quotation_id quotation u d view d' W E.
  destruct (updated_header quotation_id quotation u d view d' W E)
    as (a0 & r0 & _ & Hv0 & Ei0 & Eu0 & F').
  destruct (update_quotation_inv quotation_id quotation u d view d' W E)
    as (a & r & Ha & S & Hr & Ei & Eu & E').
  rewrite E' in E. injection E as Ev Ed. subst view d'. clear E'.
  destruct (wf_tables d W) as (_ & _ & _ & Kq & Ki & _ & _).
  simpl v_quotation in *. simpl v_items.
  set (d' := insert_items quotation_id (items quotation) _) in *.
  assert (HI : items_of quotation_id (quotation_items d')
               = item_rows (next_id d) quotation_id (items quotation)).
  { subst d'. simpl.
    now rewrite items_of_app, items_of_deleted, item_rows_of. }
  split; [|split; [|split; [|split; [|split]]]].
  - rewrite HI. apply item_rows_items.
  - intros x Hx Eq Hx'. subst d'. simpl in Hx'.
    apply in_app_or in Hx' as [Hx'|Hx'].
    + apply filter_In in Hx' as [_ Hx']. apply negb_true_iff in Hx'.
      apply N.eqb_neq in Hx'. contradiction.
    + apply item_rows_ids in Hx'.
      pose proof (keys_ok_lt (next_id d) (List.map i_id (quotation_items d))
                    Ki (i_id x) (in_map i_id _ _ Hx)).
      lia.
  - intros x Hx. rewrite HI in Hx. now apply item_rows_ids in Hx.
  - now rewrite HI.
  - unfold get_quotation.
    rewrite select_owned_as_filter, F', HI. simpl.
    rewrite Eu, N.eqb_refl. reflexivity.
  - intros q Hq. subst d'. simpl.
    rewrite items_of_app, item_rows_of_other, app_nil_r by assumption.
    now apply items_of_kept.
Qed.

(** Alice replaces the two lines of her quotation 4 by one. *)
Lemma update_replaces_items_witness :
  exists view d',
    update_quotation 4%N quotation_9_18 alice store1 = (Ok view, d')
    /\ List.map i_item (items_of 4%N (quotation_items d'))
       = items quotation_9_18
    /\ List.map i_id (items_of 4%N (quotation_items store1)) = [5%N; 6%N]
    /\ List.map i_id (items_of 4%N (quotation_items d')) = [7%N].
Proof.
  destruct (update_quotation 4%N quotation_9_18 alice store1)
    as [[view|f] d'] eqn:E.
  - exists view, d'. split; [reflexivity|].
    destruct (update_replaces_items 4%N quotation_9_18 alice store1 view d'
                eq_refl E) as (H & _).
    split; [exact H|]. split; [reflexivity|].
    vm_compute in E. inversion E. reflexivity.
  - vm_compute in E. discriminate E.
Defined.

(* ================================================================== *)
(** * Create with an empty item list *)
(* ================================================================== *)





(* ================================================================== *)
(** * The payment update *)
(* ================================================================== *)




(* ================================================================== *)
(** * Registration under a used address *)
(* ================================================================== *)

(** C7.  A registration whose e-mail address is that of a user row is
    refused with the 400 "Email already registered", and the store,
    hence the set of users, is as it was. *)
Theorem register_duplicate_email :
  forall (hash_password : Py.str -> Py.str) (create_access_token : id -> Py.str)
         (user : UserCreate) (d : db),
    existsb (fun r => Py.str_eqb (u_email r) (uc_email user)) (users d)
    = true ->
    register hash_password create_access_token user d
    = (Raise (HTTPException 400 (Py.lit "Email already registered")), d).
Proof.
  intros hash tok user d E. unfold register.
  destruct (filter (fun r => Py.str_eqb (u_email r) (uc_email user)) (users d))
    as [|x t] eqn:F; [|reflexivity].
  apply existsb_exists in E as (r & Hr & E).
  pose proof (filter_nil_false user_row _ _ F r Hr) as N.
  simpl in N. congruence.
Qed.

Lemma register_duplicate_witness :
  register (fun p => p) (fun i => Py.str_of_int (Z.of_N i)) alice_again store0
  = (Raise (HTTPException 400 (Py.lit "Email already registered")), store0)
  /\ users store0 = [alice; bob].
Proof.
  split; [|reflexivity].
  apply (register_duplicate_email (fun p => p)
           (fun i => Py.str_of_int (Z.of_N i)) alice_again store0).
  reflexivity.
Defined.

(* ================================================================== *)
(** * The quotation number *)
(* ================================================================== *)

Lemma uint_chars_digits u : forallb Py.is_digit (Py.uint_chars u) = true.
Proof. induction u; simpl; auto. Qed.

Lemma nat_digits_digits n : forallb Py.is_digit (Py.nat_digits n) = true.
Proof. apply uint_chars_digits. Qed.

Lemma nat_digits_nonempty n : Py.nat_digits n <> [].
Proof.
  unfold Py.nat_digits. destruct n as [|p]; simpl; [discriminate|].
  pose proof (Unsigned.to_uint_nonnil p) as H.
  destruct (Pos.to_uint p); simpl; congruence.
Qed.

(** A check made on every number below [n] holds of each of them. *)
Lemma checked_below (P : N -> bool) (n : N) :
  forallb (fun k => P (N.of_nat k)) (seq 0 (N.to_nat n)) = true ->
  forall x, (x < n)%N -> P x = true.
Proof.
  intros H x Hx. rewrite forallb_forall in H.
  specialize (H (N.to_nat x)). rewrite N2Nat.id in H. apply H.
  apply in_seq. lia.
Qed.

Lemma two_digit_field n :
  (n <= 99)%N -> is_field 2 (Py.zfill 2 (Py.nat_digits n)) = true.
Proof.
  intros H.
  apply (checked_below
           (fun x => is_field 2 (Py.zfill 2 (Py.nat_digits x))) 100%N);
    [vm_compute; reflexivity|lia].
Qed.







(* ================================================================== *)
(** * The payment statistics *)
(* ================================================================== *)

Lemma select_of_user_app (u : id) (t1 t2 : list quotation_row) :
  select_of_user q_user_id u (t1 ++ t2)
  = select_of_user q_user_id u t1 ++ select_of_user q_user_id u t2.
Proof. apply filter_app. Qed.

(** C10.  Over the quotations of the tenant: [total_expected] sums
    every total; [total_received] sums, over those whose payment status
    is ["paid"], the recorded amount when there is one and it is not
    zero, and the total otherwise; [total_pending] and [overdue_count]
    sum and count those whose status is ["unpaid"].  A quotation whose
    status is neither adds its total to [total_expected] and leaves the
    three other figures as they are without it. *)
Theorem payment_statistics_sums :
  forall (current_user : user_row) (d : db),
    let data :=
      filter (fun q => (q_user_id q =? u_id current_user)%N) (quotations d) in
    let paid :=
      filter (fun q => Py.str_eqb (q_payment_status q) (Py.lit "paid")) data in
    let unpaid :=
      filter (fun q => Py.str_eqb (q_payment_status q) (Py.lit "unpaid"))
        data in
    let s := get_payment_statistics current_user d in
    total_expected s = Py.sum (List.map q_total data)
    /\ total_received s
       = Py.sum
           (List.map
              (fun q =>
                 match q_payment_amount q with
                 | Some x => if PrimFloat.eqb x 0 then q_total q else x
                 | None => q_total q
                 end) paid)
    /\ total_pending s = Py.sum (List.map q_total unpaid)
    /\ overdue_count s = Z.of_nat (List.length unpaid)
    /\ (forall q, q_payment_amount q = Some 0%float ->
                  received_amount q = q_total q)
    /\ (forall before q after,
          quotations d = before ++ q :: after ->
          q_user_id q = u_id current_user ->
          Py.str_eqb (q_payment_status q) (Py.lit "paid") = false ->
          Py.str_eqb (q_payment_status q) (Py.lit "unpaid") = false ->
          let s' :=
            get_payment_statistics current_user
              (set_quotations d (before ++ after)) in
          total_received s = total_received s'
          /\ total_pending s = total_pending s'
          /\ overdue_count s = overdue_count s'
          /\ total_expected s
             = Py.sum
                 (List.map q_total
                    (select_of_user q_user_id (u_id current_user) before)
                  ++ q_total q
                     :: List.map q_total
                          (select_of_user q_user_id (u_id current_user)
                             after))).
Proof.
  intros u d. cbv zeta. unfold get_payment_statistics. simpl.
  split; [reflexivity|]. split; [|split; [reflexivity|]].
  { f_equal. apply map_ext. intros q. unfold received_amount.
    destruct (q_payment_amount q) as [x|]; [|reflexivity].
    simpl. now destruct (PrimFloat.eqb x 0). }
  split; [reflexivity|]. split.
  { intros q Hq. unfold received_amount. rewrite Hq. reflexivity. }
  intros before q after Hd Hu Hp Hn.
  rewrite Hd, !select_of_user_app. simpl.
  unfold select_of_user at 2 5 8 11 14. simpl. rewrite Hu, N.eqb_refl.
  unfold is_paid, is_unpaid. rewrite !filter_app. simpl.
  rewrite Hp, Hn, !map_app. repeat split; reflexivity.
Qed.

(** Alice's three quotations: totals 100 (paid, amount 0), 50 (unpaid)
    and 25 (status "partial"). *)
Lemma payment_statistics_witness :
  get_payment_statistics alice store_payments
  = {| total_expected := 175%float; total_received := 100%float;
       total_pending := 50%float; overdue_count := 1 |}
  /\ total_received (get_payment_statistics alice store_payments)
     = total_received
         (get_payment_statistics alice
            (set_quotations store_payments
               [ a_header 4%N "paid" (Some 0%float) 100%float;
                 a_header 5%N "unpaid" None 50%float ])).
Proof.
  split; [vm_compute; reflexivity|].
  destruct (payment_statistics_sums alice store_payments)
    as (_ & _ & _ & _ & _ & H).
  destruct (H [ a_header 4%N "paid" (Some 0%float) 100%float;
                a_header 5%N "unpaid" None 50%float ]
              (a_header 6%N "partial" (Some 10%float) 25%float) []
              eq_refl eq_refl eq_refl eq_refl) as (Hr & _).
  exact Hr.
Defined.

(* ================================================================== *)
(** * The rendered document *)
(* ================================================================== *)

Lemma firstn_bound (n : nat) (s : Py.str) :
  (List.length (Py.slice_to n s) <= n)%nat.
Proof. apply firstn_le_length. Qed.

(** The texts of the item table, by column. *)
Lemma item_ops_texts row y0 x y text :
  In (drawString x y text) (fst (item_ops row y0)) ->
  (x = 50%Z /\ text = Py.slice_to 40 (product_name (i_item row)))
  \/ (x = 250%Z /\ text = Py.str_of_int (quantity (i_item row)))
  \/ (x = 320%Z /\ text = unit (i_item row))
  \/ (x = 380%Z /\ text = currency (unit_price (i_item row)))
  \/ (x = 60%Z /\ Py.truthy (specifications (i_item row)) = true
      /\ text = Py.lit "  "
                ++ Py.slice_to 60 (text_of (specifications (i_item row)))).
Proof.
  unfold item_ops.
  destruct (Py.truthy (specifications (i_item row))) eqn:T; simpl;
    intros H;
    repeat match goal with
           | H : _ \/ _ |- _ => destruct H as [H|H]
           | H : False |- _ => contradiction
           | H : _ = drawString _ _ _ |- _ => inversion H; subst; clear H
           end; auto 10.
Qed.

Lemma items_ops_texts rows y0 x y text :
  In (drawString x y text) (fst (items_ops rows y0)) ->
  exists row y1,
    In row rows /\ In (drawString x y text) (fst (item_ops row y1)).
Proof.
  revert y0. induction rows as [|row rows IH]; simpl; intros y0 H;
    [contradiction|].
  destruct (item_ops row y0) as [a y1] eqn:Ea.
  destruct (items_ops rows y1) as [b y2] eqn:Eb. simpl in H.
  apply in_app_or in H as [H|H].
  - exists row, y0. rewrite Ea. auto.
  - specialize (IH y1). rewrite Eb in IH.
    destruct (IH H) as (r & y' & Hr & H'). exists r, y'. auto.
Qed.

Lemma items_ops_has rows y0 row :
  In row rows ->
  exists y1, forall op, In op (fst (item_ops row y1)) ->
                        In op (fst (items_ops rows y0)).
Proof.
  revert y0. induction rows as [|r rows IH]; simpl; intros y0 H;
    [contradiction|].
  destruct (item_ops r y0) as [a y1] eqn:Ea.
  destruct (items_ops rows y1) as [b y2] eqn:Eb. simpl.
  destruct H as [->|H].
  - exists y0. rewrite Ea. intros op Hop. apply in_or_app. now left.
  - destruct (IH y1 H) as (y' & H'). rewrite Eb in H'.
    exists y'. intros op Hop. apply in_or_app. right. auto.
Qed.

Lemma item_ops_name row y0 :
  In (drawString 50 y0 (Py.slice_to 40 (product_name (i_item row))))
    (fst (item_ops row y0)).
Proof.
  unfold item_ops.
  destruct (Py.truthy (specifications (i_item row))); simpl; auto.
Qed.

Lemma item_ops_amounts row y0 :
  In (drawString 380 y0 (currency (unit_price (i_item row))))
    (fst (item_ops row y0))
  /\ In (drawRightString 50 y0 (currency (total (i_item row))))
       (fst (item_ops row y0)).
Proof.
  unfold item_ops.
  destruct (Py.truthy (specifications (i_item row))); simpl; auto 10.
Qed.

Lemma item_ops_spec row y0 :
  Py.truthy (specifications (i_item row)) = true ->
  In (drawString 60 (y0 + 15)
        (Py.lit "  "
         ++ Py.slice_to 60 (text_of (specifications (i_item row)))))
    (fst (item_ops row y0)).
Proof.
  intros T. unfold item_ops. rewrite T. simpl. auto 10.
Qed.

(** The texts the other blocks draw with [drawString]. *)
Lemma title_ops_texts q x y text :
  In (drawString x y text) (title_ops q) -> x = 50%Z.
Proof.
  simpl. intros H.
  repeat match goal with
         | H : _ \/ _ |- _ => destruct H as [H|H]
         | H : False |- _ => contradiction
         | H : _ = drawString _ _ _ |- _ => inversion H; subst; clear H
         end; reflexivity.
Qed.

Lemma issuer_ops_texts u x y text :
  In (drawString x y text) (issuer_ops u) -> x = 50%Z.
Proof.
  unfold issuer_ops, draw_if.
  destruct (Py.truthy (u_company u)), (Py.truthy (u_company_address u)),
    (Py.truthy (u_phone u)); simpl; intros H;
    repeat match goal with
           | H : _ \/ _ |- _ => destruct H as [H|H]
           | H : False |- _ => contradiction
           | H : _ = drawString _ _ _ |- _ => inversion H; subst; clear H
           end; reflexivity.
Qed.

Lemma customer_ops_texts c x y text :
  ~ In (drawString x y text) (customer_ops c).
Proof.
  unfold customer_ops, draw_if.
  destruct (Py.truthy (Some (c_name c))), (Py.truthy (c_company c)),
    (Py.truthy (c_address c)), (Py.truthy (c_phone c)); simpl; intros H;
    repeat match goal with
           | H : _ \/ _ |- _ => destruct H as [H|H]
           | H : False |- _ => contradiction
           | H : _ = drawString _ _ _ |- _ => discriminate H
           end.
Qed.

Lemma table_head_texts x y text :
  In (drawString x y text) table_head_ops ->
  x <> 60%Z /\ (x = 380%Z -> text = Py.lit "Birim Fiyat").
Proof.
  simpl. intros H.
  repeat match goal with
         | H : _ \/ _ |- _ => destruct H as [H|H]
         | H : False |- _ => contradiction
         | H : _ = drawString _ _ _ |- _ => inversion H; subst; clear H
         end; split; try discriminate; intros; try discriminate; reflexivity.
Qed.

Lemma notes_ops_texts q y0 x y text :
  In (drawString x y text) (notes_ops q y0) -> x = 50%Z.
Proof.
  unfold notes_ops. destruct (Py.truthy (q_notes q)); simpl; intros H;
    repeat match goal with
           | H : _ \/ _ |- _ => destruct H as [H|H]
           | H : False |- _ => contradiction
           | H : _ = drawString _ _ _ |- _ => inversion H; subst; clear H
           end; reflexivity.
Qed.

(** The labels of the totals block. *)
Lemma totals_ops_labels q y0 y text :
  In (drawString 380 y text) (fst (totals_ops q y0)) ->
  text = ARA_TOPLAM
  \/ (text = INDIRIM /\ PrimFloat.ltb 0 (q_discount_amount q) = true)
  \/ text = kdv_label (q_tax_rate q)
  \/ text = GENEL_TOPLAM.
Proof.
  unfold totals_ops.
  destruct (PrimFloat.ltb 0 (q_discount_amount q)); simpl; intros H;
    repeat match goal with
           | H : _ \/ _ |- _ => destruct H as [H|H]
           | H : False |- _ => contradiction
           | H : _ = drawString _ _ _ |- _ => inversion H; subst; clear H
           | H : _ = _ :> pdf_op |- _ => discriminate H
           end; auto.
Qed.

Lemma totals_ops_lines q y0 :
  (exists y, In (drawString 380 y ARA_TOPLAM) (fst (totals_ops q y0))
             /\ In (drawRightString 50 y (currency (q_subtotal q)))
                  (fst (totals_ops q y0)))
  /\ (PrimFloat.ltb 0 (q_discount_amount q) = true ->
      exists y, In (drawString 380 y INDIRIM) (fst (totals_ops q y0))
                /\ In (drawRightString 50 y
                         (Py.MINUS :: currency (q_discount_amount q)))
                     (fst (totals_ops q y0)))
  /\ (exists y, In (drawString 380 y (kdv_label (q_tax_rate q)))
                  (fst (totals_ops q y0))
                /\ In (drawRightString 50 y (currency (q_tax_amount q)))
                     (fst (totals_ops q y0)))
  /\ (exists y, In (drawString 380 y GENEL_TOPLAM) (fst (totals_ops q y0))
                /\ In (drawRightString 50 y (currency (q_total q)))
                     (fst (totals_ops q y0))).
Proof.
  unfold totals_ops.
  destruct (PrimFloat.ltb 0 (q_discount_amount q)); simpl;
    (split; [|split; [|split]]);
    try discriminate; intros; eexists; split; auto 12.
Qed.

(** The two-decimal shape of [.2f] on a finite float. *)
Lemma fixed2_shape n :
  exists int_part d1 d2,
    Py.fixed2 n = int_part ++ [Py.DOT; d1; d2]
    /\ int_part <> []
    /\ forallb Py.is_digit int_part = true
    /\ Py.is_digit d1 = true /\ Py.is_digit d2 = true.
Proof.
  unfold Py.fixed2.
  assert (F : is_field 2 (Py.zfill 2 (Py.nat_digits (n mod 100))) = true).
  { apply two_digit_field.
    pose proof (N.mod_lt n 100). lia. }
  unfold is_field in F. apply andb_prop in F as [L D].
  apply Nat.eqb_eq in L.
  destruct (Py.zfill 2 (Py.nat_digits (n mod 100))) as [|d1 [|d2 [|d3 t]]];
    try discriminate L.
  simpl in D. apply andb_prop in D as [D1 D2]. apply andb_prop in D2 as [D2 _].
  exists (Py.nat_digits (n / 100)), d1, d2.
  repeat split; auto using nat_digits_nonempty, nat_digits_digits.
Qed.

Lemma format_2f_shape x :
  Py.isfinite x = true -> two_decimals (Py.format_2f x).
Proof.
  unfold Py.isfinite, Py.format_2f, two_decimals.
  destruct (Prim2SF x) as [s|s| |s m e]; try discriminate; intros _.
  - destruct (fixed2_shape 0) as (ip & d1 & d2 & E & H).
    exists s, ip, d1, d2. now rewrite E.
  - destruct (fixed2_shape (Py.round_hundredths m e))
      as (ip & d1 & d2 & E & H).
    exists s, ip, d1, d2. now rewrite E.
Qed.

Lemma INDIRIM_is_no_amount x : INDIRIM <> currency x.
Proof. discriminate. Qed.

Lemma INDIRIM_is_no_other_label rate :
  INDIRIM <> ARA_TOPLAM /\ INDIRIM <> kdv_label rate
  /\ INDIRIM <> GENEL_TOPLAM /\ INDIRIM <> Py.lit "Birim Fiyat".
Proof. repeat split; discriminate. Qed.

(** What the handler does when the quotation is found. *)
Lemma generate_quotation_pdf_inv quotation_id u d response :
  fst (generate_quotation_pdf quotation_id u d) = Ok response ->
  exists quotation customer,
    In quotation (quotations d)
    /\ q_id quotation = quotation_id
    /\ q_user_id quotation = u_id u
    /\ customer_of d quotation = Some customer
    /\ content response
       = render u quotation (items_of quotation_id (quotation_items d))
           customer.
Proof.
  unfold generate_quotation_pdf.
  destruct (select_owned q_id q_user_id quotation_id (u_id u) (quotations d))
    as [|q rest] eqn:S; [discriminate|].
  destruct (customer_of d q) as [c|] eqn:C; [|discriminate].
  simpl. intros H. inversion H; subst; clear H. simpl.
  assert (Hq : In q (select_owned q_id q_user_id quotation_id (u_id u)
                       (quotations d))) by (rewrite S; now left).
  apply filter_In in Hq as [Hq O]. unfold owned_by in O.
  apply andb_prop in O as [Ei Eu]. apply N.eqb_eq in Ei, Eu.
  exists q, c. auto.
Qed.

(** The document as the sequence of its blocks. *)
Lemma render_blocks u q rows c :
  render u q rows c
  = title_ops q ++ issuer_ops u ++ customer_ops c ++ table_head_ops
    ++ fst (items_ops rows 300)
    ++ fst (totals_ops q (snd (items_ops rows 300)))
    ++ notes_ops q (snd (totals_ops q (snd (items_ops rows 300))))
    ++ [showPage; save].
Proof.
  unfold render.
  destruct (items_ops rows 300) as [body y]. simpl.
  destruct (totals_ops q y) as [totals y']. reflexivity.
Qed.

(** ** Nothing else is drawn *)

Ltac drawn_cases :=
  simpl; intros;
  repeat match goal with
         | H : _ \/ _ |- _ => destruct H as [H|H]
         | H : False |- _ => contradiction
         | H : _ = drawString _ _ _ |- _ => inversion H; subst; clear H
         | H : _ = drawRightString _ _ _ |- _ => inversion H; subst; clear H
         end.

Lemma items_ops_in rows y0 op :
  In op (fst (items_ops rows y0)) ->
  exists row y1, In row rows /\ In op (fst (item_ops row y1)).
Proof.
  revert y0. induction rows as [|row rows IH]; simpl; intros y0 H;
    [contradiction|].
  destruct (item_ops row y0) as [a y1] eqn:Ea.
  destruct (items_ops rows y1) as [b y2] eqn:Eb. simpl in H.
  apply in_app_or in H as [H|H].
  - exists row, y0. rewrite Ea. auto.
  - specialize (IH y1). rewrite Eb in IH.
    destruct (IH H) as (r & y' & Hr & H'). exists r, y'. auto.
Qed.

Lemma title_ops_drawn u q x y text :
  In (drawString x y text) (title_ops q) -> In text (frame_texts u q).
Proof. unfold title_ops, frame_texts. drawn_cases; simpl; auto 20. Qed.

Lemma title_ops_no_right q x y text :
  ~ In (drawRightString x y text) (title_ops q).
Proof. unfold title_ops. intros H. revert H. drawn_cases. Qed.

Lemma issuer_ops_drawn u q x y text :
  In (drawString x y text) (issuer_ops u) -> In text (frame_texts u q).
Proof.
  unfold issuer_ops, draw_if, frame_texts.
  destruct (Py.truthy (u_company u)), (Py.truthy (u_company_address u)),
    (Py.truthy (u_phone u)); drawn_cases; simpl; auto 20.
Qed.

Lemma issuer_ops_no_right u x y text :
  ~ In (drawRightString x y text) (issuer_ops u).
Proof.
  unfold issuer_ops, draw_if.
  destruct (Py.truthy (u_company u)), (Py.truthy (u_company_address u)),
    (Py.truthy (u_phone u)); intros H; revert H; drawn_cases.
Qed.

Lemma customer_ops_drawn q c x y text :
  In (drawRightString x y text) (customer_ops c) -> In text (right_texts q c).
Proof.
  unfold customer_ops, draw_if, right_texts.
  destruct (Py.truthy (Some (c_name c))), (Py.truthy (c_company c)),
    (Py.truthy (c_address c)), (Py.truthy (c_phone c));
    drawn_cases; simpl; auto 20.
Qed.

Lemma table_head_drawn u q x y text :
  In (drawString x y text) table_head_ops -> In text (frame_texts u q).
Proof. unfold table_head_ops, frame_texts. drawn_cases; simpl; auto 20. Qed.

Lemma table_head_drawn_right q c x y text :
  In (drawRightString x y text) table_head_ops -> In text (right_texts q c).
Proof. unfold table_head_ops, right_texts. drawn_cases; simpl; auto 20. Qed.

Lemma item_ops_drawn row y0 x y text :
  In (drawString x y text) (fst (item_ops row y0)) ->
  In text (line_texts (i_item row)).
Proof.
  unfold item_ops, line_texts.
  destruct (Py.truthy (specifications (i_item row)));
    drawn_cases; simpl; auto 20.
Qed.

Lemma item_ops_drawn_right row y0 x y text :
  In (drawRightString x y text) (fst (item_ops row y0)) ->
  text = currency (total (i_item row)).
Proof.
  unfold item_ops.
  destruct (Py.truthy (specifications (i_item row)));
    drawn_cases; reflexivity.
Qed.

Lemma totals_ops_drawn u q y0 x y text :
  In (drawString x y text) (fst (totals_ops q y0)) ->
  In text (frame_texts u q).
Proof.
  unfold totals_ops, frame_texts.
  destruct (PrimFloat.ltb 0 (q_discount_amount q));
    drawn_cases; simpl; auto 20.
Qed.

Lemma totals_ops_drawn_right q c y0 x y text :
  In (drawRightString x y text) (fst (totals_ops q y0)) ->
  In text (right_texts q c).
Proof.
  unfold totals_ops, right_texts.
  destruct (PrimFloat.ltb 0 (q_discount_amount q));
    drawn_cases; simpl; auto 20.
Qed.

Lemma notes_ops_drawn u q y0 x y text :
  In (drawString x y text) (notes_ops q y0) ->
  In text (frame_texts u q)
  \/ text = Py.slice_to 100 (text_of (q_notes q)).
Proof.
  unfold notes_ops, frame_texts.
  destruct (Py.truthy (q_notes q)); drawn_cases; simpl; auto 20.
Qed.

Lemma notes_ops_no_right q y0 x y text :
  ~ In (drawRightString x y text) (notes_ops q y0).
Proof.
  unfold notes_ops. destruct (Py.truthy (q_notes q));
    intros H; revert H; drawn_cases.
Qed.

(** Every text of a document is a text of its frame, of one of its
    lines, or the notes cut to 100. *)
Lemma render_drawn u q rows c x y text :
  In (drawString x y text) (render u q rows c) ->
  In text (frame_texts u q)
  \/ (exists row, In row rows /\ In text (line_texts (i_item row)))
  \/ text = Py.slice_to 100 (text_of (q_notes q)).
Proof.
  rewrite render_blocks. intros H.
  apply in_app_or in H as [H|H]; [left; eapply title_ops_drawn; eauto|].
  apply in_app_or in H as [H|H]; [left; eapply issuer_ops_drawn; eauto|].
  apply in_app_or in H as [H|H];
    [exfalso; eapply customer_ops_texts; eauto|].
  apply in_app_or in H as [H|H]; [left; eapply table_head_drawn; eauto|].
  apply in_app_or in H as [H|H].
  { right. left. apply items_ops_in in H as (row & y1 & Hr & H).
    exists row. split; [assumption|]. eapply item_ops_drawn; eauto. }
  apply in_app_or in H as [H|H]; [left; eapply totals_ops_drawn; eauto|].
  apply in_app_or in H as [H|H].
  { apply (notes_ops_drawn u) in H as [H|H]; auto. }
  simpl in H. destruct H as [H|[H|[]]]; discriminate H.
Qed.

Lemma render_drawn_right u q rows c x y text :
  In (drawRightString x y text) (render u q rows c) ->
  In text (right_texts q c)
  \/ exists row, In row rows /\ text = currency (total (i_item row)).
Proof.
  rewrite render_blocks. intros H.
  apply in_app_or in H as [H|H];
    [exfalso; eapply title_ops_no_right; eauto|].
  apply in_app_or in H as [H|H];
    [exfalso; eapply issuer_ops_no_right; eauto|].
  apply in_app_or in H as [H|H]; [left; eapply customer_ops_drawn; eauto|].
  apply in_app_or in H as [H|H];
    [left; eapply table_head_drawn_right; eauto|].
  apply in_app_or in H as [H|H].
  { right. apply items_ops_in in H as (row & y1 & Hr & H).
    exists row. split; [assumption|]. eapply item_ops_drawn_right; eauto. }
  apply in_app_or in H as [H|H];
    [left; eapply totals_ops_drawn_right; eauto|].
  apply in_app_or in H as [H|H];
    [exfalso; eapply notes_ops_no_right; eauto|].
  simpl in H. destruct H as [H|[H|[]]]; discriminate H.
Qed.

Lemma not_in_by_eqb (t : Py.str) (l : list Py.str) :
  existsb (Py.str_eqb t) l = false -> ~ In t l.
Proof.
  intros E H. apply not_true_iff_false in E. apply E.
  apply existsb_exists. exists t. split; [assumption|apply str_eqb_refl].
Qed.

(** C8.  In every document the handler returns: each line of the item
    table shows the product name cut to 40 characters and, when the line
    has specifications, their first 60 characters after two spaces; the
    notes, when there are any, are cut to 100; nothing else is drawn in
    the column of the specifications or, inside the table, in that of
    the names.  The subtotal, the tax labelled with the rate and the
    grand total are always drawn, the discount exactly when it is above
    zero.  Every amount is drawn with the lira sign in front, and with
    exactly two decimals whenever it is a finite number.  Nothing else
    is drawn: every left-aligned text of the document is a text of its
    frame (title, issuer, head of the table, labels), a cell of a line
    (the name cut to 40, the quantity, the unit, the unit price, the
    specifications cut to 60) or the notes cut to 100, and every
    right-aligned text is the customer, the head of the last column or
    an amount; so the name, the specifications and the notes appear in
    no other form than the cut one. *)
Theorem rendered_document :
  forall (quotation_id : id) (current_user : user_row) (d : db)
         (response : pdf_response),
    fst (generate_quotation_pdf quotation_id current_user d) = Ok response ->
    exists quotation customer,
      In quotation (quotations d)
      /\ q_id quotation = quotation_id
      /\ q_user_id quotation = u_id current_user
      /\ customer_of d quotation = Some customer
      /\ let rows := items_of quotation_id (quotation_items d) in
         let ops := content response in
         (* the long texts *)
         (forall row, In row rows ->
            (exists y,
                In (drawString 50 y
                      (Py.slice_to 40 (product_name (i_item row)))) ops)
            /\ (List.length (Py.slice_to 40 (product_name (i_item row)))
                <= 40)%nat
            /\ (Py.truthy (specifications (i_item row)) = true ->
                exists y,
                  In (drawString 60 y
                        (Py.lit "  "
                         ++ Py.slice_to 60
                              (text_of (specifications (i_item row)))))
                    ops)
            /\ (List.length
                  (Py.slice_to 60 (text_of (specifications (i_item row))))
                <= 60)%nat)
         /\ (forall y text,
               In (drawString 60 y text) ops ->
               exists row,
                 In row rows
                 /\ text = Py.lit "  "
                           ++ Py.slice_to 60
                                (text_of (specifications (i_item row))))
         /\ (forall y text,
               In (drawString 50 y text) (fst (items_ops rows 300)) ->
               exists row,
                 In row rows
                 /\ text = Py.slice_to 40 (product_name (i_item row)))
         /\ (Py.truthy (q_notes quotation) = true ->
             exists y,
               In (drawString 50 y
                     (Py.slice_to 100 (text_of (q_notes quotation)))) ops)
         /\ (List.length (Py.slice_to 100 (text_of (q_notes quotation)))
             <= 100)%nat
         (* the totals block *)
         /\ (exists y,
               In (drawString 380 y ARA_TOPLAM) ops
               /\ In (drawRightString 50 y (currency (q_subtotal quotation)))
                    ops)
         /\ ((exists y, In (drawString 380 y INDIRIM) ops)
             <-> PrimFloat.ltb 0 (q_discount_amount quotation) = true)
         /\ (PrimFloat.ltb 0 (q_discount_amount quotation) = true ->
             exists y,
               In (drawString 380 y INDIRIM) ops
               /\ In (drawRightString 50 y
                        (Py.MINUS :: currency (q_discount_amount quotation)))
                    ops)
         /\ (exists y,
               In (drawString 380 y (kdv_label (q_tax_rate quotation))) ops
               /\ In (drawRightString 50 y
                        (currency (q_tax_amount quotation))) ops)
         /\ (exists y,
               In (drawString 380 y GENEL_TOPLAM) ops
               /\ In (drawRightString 50 y (currency (q_total quotation)))
                    ops)
         (* the amounts *)
         /\ (forall row, In row rows ->
               exists y,
                 In (drawString 380 y (currency (unit_price (i_item row))))
                   ops
                 /\ In (drawRightString 50 y (currency (total (i_item row))))
                      ops)
         /\ (forall x : Py.float,
               currency x = Py.TURKISH_LIRA_SIGN :: Py.format_2f x
               /\ (Py.isfinite x = true -> two_decimals (Py.format_2f x)))
         (* nothing else *)
         /\ (forall x y text,
               In (drawString x y text) ops ->
               In text (frame_texts current_user quotation)
               \/ (exists row,
                      In row rows /\ In text (line_texts (i_item row)))
               \/ text = Py.slice_to 100 (text_of (q_notes quotation)))
         /\ (forall x y text,
               In (drawRightString x y text) ops ->
               In text (right_texts quotation customer)
               \/ exists row,
                    In row rows /\ text = currency (total (i_item row))).
Proof.
  intros quotation_id u d response E.
  destruct (generate_quotation_pdf_inv quotation_id u d response E)
    as (q & c & Hq & Ei & Eu & Hc & R).
  exists q, c. repeat (split; [assumption|]).
  pose proof (render_drawn u q (items_of quotation_id (quotation_items d)) c)
    as DA.
  pose proof (render_drawn_right u q
                (items_of quotation_id (quotation_items d)) c) as DB.
  rewrite render_blocks in DA, DB.
  cbv zeta. rewrite R, render_blocks.
  set (rows := items_of quotation_id (quotation_items d)).
  set (body := fst (items_ops rows 300)).
  set (y1 := snd (items_ops rows 300)).
  set (totals := fst (totals_ops q y1)).
  set (y2 := snd (totals_ops q y1)).
  assert (in_body : forall op, In op body ->
            In op (title_ops q ++ issuer_ops u ++ customer_ops c
                   ++ table_head_ops ++ body ++ totals ++ notes_ops q y2
                   ++ [showPage; save])).
  { intros op H. do 4 (apply in_or_app; right).
    apply in_or_app. now left. }
  assert (in_totals : forall op, In op totals ->
            In op (title_ops q ++ issuer_ops u ++ customer_ops c
                   ++ table_head_ops ++ body ++ totals ++ notes_ops q y2
                   ++ [showPage; save])).
  { intros op H. do 5 (apply in_or_app; right).
    apply in_or_app. now left. }
  assert (in_notes : forall op, In op (notes_ops q y2) ->
            In op (title_ops q ++ issuer_ops u ++ customer_ops c
                   ++ table_head_ops ++ body ++ totals ++ notes_ops q y2
                   ++ [showPage; save])).
  { intros op H. do 6 (apply in_or_app; right).
    apply in_or_app. now left. }
  assert (split_ops : forall x y text,
            In (drawString x y text)
              (title_ops q ++ issuer_ops u ++ customer_ops c
               ++ table_head_ops ++ body ++ totals ++ notes_ops q y2
               ++ [showPage; save]) ->
            x = 50%Z
            \/ In (drawString x y text) table_head_ops
            \/ In (drawString x y text) body
            \/ In (drawString x y text) totals).
  { intros x y text H.
    apply in_app_or in H as [H|H]; [left; eapply title_ops_texts; eauto|].
    apply in_app_or in H as [H|H]; [left; eapply issuer_ops_texts; eauto|].
    apply in_app_or in H as [H|H];
      [exfalso; eapply customer_ops_texts; eauto|].
    apply in_app_or in H as [H|H]; [auto|].
    apply in_app_or in H as [H|H]; [auto|].
    apply in_app_or in H as [H|H]; [auto|].
    apply in_app_or in H as [H|H]; [left; eapply notes_ops_texts; eauto|].
    simpl in H. destruct H as [H|[H|[]]]; discriminate H. }
  destruct (totals_ops_lines q y1) as (Lsub & Ldisc & Ltax & Lgrand).
  fold totals in Lsub, Ldisc, Ltax, Lgrand.
  split; [|split; [|split; [|split; [|split; [|split; [|split; [|split;
    [|split; [|split; [|split; [|split; [|split]]]]]]]]]]]].
  13: exact DA.
  13: exact DB.
  - intros row Hrow.
    destruct (items_ops_has rows 300 row Hrow) as (y & Hy). fold body in Hy.
    split; [|split; [|split]].
    + exists y. apply in_body, Hy, item_ops_name.
    + apply firstn_bound.
    + intros T. exists (y + 15)%Z. now apply in_body, Hy, item_ops_spec.
    + apply firstn_bound.
  - intros y text H.
    destruct (split_ops 60%Z y text H) as [H'|[H'|[H'|H']]].
    + discriminate H'.
    + apply table_head_texts in H' as [H' _]. contradiction.
    + destruct (items_ops_texts rows 300 60 y text H')
        as (row & y' & Hrow & Hop).
      apply item_ops_texts in Hop
        as [[X _]|[[X _]|[[X _]|[[X _]|(_ & _ & T)]]]];
        try discriminate X.
      exists row. auto.
    + unfold totals, totals_ops in H'.
      destruct (PrimFloat.ltb 0 (q_discount_amount q)); simpl in H';
        repeat match goal with
               | H : _ \/ _ |- _ => destruct H as [H|H]
               | H : False |- _ => contradiction
               | H : _ = drawString _ _ _ |- _ => discriminate H
               end.
  - intros y text H.
    destruct (items_ops_texts rows 300 50 y text H)
      as (row & y' & Hrow & Hop).
    apply item_ops_texts in Hop
      as [[_ T]|[[X _]|[[X _]|[[X _]|(X & _)]]]];
      try discriminate X.
    exists row. auto.
  - intros T. exists (y2 + 40 + 15)%Z. apply in_notes.
    unfold notes_ops. rewrite T. simpl. auto.
  - apply firstn_bound.
  - destruct Lsub as (y & H1 & H2). exists y. auto.
  - split.
    + intros (y & H).
      destruct (split_ops 380%Z y INDIRIM H) as [H'|[H'|[H'|H']]].
      * discriminate H'.
      * apply table_head_texts in H' as [_ H'].
        specialize (H' eq_refl). discriminate H'.
      * destruct (items_ops_texts rows 300 380 y INDIRIM H')
          as (row & y' & Hrow & Hop).
        apply item_ops_texts in Hop
          as [[X _]|[[X _]|[[X _]|[[_ X]|(X & _)]]]];
          discriminate X.
      * apply totals_ops_labels in H' as [X|[[_ X]|[X|X]]];
          try discriminate X. exact X.
    + intros D. destruct (Ldisc D) as (y & H1 & _). exists y. auto.
  - intros D. destruct (Ldisc D) as (y & H1 & H2). exists y. auto.
  - destruct Ltax as (y & H1 & H2). exists y. auto.
  - destruct Lgrand as (y & H1 & H2). exists y. auto.
  - intros row Hrow.
    destruct (items_ops_has rows 300 row Hrow) as (y & Hy). fold body in Hy.
    destruct (item_ops_amounts row y) as [H1 H2].
    exists y. split; apply in_body, Hy; assumption.
  - intros x. split; [reflexivity|apply format_2f_shape].
Qed.

(** Alice's quotation with a discount of 10, a name of 50 characters,
    specifications of 70 and notes of 120, rendered: the three texts are
    drawn cut to 40, 60 and 100, and not as they are. *)
Lemma rendered_document_witness :
  exists response,
    fst (generate_quotation_pdf 4%N alice store_long) = Ok response
    /\ (exists y,
          In (drawString 380 y INDIRIM) (content response)
          /\ In (drawRightString 50 y (Py.MINUS :: currency 10%float))
               (content response))
    /\ currency 10%float = Py.TURKISH_LIRA_SIGN :: Py.lit "10.00"
    /\ currency 33.335%float = Py.TURKISH_LIRA_SIGN :: Py.lit "33.34"
    /\ currency 100.005%float = Py.TURKISH_LIRA_SIGN :: Py.lit "100.00"
    /\ (exists y, In (drawString 50 y (repeat 65%N 40)) (content response))
    /\ (exists y,
          In (drawString 60 y (Py.lit "  " ++ repeat 66%N 60))
            (content response))
    /\ (exists y, In (drawString 50 y (repeat 67%N 100)) (content response))
    /\ (forall x y text,
          In text [repeat 65%N 50; repeat 66%N 70; repeat 67%N 120] ->
          ~ In (drawString x y text) (content response)
          /\ ~ In (drawRightString x y text) (content response)).
Proof.
  destruct (fst (generate_quotation_pdf 4%N alice store_long))
    as [response|f] eqn:E.
  - exists response. split; [reflexivity|].
    destruct (rendered_document 4%N alice store_long response E)
      as (q & c & Hq & _ & _ & Hc & H).
    cbv zeta in H.
    destruct H as (Hrows & _ & _ & Hn & _ & _ & _ & Hd & _ & _ & _ & _
                   & DA & DB).
    vm_compute in Hq. destruct Hq as [<-|[]].
    vm_compute in Hc. injection Hc as <-.
    split; [apply Hd; vm_compute; reflexivity|].
    do 3 (split; [vm_compute; reflexivity|]).
    assert (Hrow : In {| i_id := 5%N; i_quotation_id := 4%N;
                         i_item := hd (an_item "" None 0 0%float 0%float)
                                     (items quotation_long) |}
                     (items_of 4%N (quotation_items store_long)))
      by (vm_compute; auto).
    destruct (Hrows _ Hrow) as ((y1 & H1) & _ & H2 & _).
    split; [exists y1; exact H1|].
    split; [apply H2; reflexivity|].
    split; [apply Hn; reflexivity|].
    intros x y text Ht. split; intros Hin.
    + destruct (DA x y text Hin) as [F|[(row & Hr & F)|F]].
      * revert F. apply not_in_by_eqb.
        destruct Ht as [<-|[<-|[<-|[]]]]; vm_compute; reflexivity.
      * vm_compute in Hr. destruct Hr as [<-|[]].
        revert F. apply not_in_by_eqb.
        destruct Ht as [<-|[<-|[<-|[]]]]; vm_compute; reflexivity.
      * apply str_eqb_eq in F.
        destruct Ht as [<-|[<-|[<-|[]]]]; vm_compute in F; discriminate F.
    + destruct (DB x y text Hin) as [F|(row & Hr & F)].
      * revert F. apply not_in_by_eqb.
        destruct Ht as [<-|[<-|[<-|[]]]]; vm_compute; reflexivity.
      * vm_compute in Hr. destruct Hr as [<-|[]].
        apply str_eqb_eq in F.
        destruct Ht as [<-|[<-|[<-|[]]]]; vm_compute in F; discriminate F.
  - vm_compute in E. discriminate E.
Defined.

(* ================================================================== *)
(** * Every handler keeps the store well-formed *)
(* ================================================================== *)

Lemma snd_relabel (A : Type) (f : A -> response) (r : outcome A * db) :
  snd (relabel f r) = snd r.
Proof. destruct r as [[a|e] d]; reflexivity. Qed.

Section OwnedKeys.
Variable R : Type.
Variable rid : R -> id.
Variable owner : R -> id.

Lemma keys_ok_updated bound i u (f : R -> R) (t : list R) :
  (forall r, rid (f r) = rid r) ->
  keys_ok bound (List.map rid t) = true ->
  keys_ok bound (List.map rid (snd (update_owned rid owner i u f t))) = true.
Proof.
  intros H K. unfold update_owned. cbn [snd].
  now rewrite map_key_updated.
Qed.

Lemma keys_ok_deleted bound i u (t : list R) :
  keys_ok bound (List.map rid t) = true ->
  keys_ok bound (List.map rid (snd (delete_owned rid owner i u t))) = true.
Proof.
  intros K. unfold delete_owned. cbn [snd]. now apply keys_ok_filter.
Qed.
End OwnedKeys.

(** A handler that rewrites one table, keeping its keys, keeps the
    store well-formed. *)
Lemma wf_set_customers d t :
  wf d = true -> keys_ok (next_id d) (List.map c_id t) = true ->
  wf (set_customers d t) = true.
Proof.
  intros W K. destruct (wf_tables d W) as (Ku & Kc & Kp & Kq & Ki & Kr & F).
  apply wf_intro; assumption.
Qed.

Lemma wf_set_products d t :
  wf d = true -> keys_ok (next_id d) (List.map p_id t) = true ->
  wf (set_products d t) = true.
Proof.
  intros W K. destruct (wf_tables d W) as (Ku & Kc & Kp & Kq & Ki & Kr & F).
  apply wf_intro; assumption.
Qed.

Lemma wf_set_quotations d t :
  wf d = true -> keys_ok (next_id d) (List.map q_id t) = true ->
  wf (set_quotations d t) = true.
Proof.
  intros W K. destruct (wf_tables d W) as (Ku & Kc & Kp & Kq & Ki & Kr & F).
  apply wf_intro; assumption.
Qed.

Lemma wf_set_reminders d t :
  wf d = true -> keys_ok (next_id d) (List.map r_id t) = true ->
  wf (set_reminders d t) = true.
Proof.
  intros W K. destruct (wf_tables d W) as (Ku & Kc & Kp & Kq & Ki & Kr & F).
  apply wf_intro; assumption.
Qed.

(** The requests that address one resource. *)
Lemma wf_route req u d :
  wf d = true -> wf (snd (route req u d)) = true.
Proof.
  intros W.
  destruct (wf_tables d W) as (Ku & Kc & Kp & Kq & Ki & Kr & F).
  destruct req as [i|i c|i|i|i p|i|i|i q|i|i p|i|i|i];
    simpl; rewrite snd_relabel;
    unfold get_customer, update_customer, delete_customer,
      get_product, update_product, delete_product,
      get_quotation, delete_quotation,
      update_payment_status, generate_quotation_pdf,
      send_reminder, delete_reminder;
    try match goal with
        | |- context [Py.json_dumps_raises ?l] =>
            destruct (Py.json_dumps_raises l); [exact W|]
        end.
  - now destruct (select_owned c_id c_user_id i (u_id u) (customers d)).
  - pose proof (keys_ok_updated customer_row c_id c_user_id (next_id d)
                  i (u_id u) (apply_customer c)
                  (customers d) (fun r => eq_refl) Kc) as K.
    destruct (update_owned c_id c_user_id i (u_id u)
                (apply_customer c) (customers d)) as [data t].
    destruct data; now apply wf_set_customers.
  - pose proof (keys_ok_deleted customer_row c_id c_user_id (next_id d)
                  i (u_id u) (customers d) Kc) as K.
    destruct (delete_owned c_id c_user_id i (u_id u) (customers d))
      as [data t].
    destruct data; now apply wf_set_customers.
  - now destruct (select_owned p_id p_user_id i (u_id u) (products d)).
  - pose proof (keys_ok_updated product_row p_id p_user_id (next_id d)
                  i (u_id u) (apply_product p)
                  (products d) (fun r => eq_refl) Kp) as K.
    destruct (update_owned p_id p_user_id i (u_id u)
                (apply_product p) (products d)) as [data t].
    destruct data; now apply wf_set_products.
  - pose proof (keys_ok_deleted product_row p_id p_user_id (next_id d)
                  i (u_id u) (products d) Kp) as K.
    destruct (delete_owned p_id p_user_id i (u_id u) (products d))
      as [data t].
    destruct data; now apply wf_set_products.
  - now destruct (select_owned q_id q_user_id i (u_id u) (quotations d)).
  - now apply wf_update_quotation.
  - pose proof (keys_ok_deleted quotation_row q_id q_user_id (next_id d)
                  i (u_id u) (quotations d) Kq) as K.
    destruct (delete_owned q_id q_user_id i (u_id u) (quotations d))
      as [data t].
    destruct data; now apply wf_set_quotations.
  - pose proof (keys_ok_updated quotation_row q_id q_user_id (next_id d)
                  i (u_id u) (apply_payment p)
                  (quotations d) (fun r => eq_refl) Kq) as K.
    destruct (update_owned q_id q_user_id i (u_id u)
                (apply_payment p) (quotations d)) as [data t].
    destruct data; now apply wf_set_quotations.
  - destruct (select_owned q_id q_user_id i (u_id u) (quotations d))
      as [|q rest]; [assumption|].
    now destruct (customer_of d q).
  - pose proof (keys_ok_updated reminder_row r_id r_user_id (next_id d)
                  i (u_id u) mark_sent
                  (reminders d) (fun r => eq_refl) Kr) as K.
    destruct (update_owned r_id r_user_id i (u_id u)
                mark_sent (reminders d)) as [data t].
    destruct data; now apply wf_set_reminders.
  - pose proof (keys_ok_deleted reminder_row r_id r_user_id (next_id d)
                  i (u_id u) (reminders d) Kr) as K.
    destruct (delete_owned r_id r_user_id i (u_id u) (reminders d))
      as [data t].
    destruct data; now apply wf_set_reminders.
Qed.

(** The handlers that insert one row. *)
Lemma wf_create_customer customer u d :
  wf d = true -> wf (snd (create_customer customer u d)) = true.
Proof.
  intros W. destruct (wf_tables d W) as (Ku & Kc & Kp & Kq & Ki & Kr & F).
  assert (Hb : (next_id d <= next_id d + 1)%N) by lia.
  apply wf_intro; simpl; eauto using keys_ok_mono, forallb_mono_bound.
  rewrite map_app. simpl. now apply keys_ok_snoc.
Qed.

Lemma wf_create_product product u d :
  wf d = true -> wf (snd (create_product product u d)) = true.
Proof.
  intros W. unfold create_product.
  destruct (Py.json_dumps_raises (json_id (u_id u) :: product_dict product));
    [exact W|].
  destruct (wf_tables d W) as (Ku & Kc & Kp & Kq & Ki & Kr & F).
  assert (Hb : (next_id d <= next_id d + 1)%N) by lia.
  apply wf_intro; simpl; eauto using keys_ok_mono, forallb_mono_bound.
  rewrite map_app. simpl. now apply keys_ok_snoc.
Qed.

Lemma wf_create_reminder reminder u d :
  wf d = true -> wf (snd (create_reminder reminder u d)) = true.
Proof. intros W. exact W. Qed.

Lemma wf_register hash_password create_access_token user d :
  wf d = true ->
  wf (snd (register hash_password create_access_token user d)) = true.
Proof.
  intros W. destruct (wf_tables d W) as (Ku & Kc & Kp & Kq & Ki & Kr & F).
  assert (Hb : (next_id d <= next_id d + 1)%N) by lia.
  unfold register.
  destruct (filter (fun r => Py.str_eqb (u_email r) (uc_email user))
              (users d)); [|assumption].
  apply wf_intro; simpl; eauto using keys_ok_mono, forallb_mono_bound.
  rewrite map_app. simpl. now apply keys_ok_snoc.
Qed.

Lemma wf_empty : wf Store.empty = true.
Proof. reflexivity. Qed.

(* ================================================================== *)
(** * The embedded customer *)
(* ================================================================== *)

Lemma find_by_key bound (t : list customer_row) c :
  keys_ok bound (List.map c_id t) = true ->
  In c t ->
  find (fun x => (c_id x =? c_id c)%N) t = Some c.
Proof.
  intros K Hc.
  pose proof (key_filter_unique customer_row c_id bound t K c Hc) as F.
  clear K Hc. induction t as [|x t IH]; simpl in *; [discriminate|].
  destruct (c_id x =? c_id c)%N; [now inversion F|auto].
Qed.

(** The customer a create request names is embedded in the response
    whoever owns it: [create_quotation] checks neither that the customer
    exists nor that it is the caller's, and the embedding
    [customers( * )] follows the reference alone. *)
Theorem created_quotation_embeds_customer :
  forall (e : env) (quotation : QuotationCreate) (current_user : user_row)
         (d : db) view d' (c : customer_row),
    wf d = true ->
    create_quotation e quotation current_user d = (Ok view, d') ->
    In c (customers d) ->
    c_id c = customer_id quotation ->
    v_customer view = Some c
    /\ q_user_id (v_quotation view) = u_id current_user
    /\ fst (get_quotation (q_id (v_quotation view)) current_user d')
       = Ok view.
Proof.
  intros e quotation u d view d' c W E Hc Ec.
  destruct (create_quotation_inv e quotation u d view d' W E)
    as (a & Ha & -> & ->).
  destruct (wf_tables d W) as (_ & Kc & _ & Kq & _).
  assert (C : customer_of d (new_quotation e quotation a u (next_id d))
              = Some c).
  { unfold customer_of. simpl. rewrite <- Ec.
    now apply (find_by_key (next_id d)). }
  simpl. split; [exact C|]. split; [reflexivity|].
  assert (S : select_owned q_id q_user_id (next_id d) (u_id u)
                (quotations d ++ [new_quotation e quotation a u (next_id d)])
              = [new_quotation e quotation a u (next_id d)]).
  { rewrite select_owned_as_filter, filter_app,
      (fresh_key_unmatched quotation_row q_id (next_id d) (next_id d)
         (quotations d) Kq (N.le_refl _)).
    simpl. rewrite N.eqb_refl. simpl. now rewrite N.eqb_refl. }
  unfold get_quotation, insert_items, take_ids, set_quotation_items,
    set_quotations.
  cbn [quotations quotation_items v_quotation q_id new_quotation].
  rewrite S. cbn [fst]. f_equal. f_equal.
  rewrite items_of_app, (no_items_of_next d W), item_rows_of. reflexivity.
Qed.

(** Bob names Alice's customer 3 in a create request of his own. *)
Lemma created_quotation_embeds_witness :
  exists view d',
    create_quotation env0 quotation_150 bob store0 = (Ok view, d')
    /\ v_customer view = Some acme
    /\ c_user_id acme = u_id alice
    /\ u_id bob <> u_id alice.
Proof.
  destruct (create_quotation env0 quotation_150 bob store0)
    as [[view|f] d'] eqn:E.
  - exists view, d'. split; [reflexivity|].
    destruct (created_quotation_embeds_customer env0 quotation_150 bob
                store0 view d' acme eq_refl E (or_introl eq_refl) eq_refl)
      as (H & _).
    split; [exact H|]. split; [reflexivity|discriminate].
  - vm_compute in E. discriminate E.
Defined.

(* ================================================================== *)
(** * Customers and products: insert, look up, update, delete *)
(* ================================================================== *)

Section Lookup.
Variable R : Type.
Variable rid : R -> id.
Variable owner : R -> id.


Lemma select_of_user_snoc u (t : list R) row :
  select_of_user owner u (t ++ [row])
  = select_of_user owner u t
    ++ (if (owner row =? u)%N then [row] else []).
Proof. unfold select_of_user. rewrite filter_app. reflexivity. Qed.



(** An update that keeps key and owner changes the rows it matched and
    no other, and they are found again as updated. *)
Lemma select_after_update i u (f : R -> R) (t : list R) :
  (forall r, rid (f r) = rid r) -> (forall r, owner (f r) = owner r) ->
  select_owned rid owner i u (snd (update_owned rid owner i u f t))
  = fst (update_owned rid owner i u f t).
Proof.
  intros Hi Ho. unfold update_owned. cbn [fst snd]. unfold select_owned.
  induction t as [|x t IH]; simpl; [reflexivity|].
  destruct (owned_by rid owner i u x) eqn:O; simpl.
  - assert (O' : owned_by rid owner i u (f x) = true)
      by (unfold owned_by in *; now rewrite Hi, Ho).
    rewrite O'. f_equal. exact IH.
  - rewrite O. exact IH.
Qed.
End Lookup.





(** Partial update.  A successful customer update changes the caller's
    row of that identifier and no other: identifier and owner stay, the
    name is replaced, every other column is replaced when the body holds
    its key (also by [null]) and kept when it does not; the row is read
    back as returned. *)
Theorem customer_update_is_partial :
  forall (customer_id : id) (customer : CustomerCreate)
         (current_user : user_row) (d : db) updated d',
    wf d = true ->
    update_customer customer_id customer current_user d = (Ok updated, d') ->
    exists old,
      In old (customers d)
      /\ c_id old = customer_id /\ c_user_id old = u_id current_user
      /\ c_id updated = customer_id
      /\ c_user_id updated = u_id current_user
      /\ c_name updated = cc_name customer
      /\ c_email updated = assign (cc_email customer) (c_email old)
      /\ c_phone updated = assign (cc_phone customer) (c_phone old)
      /\ c_company updated = assign (cc_company customer) (c_company old)
      /\ c_address updated = assign (cc_address customer) (c_address old)
      /\ c_tax_number updated
         = assign (cc_tax_number customer) (c_tax_number old)
      /\ c_tax_office updated
         = assign (cc_tax_office customer) (c_tax_office old)
      /\ c_notes updated = assign (cc_notes customer) (c_notes old)
      /\ customers d'
         = List.map (fun r => if (c_id r =? customer_id)%N then updated else r)
             (customers d)
      /\ get_customer customer_id current_user d' = (Ok updated, d')
      /\ set_customers d' (customers d) = d.
Proof.
  intros i c u d updated d' W E.
  destruct (wf_tables d W) as (_ & Kc & _).
  unfold update_customer in E.
  pose proof (select_after_update customer_row c_id c_user_id i (u_id u)
                (apply_customer c) (customers d)
                (fun r => eq_refl) (fun r => eq_refl)) as A.
  unfold update_owned in E, A. cbn [fst snd] in A.
  destruct (select_owned c_id c_user_id i (u_id u) (customers d))
    as [|old rest] eqn:S; [discriminate|].
  destruct (select_owned_found customer_row c_id c_user_id (next_id d)
              i (u_id u) (customers d) old rest Kc S)
    as (-> & Hold & Ei & Eu & F).
  simpl in E. inversion E; subst updated d'; clear E.
  exists old. repeat (split; [first [assumption|reflexivity]|]).
  split; [|split].
  - simpl customers. apply map_ext_in. intros r Hr.
    unfold owned_by. destruct (c_id r =? i)%N eqn:Er; [|reflexivity].
    assert (In r (filter (fun x => (c_id x =? i)%N) (customers d)))
      by (apply filter_In; auto).
    rewrite F in H. destruct H as [<-|[]].
    now rewrite Eu, N.eqb_refl.
  - unfold get_customer. simpl customers. rewrite A. reflexivity.
  - destruct d; reflexivity.
Qed.

(** Alice renames her customer 3, clears its company and says nothing
    of its address. *)
Lemma customer_update_witness :
  exists updated d',
    update_customer 3%N acme_renamed alice store0 = (Ok updated, d')
    /\ c_name updated = Py.lit "Acme 2"
    /\ c_company updated = None
    /\ c_address updated = Some (Py.lit "Istanbul").
Proof.
  destruct (update_customer 3%N acme_renamed alice store0)
    as [[updated|f] d'] eqn:E.
  - exists updated, d'. split; [reflexivity|].
    destruct (customer_update_is_partial 3%N acme_renamed alice store0
                updated d' eq_refl E)
      as (old & Ho & _ & _ & _ & _ & Hn & _ & _ & Hc & Ha & _).
    vm_compute in Ho. destruct Ho as [<-|[]].
    split; [exact Hn|]. split; [exact Hc|exact Ha].
  - vm_compute in E. discriminate E.
Defined.

(** The same for products: name and price are always replaced, the
    other columns only when the body holds their key. *)
Theorem product_update_is_partial :
  forall (product_id : id) (product : ProductCreate)
         (current_user : user_row) (d : db) updated d',
    wf d = true ->
    update_product product_id product current_user d = (Ok updated, d') ->
    exists old,
      In old (products d)
      /\ p_id old = product_id /\ p_user_id old = u_id current_user
      /\ p_id updated = product_id
      /\ p_user_id updated = u_id current_user
      /\ p_name updated = pc_name product
      /\ p_price updated = pc_price product
      /\ p_description updated
         = assign (pc_description product) (p_description old)
      /\ p_category updated = assign (pc_category product) (p_category old)
      /\ p_stock updated = assign (pc_stock product) (p_stock old)
      /\ p_unit updated = assign (pc_unit product) (p_unit old)
      /\ p_sku updated = assign (pc_sku product) (p_sku old)
      /\ p_specifications updated
         = assign (pc_specifications product) (p_specifications old)
      /\ p_image_base64 updated
         = assign (pc_image_base64 product) (p_image_base64 old)
      /\ products d'
         = List.map (fun r => if (p_id r =? product_id)%N then updated else r)
             (products d)
      /\ get_product product_id current_user d' = (Ok updated, d')
      /\ set_products d' (products d) = d.
Proof.
  intros i c u d updated d' W E.
  destruct (wf_tables d W) as (_ & _ & Kp & _).
  unfold update_product in E.
  destruct (Py.json_dumps_raises (product_dict_exclude_unset c));
    [discriminate E|].
  pose proof (select_after_update product_row p_id p_user_id i (u_id u)
                (apply_product c) (products d)
                (fun r => eq_refl) (fun r => eq_refl)) as A.
  unfold update_owned in E, A. cbn [fst snd] in A.
  destruct (select_owned p_id p_user_id i (u_id u) (products d))
    as [|old rest] eqn:S; [discriminate|].
  destruct (select_owned_found product_row p_id p_user_id (next_id d)
              i (u_id u) (products d) old rest Kp S)
    as (-> & Hold & Ei & Eu & F).
  simpl in E. inversion E; subst updated d'; clear E.
  exists old. repeat (split; [first [assumption|reflexivity]|]).
  split; [|split].
  - simpl products. apply map_ext_in. intros r Hr.
    unfold owned_by. destruct (p_id r =? i)%N eqn:Er; [|reflexivity].
    assert (In r (filter (fun x => (p_id x =? i)%N) (products d)))
      by (apply filter_In; auto).
    rewrite F in H. destruct H as [<-|[]].
    now rewrite Eu, N.eqb_refl.
  - unfold get_product. simpl products. rewrite A. reflexivity.
  - destruct d; reflexivity.
Qed.

Lemma product_update_witness :
  exists updated d',
    update_product 4%N (product_named "z" None) alice store_products
    = (Ok updated, d')
    /\ p_name updated = Py.lit "z"
    /\ p_category updated = None
    /\ p_unit updated = Py.lit "adet".
Proof.
  destruct (update_product 4%N (product_named "z" None) alice store_products)
    as [[updated|f] d'] eqn:E.
  - exists updated, d'. split; [reflexivity|].
    destruct (product_update_is_partial 4%N (product_named "z" None) alice
                store_products updated d' eq_refl E)
      as (old & Ho & Hi & _ & _ & _ & Hn & _ & _ & Hc & _ & Hu & _).
    split; [exact Hn|]. split; [exact Hc|]. rewrite Hu.
    vm_compute in Ho.
    repeat match goal with
           | H : _ \/ _ |- _ => destruct H as [H|H]
           | H : False |- _ => contradiction
           end; subst old; try discriminate Hi; reflexivity.
  - vm_compute in E. discriminate E.
Defined.

(* ================================================================== *)
(** * Delete *)
(* ================================================================== *)



(* ================================================================== *)
(** * What a quotation keeps, and where it is listed *)
(* ================================================================== *)

(** Update keeps the number and the payment.  A successful quotation
    update leaves the quotation number, the status, the four payment
    columns, the creation time and the owner of the header as they were
    (a paid quotation stays paid whatever its new total), and leaves
    every other quotation, and the other tables but [quotation_items],
    untouched. *)
Theorem update_keeps_number_and_payment :
  forall (quotation_id : id) (quotation : QuotationCreate)
         (current_user : user_row) (d : db) view d',
    wf d = true ->
    update_quotation quotation_id quotation current_user d = (Ok view, d') ->
    exists old,
      In old (quotations d)
      /\ q_id old = quotation_id /\ q_user_id old = u_id current_user
      /\ q_quotation_number (v_quotation view) = q_quotation_number old
      /\ q_status (v_quotation view) = q_status old
      /\ q_payment_status (v_quotation view) = q_payment_status old
      /\ q_payment_date (v_quotation view) = q_payment_date old
      /\ q_payment_amount (v_quotation view) = q_payment_amount old
      /\ q_payment_notes (v_quotation view) = q_payment_notes old
      /\ q_created_at (v_quotation view) = q_created_at old
      /\ q_customer_id (v_quotation view) = customer_id quotation
      /\ q_notes (v_quotation view) = notes quotation
      /\ quotations d'
         = List.map
             (fun r => if (q_id r =? quotation_id)%N then v_quotation view
                       else r)
             (quotations d)
      /\ users d' = users d /\ customers d' = customers d
      /\ products d' = products d /\ reminders d' = reminders d.
Proof.
  intros i q u d view d' W E.
  destruct (update_quotation_inv i q u d view d' W E)
    as (a & r & Ha & S & Hr & Ei & Eu & E').
  rewrite E' in E. injection E as Ev Ed. subst view d'.
  destruct (wf_tables d W) as (_ & _ & _ & Kq & _).
  exists r. repeat (split; [first [assumption|reflexivity]|]).
  split; [|repeat split; reflexivity].
  simpl. apply map_ext_in. intros x Hx.
  unfold owned_by. destruct (q_id x =? i)%N eqn:Ex; [|reflexivity].
  pose proof (key_filter_unique quotation_row q_id (next_id d)
                (quotations d) Kq r Hr) as F. rewrite Ei in F.
  assert (H : In x (filter (fun y => (q_id y =? i)%N) (quotations d)))
    by (apply filter_In; auto).
  rewrite F in H. destruct H as [<-|[]]. now rewrite Eu, N.eqb_refl.
Qed.

(** Alice's quotation 4 is paid, then replaced by one line of 9: it is
    still paid, and keeps its number. *)
Lemma update_keeps_payment_witness :
  exists view d',
    update_quotation 4%N quotation_9_18 alice store1_paid = (Ok view, d')
    /\ q_payment_status (v_quotation view) = Py.lit "paid"
    /\ q_payment_amount (v_quotation view) = Some 1%float
    /\ q_total (v_quotation view) = 10.619999999999999%float
    /\ q_quotation_number (v_quotation view)
       = Py.lit "Q-20240507093005-2234".
Proof.
  destruct (update_quotation 4%N quotation_9_18 alice store1_paid)
    as [[view|f] d'] eqn:E.
  - exists view, d'. split; [reflexivity|].
    destruct (update_keeps_number_and_payment 4%N quotation_9_18 alice
                store1_paid view d' eq_refl E)
      as (old & Ho & _ & _ & Hn & _ & Hp & _ & Ha & _).
    vm_compute in Ho. destruct Ho as [<-|[]].
    split; [exact Hp|]. split; [exact Ha|].
    split; [|exact Hn].
    vm_compute in E. inversion E. reflexivity.
  - vm_compute in E. discriminate E.
Defined.

Lemma customer_of_same d d' q :
  customers d' = customers d -> customer_of d' q = customer_of d q.
Proof. unfold customer_of. now intros ->. Qed.

(** A new quotation is pending.  Whatever the body holds, a created
    quotation belongs to the caller, has the status "pending", the
    payment status "unpaid" and no payment recorded; it is added to the
    caller's pending payments, the paid ones are as before,
    and the caller's quotation count is one more. *)
Theorem created_quotation_is_pending :
  forall (e : env) (quotation : QuotationCreate) (current_user : user_row)
         (d : db) view d',
    wf d = true ->
    create_quotation e quotation current_user d = (Ok view, d') ->
    q_user_id (v_quotation view) = u_id current_user
    /\ q_status (v_quotation view) = Py.lit "pending"
    /\ q_payment_status (v_quotation view) = Py.lit "unpaid"
    /\ q_payment_date (v_quotation view) = None
    /\ q_payment_amount (v_quotation view) = None
    /\ q_payment_notes (v_quotation view) = None
    /\ (forall x,
          In x (get_pending_payments current_user d')
          <-> In x (get_pending_payments current_user d)
              \/ x = (v_quotation view, v_customer view))
    /\ get_paid_payments current_user d' = get_paid_payments current_user d
    /\ total_quotations (get_statistics current_user d')
       = (total_quotations (get_statistics current_user d) + 1)%Z
    /\ (forall other,
          u_id other <> u_id current_user ->
          get_pending_payments other d' = get_pending_payments other d
          /\ total_quotations (get_statistics other d')
             = total_quotations (get_statistics other d)).
Proof.
  intros e q u d view d' W E.
  destruct (create_quotation_inv e q u d view d' W E) as (a & Ha & -> & ->).
  repeat (split; [reflexivity|]).
  assert (M : forall l,
             List.map
               (with_customer
                  (insert_items (next_id d) (items q)
                     (take_ids
                        (set_quotations d
                           (quotations d
                            ++ [new_quotation e q a u (next_id d)])) 1))) l
             = List.map (with_customer d) l).
  { intros l. apply map_ext. intros x. unfold with_customer. f_equal. }
  split; [|split; [|split]].
  - intros x. unfold get_pending_payments. rewrite M. simpl quotations.
    rewrite select_of_user_snoc. simpl q_user_id. rewrite N.eqb_refl.
    rewrite filter_app, map_app, in_app_iff.
    split; [intros [H|[H|[]]]; auto | intros [H|H]; [left|right; left]; auto].
  - unfold get_paid_payments. rewrite M. simpl quotations.
    rewrite select_of_user_snoc. simpl q_user_id. rewrite N.eqb_refl.
    rewrite filter_app, map_app. simpl. apply app_nil_r.
  - unfold get_statistics. simpl total_quotations. simpl quotations.
    rewrite select_of_user_snoc. simpl q_user_id. rewrite N.eqb_refl.
    rewrite length_app. simpl. lia.
  - intros other Ho.
    assert (X : (u_id u =? u_id other)%N = false)
      by (apply N.eqb_neq; congruence).
    split.
    + unfold get_pending_payments. rewrite M. simpl quotations.
      rewrite select_of_user_snoc. simpl q_user_id. rewrite X.
      now rewrite app_nil_r.
    + unfold get_statistics. simpl total_quotations. simpl quotations.
      rewrite select_of_user_snoc. simpl q_user_id. rewrite X.
      now rewrite app_nil_r.
Qed.

Lemma created_quotation_is_pending_witness :
  exists view d',
    create_quotation env0 quotation_150 alice store0 = (Ok view, d')
    /\ In (v_quotation view, v_customer view) (get_pending_payments alice d')
    /\ get_pending_payments bob d' = [].
Proof.
  destruct (create_quotation env0 quotation_150 alice store0)
    as [[view|f] d'] eqn:E.
  - exists view, d'. split; [reflexivity|].
    destruct (created_quotation_is_pending env0 quotation_150 alice store0
                view d' eq_refl E)
      as (_ & _ & _ & _ & _ & _ & Hp & _ & _ & Ho).
    split.
    + apply Hp. now right.
    + destruct (Ho bob) as [Hb _]; [discriminate|]. rewrite Hb. reflexivity.
  - vm_compute in E. discriminate E.
Defined.

(* ================================================================== *)
(** * Payment lists and statistics *)
(* ================================================================== *)

Lemma in_select_of_user (R : Type) (owner : R -> id) u (t : list R) r :
  In r (select_of_user owner u t) <-> In r t /\ owner r = u.
Proof. unfold select_of_user. now rewrite filter_In, N.eqb_eq. Qed.

Lemma is_paid_iff q : is_paid q = true <-> q_payment_status q = Py.lit "paid".
Proof. apply str_eqb_eq. Qed.

Lemma is_unpaid_iff q :
  is_unpaid q = true <-> q_payment_status q = Py.lit "unpaid".
Proof. apply str_eqb_eq. Qed.

Lemma paid_is_not_unpaid q : is_paid q = true -> is_unpaid q = false.
Proof.
  intros H. apply is_paid_iff in H. unfold is_unpaid. now rewrite H.
Qed.

Lemma in_with_customer d (p : quotation_row -> bool) l q c :
  In (q, c) (List.map (with_customer d) (filter p l))
  <-> In q l /\ p q = true /\ c = customer_of d q.
Proof.
  rewrite in_map_iff. split.
  - intros (x & E & H). apply filter_In in H as [H1 H2].
    unfold with_customer in E. inversion E; subst. auto.
  - intros (H1 & H2 & ->). exists q. split; [reflexivity|].
    now apply filter_In.
Qed.

Lemma in_pending_payments u d q c :
  In (q, c) (get_pending_payments u d)
  <-> In q (quotations d) /\ q_user_id q = u_id u
      /\ q_payment_status q = Py.lit "unpaid" /\ c = customer_of d q.
Proof.
  unfold get_pending_payments.
  rewrite in_with_customer, in_select_of_user, is_unpaid_iff. tauto.
Qed.

Lemma in_paid_payments u d q c :
  In (q, c) (get_paid_payments u d)
  <-> In q (quotations d) /\ q_user_id q = u_id u
      /\ q_payment_status q = Py.lit "paid" /\ c = customer_of d q.
Proof.
  unfold get_paid_payments.
  rewrite in_with_customer, in_select_of_user, is_paid_iff. tauto.
Qed.

Lemma disjoint_filters_length (A : Type) (p q : A -> bool) (l : list A) :
  (forall x, p x = true -> q x = false) ->
  (List.length (filter p l) + List.length (filter q l) <= List.length l)%nat.
Proof.
  intros D. induction l as [|x l IH]; simpl; [lia|].
  destruct (p x) eqn:Px.
  - rewrite (D x Px). simpl. lia.
  - destruct (q x); simpl; lia.
Qed.

(** The two payment lists and the two statistics.  The pending list
    holds exactly the caller's quotations whose payment status is
    "unpaid", the paid list exactly those whose status is "paid", each
    with the customer its [customer_id] refers to; no entry is in both,
    and a quotation of any other status is in neither.  The number of
    overdue quotations and the pending sum of the payment statistics are
    the length of the pending list and the pending sum of the general
    statistics. *)
Theorem payment_lists_partition :
  forall (current_user : user_row) (d : db),
    (forall q c,
        In (q, c) (get_pending_payments current_user d)
        <-> In q (quotations d) /\ q_user_id q = u_id current_user
            /\ q_payment_status q = Py.lit "unpaid"
            /\ c = customer_of d q)
    /\ (forall q c,
          In (q, c) (get_paid_payments current_user d)
          <-> In q (quotations d) /\ q_user_id q = u_id current_user
              /\ q_payment_status q = Py.lit "paid"
              /\ c = customer_of d q)
    /\ (forall x,
          In x (get_pending_payments current_user d) ->
          ~ In x (get_paid_payments current_user d))
    /\ overdue_count (get_payment_statistics current_user d)
       = Z.of_nat (List.length (get_pending_payments current_user d))
    /\ total_pending (get_payment_statistics current_user d)
       = pending_payments (get_statistics current_user d)
    /\ (Z.of_nat (List.length (get_pending_payments current_user d))
        + Z.of_nat (List.length (get_paid_payments current_user d))
        <= total_quotations (get_statistics current_user d))%Z.
Proof.
  intros u d.
  split; [intros q c; apply in_pending_payments|].
  split; [intros q c; apply in_paid_payments|].
  split; [|split; [|split]].
  - intros [q c] H1 H2.
    apply in_pending_payments in H1 as (_ & _ & S1 & _).
    apply in_paid_payments in H2 as (_ & _ & S2 & _).
    rewrite S1 in S2. vm_compute in S2. discriminate S2.
  - unfold get_payment_statistics, get_pending_payments.
    cbn [overdue_count]. now rewrite length_map.
  - reflexivity.
  - unfold get_statistics, get_pending_payments, get_paid_payments.
    cbn [total_quotations]. rewrite !length_map.
    pose proof (disjoint_filters_length quotation_row is_paid is_unpaid
                  (select_of_user q_user_id (u_id u) (quotations d))
                  paid_is_not_unpaid).
    lia.
Qed.

(** Revenue and received amount.  The revenue of the general statistics
    is the sum of the totals of the paid quotations, whatever amount was
    recorded as paid; it is the received amount of the payment
    statistics when no paid quotation of the caller has a recorded
    amount other than zero. *)
Theorem revenue_is_received_without_amounts :
  forall (current_user : user_row) (d : db),
    (forall q,
        In q (quotations d) -> q_user_id q = u_id current_user ->
        is_paid q = true ->
        Py.float_truthy (q_payment_amount q) = false) ->
    total_revenue (get_statistics current_user d)
    = total_received (get_payment_statistics current_user d).
Proof.
  intros u d H. unfold get_statistics, get_payment_statistics.
  cbn [total_revenue total_received]. f_equal.
  apply map_ext_in. intros q Hq.
  apply filter_In in Hq as [Hq Hp].
  apply in_select_of_user in Hq as [Hq Hu].
  specialize (H q Hq Hu Hp). unfold received_amount.
  destruct (q_payment_amount q) as [x|]; [|reflexivity].
  now rewrite H.
Qed.

(** Alice's paid quotation of 100 with a recorded amount of 0 counts as
    100 in both. *)
Lemma revenue_is_received_witness :
  total_revenue (get_statistics alice store_payments)
  = total_received (get_payment_statistics alice store_payments).
Proof.
  apply revenue_is_received_without_amounts.
  intros q Hq _ Hp.
  assert (F : forallb
                (fun q => implb (is_paid q)
                            (negb (Py.float_truthy (q_payment_amount q))))
                (quotations store_payments) = true)
    by (vm_compute; reflexivity).
  pose proof (proj1 (forallb_forall _ _) F q Hq) as X.
  cbv beta in X. rewrite Hp in X. simpl in X.
  now destruct (Py.float_truthy (q_payment_amount q)).
Defined.

(** With a recorded amount the two differ: a quotation of 180 paid with
    1 is a revenue of 180 and a received amount of 1. *)
Lemma revenue_is_not_received_with_amounts :
  total_revenue (get_statistics alice store1_paid)
  <> total_received (get_payment_statistics alice store1_paid).
Proof.
  intros H. apply (f_equal (fun x => PrimFloat.ltb x 2)) in H.
  vm_compute in H. discriminate H.
Qed.

Section Updated.
Variable R : Type.
Variable rid : R -> id.
Variable owner : R -> id.

Lemma in_updated_other i u (f : R -> R) (t : list R) x :
  (forall r, rid (f r) = rid r) ->
  rid x <> i ->
  In x (List.map (fun r => if owned_by rid owner i u r then f r else r) t)
  <-> In x t.
Proof.
  intros Hf Hx. rewrite in_map_iff. split.
  - intros (y & E & Hy). destruct (owned_by rid owner i u y) eqn:O.
    + exfalso. apply Hx. rewrite <- E, Hf.
      unfold owned_by in O. apply andb_prop in O as [O _].
      now apply N.eqb_eq.
    + now subst.
  - intros H. exists x. split; [|assumption].
    unfold owned_by. apply N.eqb_neq in Hx. now rewrite Hx.
Qed.

Lemma select_of_other_updated i u (f : R -> R) (t : list R) o :
  (forall r, owner (f r) = owner r) ->
  o <> u ->
  select_of_user owner o
    (List.map (fun r => if owned_by rid owner i u r then f r else r) t)
  = select_of_user owner o t.
Proof.
  intros Hf Ho. unfold select_of_user.
  induction t as [|r t IH]; [reflexivity|]. simpl.
  destruct (owned_by rid owner i u r) eqn:O.
  - rewrite Hf. unfold owned_by in O. apply andb_prop in O as [_ O].
    apply N.eqb_eq in O. rewrite O.
    assert (E : (u =? o)%N = false) by (apply N.eqb_neq; congruence).
    now rewrite E.
  - now rewrite IH.
Qed.
End Updated.

(** A payment update moves the quotation between the lists.  After a
    successful payment update the quotation is in the caller's pending
    list exactly when the status sent is "unpaid" and in the paid list
    exactly when it is "paid" (with any other status it is in neither);
    the entries of the other quotations, and the lists of every other
    user, are as before. *)
Theorem payment_update_moves_quotation :
  forall (quotation_id : id) (payment : PaymentUpdate)
         (current_user : user_row) (d : db) r d',
    update_payment_status quotation_id payment current_user d = (Ok r, d') ->
    q_id r = quotation_id
    /\ (In (r, customer_of d' r) (get_pending_payments current_user d')
        <-> payment_status payment = Py.lit "unpaid")
    /\ (In (r, customer_of d' r) (get_paid_payments current_user d')
        <-> payment_status payment = Py.lit "paid")
    /\ (forall q c,
          q_id q <> quotation_id ->
          (In (q, c) (get_pending_payments current_user d')
           <-> In (q, c) (get_pending_payments current_user d))
          /\ (In (q, c) (get_paid_payments current_user d')
              <-> In (q, c) (get_paid_payments current_user d)))
    /\ (forall other,
          u_id other <> u_id current_user ->
          get_pending_payments other d' = get_pending_payments other d
          /\ get_paid_payments other d' = get_paid_payments other d).
Proof.
  intros i p u d r d' E.
  unfold update_payment_status, update_owned in E.
  destruct (Py.json_dumps_raises (payment_dict_exclude_unset p));
    [discriminate E|].
  destruct (select_owned q_id q_user_id i (u_id u) (quotations d))
    as [|r0 rest] eqn:S; simpl in E; [discriminate|].
  injection E as Er Ed.
  assert (H0 : In r0 (select_owned q_id q_user_id i (u_id u) (quotations d)))
    by (rewrite S; now left).
  apply filter_In in H0 as [H0 O].
  assert (O' := O). unfold owned_by in O'.
  apply andb_prop in O' as [Oi Ou].
  apply N.eqb_eq in Oi. apply N.eqb_eq in Ou.
  assert (Hr : In r (quotations d')).
  { subst d'. simpl. apply in_map_iff. exists r0. now rewrite O. }
  assert (Hc : forall q, customer_of d' q = customer_of d q)
    by (intros q; now subst d').
  assert (Hs : q_payment_status r = payment_status p) by now subst r.
  assert (Hu : q_user_id r = u_id u) by now subst r.
  split; [now subst r|]. split; [|split; [|split]].
  - rewrite in_pending_payments, Hs. intuition.
  - rewrite in_paid_payments, Hs. intuition.
  - intros q c Hq.
    rewrite !in_pending_payments, !in_paid_payments, !Hc.
    assert (X : In q (quotations d') <-> In q (quotations d)).
    { subst d'. simpl.
      apply (in_updated_other quotation_row q_id q_user_id);
        [reflexivity|assumption]. }
    rewrite X. tauto.
  - intros other Ho.
    assert (X : select_of_user q_user_id (u_id other) (quotations d')
                = select_of_user q_user_id (u_id other) (quotations d)).
    { subst d'. simpl.
      apply (select_of_other_updated quotation_row q_id q_user_id);
        [reflexivity|assumption]. }
    unfold get_pending_payments, get_paid_payments. rewrite X.
    split; apply map_ext; intros q; unfold with_customer; now rewrite Hc.
Qed.

(** Alice marks her quotation 4 as paid: it is in her paid list and not
    in her pending list. *)
Lemma payment_update_moves_witness :
  exists r d',
    update_payment_status 4%N payment_of_1 alice store1 = (Ok r, d')
    /\ In (r, customer_of d' r) (get_paid_payments alice d')
    /\ ~ In (r, customer_of d' r) (get_pending_payments alice d').
Proof.
  destruct (update_payment_status 4%N payment_of_1 alice store1)
    as [[r|f] d'] eqn:E.
  - exists r, d'. split; [reflexivity|].
    destruct (payment_update_moves_quotation 4%N payment_of_1 alice store1
                r d' E) as (_ & Hp & Hq & _).
    split; [now apply Hq|].
    intros H. apply Hp in H. vm_compute in H. discriminate H.
  - vm_compute in E. discriminate E.
Defined.

(* ================================================================== *)
(** * Registration, then login *)
(* ================================================================== *)

Lemma filter_snoc (A : Type) (p : A -> bool) (l : list A) (x : A) :
  filter p (l ++ [x]) = filter p l ++ (if p x then [x] else []).
Proof. rewrite filter_app. reflexivity. Qed.

(** Register, then log in.  After a successful registration, a login
    with the registered email succeeds exactly when the password check
    accepts the password against the stored hash: it then names the same
    user as the registration did; otherwise it is refused with the 401
    that a login with an email nobody registered gets.  No login changes
    the store. *)
Theorem login_after_register :
  forall (hash_password : Py.str -> Py.str)
         (create_access_token : id -> Py.str)
         (verify_password : Py.str -> Py.str -> bool)
         (user : UserCreate) (d : db) r d',
    register hash_password create_access_token user d = (Ok r, d') ->
    (forall password,
        let credentials :=
          {| ul_email := uc_email user; ul_password := password |} in
        (verify_password password (hash_password (uc_password user)) = true ->
         exists r',
           login create_access_token verify_password credentials d'
           = (Ok r', d')
           /\ auth_user r' = auth_user r
           /\ token_type r' = token_type r)
        /\ (verify_password password (hash_password (uc_password user))
            = false ->
            login create_access_token verify_password credentials d'
            = (Raise (HTTPException 401 (Py.lit "Invalid email or password")),
               d')))
    /\ (forall credentials,
          (forall row, In row (users d') ->
                       u_email row <> ul_email credentials) ->
          login create_access_token verify_password credentials d'
          = (Raise (HTTPException 401 (Py.lit "Invalid email or password")),
             d')).
Proof.
  intros hash token verify user d r d' E.
  unfold register in E.
  destruct (filter (fun r => Py.str_eqb (u_email r) (uc_email user))
              (users d)) eqn:F; [|discriminate].
  injection E as Er Ed.
  split.
  - intros password credentials. unfold login.
    subst d'. cbn [users set_users take_ids ul_email credentials ul_password].
    rewrite filter_snoc, F. cbn [u_email]. rewrite str_eqb_refl.
    cbn [app u_password_hash]. split; intros V; rewrite V.
    + eexists. split; [reflexivity|]. subst r. split; reflexivity.
    + reflexivity.
  - intros credentials H. unfold login.
    rewrite (filter_all_false user_row); [reflexivity|].
    intros row Hr. specialize (H row Hr).
    destruct (Py.str_eqb (u_email row) (ul_email credentials)) eqn:X;
      [|reflexivity].
    apply str_eqb_eq in X. contradiction.
Qed.

(** Carol registers and logs in; a wrong password is refused. *)
Lemma login_after_register_witness :
  exists r d',
    register toy_hash toy_token carol store0 = (Ok r, d')
    /\ (exists r',
          login toy_token toy_verify
            {| ul_email := uc_email carol; ul_password := Py.lit "s3cret" |} d'
          = (Ok r', d')
          /\ auth_user r' = auth_user r)
    /\ login toy_token toy_verify
         {| ul_email := uc_email carol; ul_password := Py.lit "secret" |} d'
       = (Raise (HTTPException 401 (Py.lit "Invalid email or password")), d').
Proof.
  destruct (register toy_hash toy_token carol store0) as [[r|f] d'] eqn:E.
  - exists r, d'. split; [reflexivity|].
    destruct (login_after_register toy_hash toy_token toy_verify carol
                store0 r d' E) as [H _].
    split.
    + destruct (H (Py.lit "s3cret")) as [H1 _].
      destruct (H1 eq_refl) as (r' & L & A & _). now exists r'.
    + destruct (H (Py.lit "secret")) as [_ H2]. exact (H2 eq_refl).
  - vm_compute in E. discriminate E.
Defined.

(* ================================================================== *)
(** * Settings *)
(* ================================================================== *)

Section SettingsFacts.
Variable dict : Type.

Lemma assign_twice (A : Type) (f : field A) (old : A) :
  assign f (assign f old) = assign f old.
Proof. now destruct f. Qed.

Lemma assign_some_twice (A : Type) (f : field A) (old : option A) :
  assign_some f (assign_some f old) = assign_some f old.
Proof. now destruct f. Qed.

Lemma assign_some_keeps (A : Type) (f : field A) (old : option A) :
  old <> None -> assign_some f old <> None.
Proof. destruct f; [auto|discriminate]. Qed.

Lemma apply_settings_twice (u : settings_data dict) r :
  apply_settings dict u (apply_settings dict u r) = apply_settings dict u r.
Proof.
  unfold apply_settings. cbn [fst snd u_id u_email u_password_hash
    u_full_name u_subscription_plan u_subscription_status u_default_tax_rate
    u_company u_company_address u_phone company_logo company_tax_number
    company_tax_office design_settings].
  now rewrite !assign_twice, !assign_some_twice.
Qed.

(** The all-[None] body, and only it, is refused with the 400; the table
    is not touched. *)
Lemma update_settings_no_data (settings : UserSettingsUpdate dict) :
  no_data dict (update_data_of dict settings) = true
  <-> settings = {| s_full_name := None; s_company := None; s_phone := None;
                    s_company_logo := None; s_company_address := None;
                    s_company_tax_number := None;
                    s_company_tax_office := None;
                    s_default_tax_rate := None;
                    s_design_settings := None |}.
Proof.
  destruct settings as [a b c e f g h i j].
  unfold no_data, update_data_of; cbn.
  destruct a; [split; discriminate|].
  destruct b; [split; discriminate|].
  destruct c; [split; discriminate|].
  destruct e; [split; discriminate|].
  destruct f; [split; discriminate|].
  destruct g; [split; discriminate|].
  destruct h; [split; discriminate|].
  destruct i; [split; discriminate|].
  destruct j; [split; discriminate|].
  split; reflexivity.
Qed.

Lemma update_settings_unfold (settings : UserSettingsUpdate dict)
    (current_user : user_row) (t : list (user_row * further_columns dict))
    hit f :
  hit = (fun r : user_row * further_columns dict =>
           (u_id (fst r) =? u_id current_user)%N) ->
  f = apply_settings dict (update_data_of dict settings) ->
  update_settings dict settings current_user t
  = if no_data dict (update_data_of dict settings) then
      (Raise (HTTPException 400 (Py.lit "No data to update")), t)
    else
      match List.map f (filter hit t) with
      | [] => (Raise (HTTPException 500 (Py.lit "Failed to update settings")),
               List.map (fun r => if hit r then f r else r) t)
      | updated_user :: _ =>
          (Ok updated_user, List.map (fun r => if hit r then f r else r) t)
      end.
Proof. intros -> ->. reflexivity. Qed.
End SettingsFacts.

(** Settings are written, never cleared.  The update is refused with
    the 400 "No data to update" exactly when every field of the body is
    [None], and then the table is untouched.  A successful update
    changes only the caller's row; its identifier, email, password hash
    and subscription stay; a nullable column that held a value still
    holds one (a field sent as [null] is a field left out, so nothing
    can be cleared); the rows of the other users are as before; and
    sending the same body again gives the same row and changes
    nothing. *)
Theorem settings_written_never_cleared :
  forall (dict : Type) (settings : UserSettingsUpdate dict)
         (current_user : user_row)
         (t : list (user_row * further_columns dict)),
    (fst (update_settings dict settings current_user t)
     = Raise (HTTPException 400 (Py.lit "No data to update"))
     <-> settings
         = {| s_full_name := None; s_company := None; s_phone := None;
              s_company_logo := None; s_company_address := None;
              s_company_tax_number := None; s_company_tax_office := None;
              s_default_tax_rate := None; s_design_settings := None |})
    /\ (fst (update_settings dict settings current_user t)
        = Raise (HTTPException 400 (Py.lit "No data to update")) ->
        snd (update_settings dict settings current_user t) = t)
    /\ (forall r t',
          update_settings dict settings current_user t = (Ok r, t') ->
          (exists old,
              In old t /\ In r t'
              /\ u_id (fst old) = u_id current_user
              /\ u_id (fst r) = u_id current_user
              /\ u_email (fst r) = u_email (fst old)
              /\ u_password_hash (fst r) = u_password_hash (fst old)
              /\ u_subscription_plan (fst r) = u_subscription_plan (fst old)
              /\ u_subscription_status (fst r)
                 = u_subscription_status (fst old)
              /\ (u_company (fst old) <> None -> u_company (fst r) <> None)
              /\ (u_company_address (fst old) <> None ->
                  u_company_address (fst r) <> None)
              /\ (u_phone (fst old) <> None -> u_phone (fst r) <> None)
              /\ (company_logo dict (snd old) <> None ->
                  company_logo dict (snd r) <> None)
              /\ (company_tax_number dict (snd old) <> None ->
                  company_tax_number dict (snd r) <> None)
              /\ (company_tax_office dict (snd old) <> None ->
                  company_tax_office dict (snd r) <> None)
              /\ (design_settings dict (snd old) <> None ->
                  design_settings dict (snd r) <> None))
          /\ (forall x,
                u_id (fst x) <> u_id current_user -> In x t' <-> In x t)
          /\ update_settings dict settings current_user t' = (Ok r, t')).
Proof.
  intros dict s u t.
  pose (hit := fun r : user_row * further_columns dict =>
                 (u_id (fst r) =? u_id u)%N).
  pose (f := apply_settings dict (update_data_of dict s)).
  rewrite (update_settings_unfold dict s u t hit f eq_refl eq_refl).
  destruct (no_data dict (update_data_of dict s)) eqn:N.
  - split; [|split].
    + split; [intros _; now apply update_settings_no_data|reflexivity].
    + reflexivity.
    + intros r t' E. discriminate E.
  - assert (Hne : s <> {| s_full_name := None; s_company := None;
                          s_phone := None; s_company_logo := None;
                          s_company_address := None;
                          s_company_tax_number := None;
                          s_company_tax_office := None;
                          s_default_tax_rate := None;
                          s_design_settings := None |}).
    { intros X. apply update_settings_no_data in X. congruence. }
    split; [|split].
    + split; [|intros X; contradiction].
      destruct (List.map f (filter hit t)); cbn [fst];
        intros X; discriminate X.
    + destruct (List.map f (filter hit t)); cbn [fst];
        intros X; discriminate X.
    + intros r t' E.
      rewrite (update_settings_unfold dict s u t' hit f eq_refl eq_refl), N.
      destruct (filter hit t) as [|old rest] eqn:F; [discriminate E|].
      cbn [List.map] in E. injection E as Er Et.
      assert (Ho : In old (filter hit t)) by (rewrite F; now left).
      apply filter_In in Ho as [Ho Hh].
      assert (Hhit : forall x, hit (f x) = hit x) by reflexivity.
      split; [|split].
      * exists old. subst r. split; [assumption|].
        split.
        { subst t'. apply in_map_iff. exists old. now rewrite Hh. }
        split; [now apply N.eqb_eq in Hh|].
        split; [now apply N.eqb_eq in Hh|].
        repeat (split; [reflexivity|]).
        unfold f, apply_settings; cbn.
        repeat split; apply assign_some_keeps.
      * intros x Hx. subst t'. rewrite in_map_iff. split.
        -- intros (y & E & Hy). destruct (hit y) eqn:Y.
           ++ exfalso. apply Hx. rewrite <- E.
              change (u_id (fst (f y))) with (u_id (fst y)).
              now apply N.eqb_eq in Y.
           ++ now subst.
        -- intros H. exists x. split; [|assumption].
           assert (X : hit x = false) by now apply N.eqb_neq.
           now rewrite X.
      * assert (M : List.map (fun r => if hit r then f r else r) t' = t').
        { subst t'. rewrite map_map. apply map_ext. intros x.
          destruct (hit x) eqn:X.
          - rewrite Hhit, X. apply apply_settings_twice.
          - now rewrite X. }
        assert (G : filter hit t' = List.map f (filter hit t)).
        { subst t'. clear - Hhit. induction t as [|x t IH]; [reflexivity|].
          simpl. destruct (hit x) eqn:X.
          - rewrite Hhit, X. simpl. now rewrite IH.
          - rewrite X. exact IH. }
        rewrite M, G, F. cbn [List.map].
        unfold f at 1. rewrite apply_settings_twice. fold f.
        now rewrite Er.
Qed.

(** Alice sets her phone: her company stays, Bob's row stays, and the
    same body again changes nothing. *)
Lemma settings_written_witness :
  exists r t',
    update_settings Datatypes.unit settings_phone alice users0 = (Ok r, t')
    /\ u_phone (fst r) = Some (Py.lit "555 0202")
    /\ u_company (fst r) <> None
    /\ In (bob, no_further) t'
    /\ update_settings Datatypes.unit settings_phone alice t' = (Ok r, t').
Proof.
  destruct (update_settings Datatypes.unit settings_phone alice users0)
    as [[r|f] t'] eqn:E.
  - exists r, t'. split; [reflexivity|].
    destruct (settings_written_never_cleared Datatypes.unit settings_phone alice
                users0) as (_ & _ & H).
    destruct (H r t' E)
      as ((old & Ho & _ & Hid & _ & _ & _ & _ & _ & Hc & _) & Hx & Hi).
    split; [vm_compute in E; now inversion E|].
    split; [|split; [|exact Hi]].
    + apply Hc. destruct Ho as [<-|[<-|[]]]; discriminate.
    + apply Hx; [discriminate|]. right. now left.
  - vm_compute in E. discriminate E.
Defined.

(* ================================================================== *)
(** * Categories *)
(* ================================================================== *)

Lemma str_compare_eq (a b : Py.str) : Py.str_compare a b = Eq <-> a = b.
Proof.
  revert b. induction a as [|x a IH]; intros [|y b]; simpl;
    try (split; [discriminate|discriminate]); [tauto|].
  destruct (x ?= y)%N eqn:C.
  - apply N.compare_eq in C. subst y. rewrite IH.
    split; [now intros ->|now inversion 1].
  - split; [discriminate|]. inversion 1; subst.
    rewrite N.compare_refl in C. discriminate.
  - split; [discriminate|]. inversion 1; subst.
    rewrite N.compare_refl in C. discriminate.
Qed.

Lemma str_compare_opp (a b : Py.str) :
  Py.str_compare b a = CompOpp (Py.str_compare a b).
Proof.
  revert b. induction a as [|x a IH]; intros [|y b]; simpl; try reflexivity.
  rewrite (N.compare_antisym x y).
  destruct (x ?= y)%N; simpl; auto.
Qed.

Lemma str_lt_irrefl (a : Py.str) : ~ str_lt a a.
Proof.
  unfold str_lt. intros H.
  assert (E : Py.str_compare a a = Eq) by now apply str_compare_eq.
  congruence.
Qed.

Lemma str_lt_trans (a b c : Py.str) : str_lt a b -> str_lt b c -> str_lt a c.
Proof.
  unfold str_lt. revert b c.
  induction a as [|x a IH]; intros [|y b] [|z c]; simpl; try discriminate;
    try reflexivity.
  destruct (x ?= y)%N eqn:C1; try discriminate.
  - apply N.compare_eq in C1. subst y.
    destruct (x ?= z)%N; try discriminate; [apply IH|reflexivity].
  - intros _. destruct (y ?= z)%N eqn:C2; try discriminate.
    + apply N.compare_eq in C2. subst z. now rewrite C1.
    + intros _. apply N.compare_lt_iff in C1. apply N.compare_lt_iff in C2.
      pose proof (N.lt_trans _ _ _ C1 C2) as C3.
      apply N.compare_lt_iff in C3. now rewrite C3.
Qed.

Lemma in_insert_sorted (x : Py.str) (l : list Py.str) (y : Py.str) :
  In y (Py.insert_sorted x l) <-> y = x \/ In y l.
Proof.
  induction l as [|z l IH]; simpl; [intuition|].
  destruct (Py.str_compare x z) eqn:C; simpl.
  - apply str_compare_eq in C. subst z. intuition.
  - intuition.
  - rewrite IH. intuition.
Qed.

Lemma insert_sorted_sorted (x : Py.str) (l : list Py.str) :
  StronglySorted str_lt l -> StronglySorted str_lt (Py.insert_sorted x l).
Proof.
  induction 1 as [|z l S IH F]; simpl.
  - constructor; constructor.
  - destruct (Py.str_compare x z) eqn:C.
    + now constructor.
    + constructor; [now constructor|].
      constructor; [exact C|].
      rewrite Forall_forall in *. intros y Hy.
      apply (str_lt_trans x z y); [exact C|auto].
    + constructor; [exact IH|].
      rewrite Forall_forall in *. intros y Hy.
      apply in_insert_sorted in Hy as [->|Hy]; [|auto].
      unfold str_lt. rewrite str_compare_opp, C. reflexivity.
Qed.

Lemma sorted_set_sorted (xs : list Py.str) :
  StronglySorted str_lt (Py.sorted_set xs).
Proof.
  unfold Py.sorted_set. induction xs as [|x xs IH]; simpl.
  - constructor.
  - now apply insert_sorted_sorted.
Qed.

Lemma in_sorted_set (xs : list Py.str) (y : Py.str) :
  In y (Py.sorted_set xs) <-> In y xs.
Proof.
  unfold Py.sorted_set. induction xs as [|x xs IH]; simpl; [tauto|].
  rewrite in_insert_sorted, IH. intuition.
Qed.

Lemma strictly_sorted_NoDup (l : list Py.str) :
  StronglySorted str_lt l -> NoDup l.
Proof.
  induction 1 as [|x l S IH F]; constructor; [|exact IH].
  intros H. rewrite Forall_forall in F.
  exact (str_lt_irrefl x (F x H)).
Qed.

Lemma in_categories_of (rows : list product_row) (c : Py.str) :
  In c (categories_of rows)
  <-> c <> [] /\ exists p, In p rows /\ p_category p = Some c.
Proof.
  unfold categories_of. rewrite in_flat_map. split.
  - intros (p & Hp & H). destruct (p_category p) as [[|a s]|] eqn:E;
      simpl in H; try contradiction.
    destruct H as [<-|[]]. split; [discriminate|]. now exists p.
  - intros (Hc & p & Hp & E). exists p. split; [assumption|].
    rewrite E. destruct c; [contradiction|]. now left.
Qed.

(** The categories of a user.  The list is strictly increasing in the
    order of [str] (so no category occurs twice), and a string is in it
    exactly when it is the non-empty category of one of the caller's
    products; the categories created by [create_category] are not in it:
    creating one leaves the list as it was. *)
Theorem categories_sorted_and_distinct :
  forall (current_user : user_row) (d : db),
    StronglySorted str_lt (get_categories current_user d)
    /\ NoDup (get_categories current_user d)
    /\ (forall c,
          In c (get_categories current_user d)
          <-> c <> []
              /\ exists p, In p (products d)
                           /\ p_user_id p = u_id current_user
                           /\ p_category p = Some c)
    /\ (forall category_name catalog_categories,
          get_categories current_user
            (fst (snd (create_category category_name current_user d
                         catalog_categories)))
          = get_categories current_user d).
Proof.
  intros u d. unfold get_categories.
  split; [apply sorted_set_sorted|].
  split; [apply strictly_sorted_NoDup, sorted_set_sorted|].
  split; [|reflexivity].
  intros c. rewrite in_sorted_set, in_categories_of.
  split.
  - intros (Hc & p & Hp & E). apply in_select_of_user in Hp as [Hp Hu].
    split; [assumption|]. now exists p.
  - intros (Hc & p & Hp & Hu & E). split; [assumption|].
    exists p. split; [|assumption]. now apply in_select_of_user.
Qed.

(** Alice's five products have the categories kablo, aksesuar, kablo,
    none and the empty string; Bob's has priz. *)
Lemma categories_of_store_products :
  get_categories alice store_products = [Py.lit "aksesuar"; Py.lit "kablo"]
  /\ get_categories bob store_products = [Py.lit "priz"].
Proof. split; vm_compute; reflexivity. Qed.

(* ================================================================== *)
(** * Reminders *)
(* ================================================================== *)

Lemma mark_sent_twice (t : list reminder_row) (p : reminder_row -> bool) :
  (forall x, p (mark_sent x) = p x) ->
  List.map (fun x => if p x then mark_sent x else x)
    (List.map (fun x => if p x then mark_sent x else x) t)
  = List.map (fun x => if p x then mark_sent x else x) t.
Proof.
  intros Hp. rewrite map_map. apply map_ext. intros x.
  destruct (p x) eqn:X; [now rewrite Hp, X|now rewrite X].
Qed.

(** Reminders are sent, never created.  [create_reminder] fails for
    every body: the dictionary it hands to the client holds the required
    [reminder_date] as a [datetime], which the encoder refuses with
    [TypeError], and nothing is stored.  For a reminder row that the
    store holds, [send_reminder] by its owner sets [sent] on that row
    and changes nothing else; sending it again succeeds again and
    changes nothing; and another user gets the 404 and changes
    nothing. *)
Theorem reminder_sent_never_created :
  forall (current_user : user_row) (d : db),
    wf d = true ->
    (forall reminder,
        create_reminder reminder current_user d
        = (Raise (Uncaught Py.TypeError), d))
    /\ (forall r,
          In r (reminders d) ->
          r_user_id r = u_id current_user ->
          exists m d2,
            send_reminder (r_id r) current_user d = (Ok m, d2)
            /\ reminders d2
               = List.map
                   (fun x => if (r_id x =? r_id r)%N then mark_sent r else x)
                   (reminders d)
            /\ set_reminders d2 (reminders d) = d
            /\ send_reminder (r_id r) current_user d2 = (Ok m, d2)
            /\ (forall other,
                  u_id other <> u_id current_user ->
                  send_reminder (r_id r) other d
                  = (Raise (not_found "Reminder not found"), d))).
Proof.
  intros u d W. split; [reflexivity|].
  intros r Hr Hu.
  destruct (wf_tables d W) as (_ & _ & _ & _ & _ & Kr & _).
  assert (O : owned_by r_id r_user_id (r_id r) (u_id u) r = true)
    by (unfold owned_by; now rewrite Hu, !N.eqb_refl).
  assert (Hs : In r (select_owned r_id r_user_id (r_id r) (u_id u)
                       (reminders d))) by (apply filter_In; auto).
  destruct (select_owned r_id r_user_id (r_id r) (u_id u) (reminders d))
    as [|x rest] eqn:S; [contradiction|].
  destruct (select_owned_found reminder_row r_id r_user_id (next_id d)
              (r_id r) (u_id u) (reminders d) x rest Kr S)
    as (-> & Hx & Ei & Eu & F).
  destruct Hs as [->|[]].
  set (f := fun x => if owned_by r_id r_user_id (r_id r) (u_id u) x
                     then mark_sent x else x).
  assert (Hf : forall x,
             owned_by r_id r_user_id (r_id r) (u_id u) (mark_sent x)
             = owned_by r_id r_user_id (r_id r) (u_id u) x) by reflexivity.
  exists (Py.lit "Reminder sent successfully"),
    (set_reminders d (List.map f (reminders d))).
  split; [|split; [|split; [|split]]].
  - unfold send_reminder, update_owned. rewrite S. reflexivity.
  - cbn [reminders set_reminders]. apply map_ext_in. intros y Hy.
    unfold f, owned_by. destruct (r_id y =? r_id r)%N eqn:Ey; [|reflexivity].
    assert (H : In y (filter (fun z => (r_id z =? r_id r)%N) (reminders d)))
      by (apply filter_In; auto).
    rewrite F in H. destruct H as [<-|[]]. now rewrite Hu, N.eqb_refl.
  - destruct d; reflexivity.
  - unfold send_reminder, update_owned.
    cbn [reminders set_reminders]. fold f.
    replace (select_owned r_id r_user_id (r_id r) (u_id u)
               (List.map f (reminders d)))
      with [mark_sent r].
    2:{ pose proof (select_after_update reminder_row r_id r_user_id (r_id r)
                      (u_id u) mark_sent (reminders d)
                      (fun _ => eq_refl) (fun _ => eq_refl)) as A.
        unfold update_owned in A. cbn [fst snd] in A. fold f in A.
        rewrite A, S. reflexivity. }
    assert (M : List.map f (List.map f (reminders d))
                = List.map f (reminders d))
      by (apply mark_sent_twice; exact Hf).
    cbn [List.map].
    change (List.map
              (fun x => if owned_by r_id r_user_id (r_id r) (u_id u) x
                        then mark_sent x else x)
              (List.map f (reminders d)))
      with (List.map f (List.map f (reminders d))).
    rewrite M. reflexivity.
  - intros other Ho. unfold send_reminder.
    assert (E : existsb (owned_by r_id r_user_id (r_id r) (u_id u))
                  (reminders d) = true)
      by (apply existsb_exists; exists r; auto).
    rewrite (update_owned_miss reminder_row r_id r_user_id _ _ _ _
               (foreign_select_empty reminder_row r_id r_user_id (next_id d)
                  (r_id r) (u_id u) (u_id other) (reminders d) Kr E Ho)).
    now rewrite set_reminders_same.
Qed.

(** Bob cannot create a reminder; the one the store holds he sends
    twice. *)
Lemma reminder_sent_never_created_witness :
  create_reminder reminder_of_99 bob store_reminder
  = (Raise (Uncaught Py.TypeError), store_reminder)
  /\ exists m d2,
       send_reminder 7%N bob store_reminder = (Ok m, d2)
       /\ reminders d2 = [mark_sent bobs_reminder]
       /\ send_reminder 7%N bob d2 = (Ok m, d2).
Proof.
  destruct (reminder_sent_never_created bob store_reminder eq_refl)
    as [Hc Hs].
  split; [apply Hc|].
  destruct (Hs bobs_reminder (or_introl eq_refl) eq_refl)
    as (m & d2 & S1 & Hr & _ & S2 & _).
  exists m, d2. split; [exact S1|]. split; [exact Hr|exact S2].
Defined.

(* ================================================================== *)
(** * The document has one page *)
(* ================================================================== *)

Lemma item_ops_no_showPage row y :
  filter is_showPage (fst (item_ops row y)) = [].
Proof.
  unfold item_ops. now destruct (Py.truthy (specifications (i_item row))).
Qed.

Lemma item_ops_height row y :
  snd (item_ops row y)
  = (y + 15 + (if has_specifications row then 12 else 0))%Z.
Proof.
  unfold item_ops, has_specifications.
  destruct (Py.truthy (specifications (i_item row))); cbn [snd]; lia.
Qed.

Lemma items_ops_no_showPage rows y :
  filter is_showPage (fst (items_ops rows y)) = [].
Proof.
  revert y. induction rows as [|row rows IH]; intros y; [reflexivity|].
  simpl. pose proof (item_ops_no_showPage row y) as H.
  destruct (item_ops row y) as [a y1]. specialize (IH y1).
  destruct (items_ops rows y1) as [b y2]. cbn [fst] in *.
  now rewrite filter_app, H, IH.
Qed.

(** Every line moves the pen down by 15 points, and by 12 more when it
    has specifications. *)
Lemma items_ops_height rows y :
  snd (items_ops rows y)
  = (y + 15 * Z.of_nat (List.length rows)
     + 12 * Z.of_nat (List.length (filter has_specifications rows)))%Z.
Proof.
  revert y. induction rows as [|row rows IH]; intros y; [simpl; lia|].
  cbn [items_ops]. pose proof (item_ops_height row y) as H.
  destruct (item_ops row y) as [a y1]. specialize (IH y1).
  destruct (items_ops rows y1) as [b y2]. cbn [fst snd] in *.
  subst y1 y2. cbn [filter List.length].
  destruct (has_specifications row); cbn [List.length]; lia.
Qed.

Lemma issuer_ops_no_showPage u : filter is_showPage (issuer_ops u) = [].
Proof.
  unfold issuer_ops, draw_if.
  destruct (Py.truthy (u_company u)), (Py.truthy (u_company_address u)),
    (Py.truthy (u_phone u)); reflexivity.
Qed.

Lemma customer_ops_no_showPage c : filter is_showPage (customer_ops c) = [].
Proof.
  unfold customer_ops, draw_if.
  destruct (Py.truthy (Some (c_name c))), (Py.truthy (c_company c)),
    (Py.truthy (c_address c)), (Py.truthy (c_phone c)); reflexivity.
Qed.

Lemma totals_ops_no_showPage q y :
  filter is_showPage (fst (totals_ops q y)) = [].
Proof.
  unfold totals_ops. now destruct (PrimFloat.ltb 0 (q_discount_amount q)).
Qed.

Lemma totals_ops_subtotal q y :
  In (drawString 380 (y + 30) ARA_TOPLAM) (fst (totals_ops q y)).
Proof.
  unfold totals_ops.
  destruct (PrimFloat.ltb 0 (q_discount_amount q)); cbn [fst];
    replace (y + 10 + 20)%Z with (y + 30)%Z by lia;
    right; right; now left.
Qed.

Lemma notes_ops_no_showPage q y : filter is_showPage (notes_ops q y) = [].
Proof. unfold notes_ops. now destruct (Py.truthy (q_notes q)). Qed.

(** The document has one page.  Whatever the number of lines, the
    document a successful request returns ends its only page after
    everything is drawn: no page is ended between the lines.  The pen
    starts 300 points below the top edge and moves down by 15 for every
    line and by 12 more for every line with specifications, so that the
    subtotal is drawn 330 + 15 n + 12 k points below the top edge: with
    35 lines or more that is below the bottom edge of the page. *)
Theorem document_is_one_page :
  forall (quotation_id : id) (current_user : user_row) (d : db)
         response d',
    generate_quotation_pdf quotation_id current_user d
    = (Ok response, d') ->
    let rows := items_of quotation_id (quotation_items d) in
    let y :=
      (330 + 15 * Z.of_nat (List.length rows)
       + 12 * Z.of_nat (List.length (filter has_specifications rows)))%Z in
    (exists ops,
        content response = ops ++ [showPage; save]
        /\ filter is_showPage ops = []
        /\ In (drawString 380 y ARA_TOPLAM) ops)
    /\ ((35 <= List.length rows)%nat -> (A4_height_rounded_up < y)%Z).
Proof.
  intros i u d response d' E rows y.
  unfold generate_quotation_pdf in E.
  destruct (select_owned q_id q_user_id i (u_id u) (quotations d))
    as [|q rest]; [discriminate|].
  destruct (customer_of d q) as [c|]; [|discriminate].
  injection E as Er Ed. subst response. cbn [content]. fold rows.
  split; [|unfold A4_height_rounded_up; subst y; lia].
  rewrite render_blocks.
  exists (title_ops q ++ issuer_ops u ++ customer_ops c ++ table_head_ops
          ++ fst (items_ops rows 300)
          ++ fst (totals_ops q (snd (items_ops rows 300)))
          ++ notes_ops q (snd (totals_ops q (snd (items_ops rows 300))))).
  split; [now rewrite <- !app_assoc|]. split.
  - rewrite !filter_app, issuer_ops_no_showPage, customer_ops_no_showPage,
      items_ops_no_showPage, totals_ops_no_showPage, notes_ops_no_showPage.
    reflexivity.
  - do 5 (apply in_or_app; right). apply in_or_app. left.
    rewrite items_ops_height.
    replace y with (300 + 15 * Z.of_nat (List.length rows)
                    + 12 * Z.of_nat
                             (List.length (filter has_specifications rows))
                    + 30)%Z by (subst y; lia).
    apply totals_ops_subtotal.
Qed.

(** Alice's quotation of 40 lines: the subtotal is drawn 930 points
    below the top edge of a page of 842. *)
Lemma document_is_one_page_witness :
  exists response ops,
    fst (generate_quotation_pdf 4%N alice store_40_lines) = Ok response
    /\ content response = ops ++ [showPage; save]
    /\ filter is_showPage ops = []
    /\ In (drawString 380 930 ARA_TOPLAM) ops.
Proof.
  destruct (generate_quotation_pdf 4%N alice store_40_lines)
    as [[response|f] d'] eqn:E.
  - destruct (document_is_one_page 4%N alice store_40_lines response d' E)
      as ((ops & Hc & Hs & Hy) & _).
    exists response, ops. split; [reflexivity|].
    split; [exact Hc|]. split; [exact Hs|]. exact Hy.
  - vm_compute in E. discriminate E.
Defined.
